(** * ZombiesGame: physics world, collision resolver, movement, jump control
    and zombies

    A shallow embedding of [src/physics/PhysicsWorld.js], [src/player/Player.js],
    [src/player/Movement.js] and [src/entities/Zombie.js].

    Numbers.  A JavaScript [number] is modelled as a real number: arithmetic is
    exact, and neither rounding nor [NaN]/[Infinity] is represented.  The test
    [x || d] on a number is therefore "[d] when [x] is zero, else [x]".
    The one exception is the accumulator of [PhysicsWorld.update], where the
    rounding of each subtraction decides how often the loop runs: the
    accumulator, the time step and the frame time are binary64 numbers with
    the arithmetic of IEEE 754, as in JavaScript.

    Time.  Every call of [performance.now()] is an input of the model: the
    functions that read the clock take the value read as an argument.

    Objects.  Each function takes the objects it mutates and returns them as
    they are when the JavaScript function returns. *)

From Stdlib Require Import PrimFloat.
From Stdlib Require FloatOps SpecFloat FloatAxioms.
From Stdlib Require Import Reals Lra Lia List Bool String ZArith.
Import ListNotations.
Open Scope R_scope.
#[local] Set Warnings "-inexact-float".

(** ** Comparisons on numbers, as booleans *)

Definition Rltb (a b : R) : bool := if Rlt_dec a b then true else false.
Definition Rleb (a b : R) : bool := if Rle_dec a b then true else false.
Definition Reqb (a b : R) : bool := if Req_dec_T a b then true else false.

Notation "a <? b" := (Rltb a b) (at level 70, no associativity) : R_scope.
Notation "a <=? b" := (Rleb a b) (at level 70, no associativity) : R_scope.
Notation "a =? b" := (Reqb a b) (at level 70, no associativity) : R_scope.

(** [x || d] for a number [x]. *)
Definition orDefault (x d : R) : R := if x =? 0 then d else x.

(** [x || d] for a property that may be missing ([undefined] is falsy). *)
Definition orDefaultOpt (x : option R) (d : R) : R :=
  match x with
  | Some v => orDefault v d
  | None => d
  end.

(** ** Doubles

    The binary64 numbers of JavaScript are the [float] of the kernel; their
    operations round to nearest, ties to even. *)

Module Double.


End Double.

(** ** three.js [Vector3] *)

Module Vector3.

Record t : Type := mk { x : R; y : R; z : R }.

Definition zero : t := mk 0 0 0.

Definition add (a b : t) : t := mk (x a + x b) (y a + y b) (z a + z b).
Definition sub (a b : t) : t := mk (x a - x b) (y a - y b) (z a - z b).
Definition multiplyScalar (a : t) (s : R) : t := mk (x a * s) (y a * s) (z a * s).
Definition addScaledVector (a v : t) (s : R) : t :=
  mk (x a + x v * s) (y a + y v * s) (z a + z v * s).
Definition dot (a b : t) : R := x a * x b + y a * y b + z a * z b.
Definition lengthSq (a : t) : R := x a * x a + y a * y a + z a * z a.
Definition length (a : t) : R := sqrt (lengthSq a).

(** [divideScalar(s)] is [multiplyScalar(1 / s)]. *)
Definition divideScalar (a : t) (s : R) : t := multiplyScalar a (1 / s).

(** [normalize()] is [divideScalar(length() || 1)]. *)
Definition normalize (a : t) : t := divideScalar a (orDefault (length a) 1).

Definition distanceTo (a b : t) : R :=
  sqrt ((x a - x b) * (x a - x b) + (y a - y b) * (y a - y b)
        + (z a - z b) * (z a - z b)).

Definition set_x (a : t) (v : R) : t := mk v (y a) (z a).
Definition set_y (a : t) (v : R) : t := mk (x a) v (z a).
Definition set_z (a : t) (v : R) : t := mk (x a) (y a) v.

End Vector3.

(** ** three.js [Euler] and [Quaternion] *)

Module Euler.
(** The three angles; the order of the rotations is kept by the caller. *)
Record t : Type := mk { x : R; y : R; z : R }.
End Euler.

Module Quaternion.

Record t : Type := mk { x : R; y : R; z : R; w : R }.

(** [setFromEuler(euler)] for an [Euler] of the default order ['XYZ']. *)
Definition setFromEuler (e : Euler.t) : t :=
  let c1 := cos (Euler.x e / 2) in
  let c2 := cos (Euler.y e / 2) in
  let c3 := cos (Euler.z e / 2) in
  let s1 := sin (Euler.x e / 2) in
  let s2 := sin (Euler.y e / 2) in
  let s3 := sin (Euler.z e / 2) in
  mk (s1 * c2 * c3 + c1 * s2 * s3)
     (c1 * s2 * c3 - s1 * c2 * s3)
     (c1 * c2 * s3 + s1 * s2 * c3)
     (c1 * c2 * c3 - s1 * s2 * s3).

(** [Vector3.applyQuaternion(q)]: [v + q.w * t + cross(q.xyz, t)] with
    [t = 2 * cross(q.xyz, v)]. *)
Definition applyQuaternion (v : Vector3.t) (q : t) : Vector3.t :=
  let vx := Vector3.x v in
  let vy := Vector3.y v in
  let vz := Vector3.z v in
  let tx := 2 * (y q * vz - z q * vy) in
  let ty := 2 * (z q * vx - x q * vz) in
  let tz := 2 * (x q * vy - y q * vx) in
  Vector3.mk (vx + w q * tx + y q * tz - z q * ty)
             (vy + w q * ty + z q * tx - x q * tz)
             (vz + w q * tz + x q * ty - y q * tx).

End Quaternion.

(** ** Bodies *)

Module Body.

(** Modelled from the spec: the class [Collider] ([src/physics/Collider.js]
    is not among the sources).  Section 3 of the specification gives a
    collider a copy of its owner's position, which [updatePosition]
    refreshes; the shape plays no part in the functions embedded here. *)
Record Collider : Type := mkCollider { colliderPosition : Vector3.t }.

Definition updatePosition (c : Collider) (p : Vector3.t) : Collider :=
  mkCollider p.

(** Modelled from the spec: the class [PhysicsBody]
    ([src/physics/PhysicsBody.js] is not among the sources).  The fields are
    those of section 3 of the specification, with the optional [radius] that
    [PhysicsWorld] reads and [Player] passes to the constructor. *)
Record t : Type := mk {
  position : Vector3.t;
  velocity : Vector3.t;
  mass : R;
  invMass : R;
  restitution : R;
  friction : R;
  usesGravity : bool;
  isStatic : bool;
  onGround : bool;
  radius : option R;
  collider : option Collider
}.

Definition with_position (b : t) (p : Vector3.t) : t :=
  mk p (velocity b) (mass b) (invMass b) (restitution b) (friction b)
     (usesGravity b) (isStatic b) (onGround b) (radius b) (collider b).

Definition with_velocity (b : t) (v : Vector3.t) : t :=
  mk (position b) v (mass b) (invMass b) (restitution b) (friction b)
     (usesGravity b) (isStatic b) (onGround b) (radius b) (collider b).

Definition with_onGround (b : t) (g : bool) : t :=
  mk (position b) (velocity b) (mass b) (invMass b) (restitution b)
     (friction b) (usesGravity b) (isStatic b) g (radius b) (collider b).

Definition with_collider (b : t) (c : option Collider) : t :=
  mk (position b) (velocity b) (mass b) (invMass b) (restitution b)
     (friction b) (usesGravity b) (isStatic b) (onGround b) (radius b) c.

(** [if (body.collider) body.collider.updatePosition(body.position)] *)
Definition refreshCollider (b : t) : t :=
  match collider b with
  | Some c => with_collider b (Some (updatePosition c (position b)))
  | None => b
  end.

(** The data invariant of section 3: the inverse mass is [0] for a static
    body and [1 / mass], with [mass > 0], for a dynamic one. *)
Definition wf (b : t) : Prop := 0 <= invMass b.

End Body.

(** ** [PhysicsWorld] *)

(** How a JavaScript call ends. *)
Inductive Completion (A : Type) : Type :=
| Returned (v : A)
| Thrown (e : string).
Arguments Returned {A} v.
Arguments Thrown {A} e.

(** The values [addBody] can be called with: the test [body instanceof
    PhysicsBody] holds for the instances of [PhysicsBody] and of its
    subclasses ([StaticBody], [GroundPlane], [BoxObstacle]) and for nothing
    else. *)
Inductive JsValue : Type :=
| JsUndefined
| JsNull
| JsNumber (n : R)
| JsString (s : string)
| JsObject (keys : list string)
| JsPhysicsBody (b : Body.t).

(** The body behind a value that passes [instanceof PhysicsBody]. *)
Definition asPhysicsBody (v : JsValue) : option Body.t :=
  match v with
  | JsPhysicsBody b => Some b
  | _ => None
  end.

Module PhysicsWorld.

Record t : Type := mk {
  bodies : list Body.t;
  staticBodies : list Body.t;
  gravity : Vector3.t;
  accumulator : float;
  fixedTimeStep : float;
  consoleErrors : list string   (* what [console.error] has printed *)
}.

(** [this.groundThreshold], set by the constructor and never reassigned. *)
Definition groundThreshold : R := 0.15.

(** The constructor, from [engine.config.gravity] and
    [engine.config.physicsFPS]. *)
Definition create (configGravity : R) (physicsFPS : float) : t :=
  mk [] [] (Vector3.mk 0 configGravity 0) 0%float (1 / physicsFPS)%float [].

Definition with_bodies (w : t) (l : list Body.t) : t :=
  mk l (staticBodies w) (gravity w) (accumulator w) (fixedTimeStep w)
     (consoleErrors w).

Definition with_staticBodies (w : t) (l : list Body.t) : t :=
  mk (bodies w) l (gravity w) (accumulator w) (fixedTimeStep w)
     (consoleErrors w).

Definition with_accumulator (w : t) (a : float) : t :=
  mk (bodies w) (staticBodies w) (gravity w) a (fixedTimeStep w)
     (consoleErrors w).

Definition console_error (w : t) (msg : string) : t :=
  mk (bodies w) (staticBodies w) (gravity w) (accumulator w)
     (fixedTimeStep w) (consoleErrors w ++ [msg]).

(** [addBody(body)], lines 31-45. *)
Definition addBody (body : JsValue) (w : t) : t * Completion (option Body.t) :=
  match asPhysicsBody body with
  | None =>
      (console_error w
         "Trying to add a non-PhysicsBody object to the physics world",
       Returned None)
  | Some b =>
      if Body.isStatic b
      then (with_staticBodies w (staticBodies w ++ [b]), Returned (Some b))
      else (with_bodies w (bodies w ++ [b]), Returned (Some b))
  end.

(** [update(deltaTime)], lines 85-93, in the double arithmetic of the
    source.  [fixedUpdate] (lines 99-115) calls the bodies' own methods and
    [detectCollisions]; it assigns neither [this.accumulator] nor
    [this.fixedTimeStep], so what it does to the two collections is a
    parameter here.  The loop returns the world together with the arguments
    of the [fixedUpdate] calls it made, in order; [None] means that [fuel]
    iterations did not end it. *)
Section Update.

Variable fixedUpdateBodies :
  float -> list Body.t * list Body.t -> list Body.t * list Body.t.

Definition fixedUpdate (timeStep : float) (w : t) : t :=
  let r := fixedUpdateBodies timeStep (bodies w, staticBodies w) in
  mk (fst r) (snd r) (gravity w) (accumulator w) (fixedTimeStep w)
     (consoleErrors w).

Fixpoint updateLoop (fuel : nat) (w : t) (calls : list float)
  : option (t * list float) :=
  if (fixedTimeStep w <=? accumulator w)%float then
    match fuel with
    | O => None
    | S fuel' =>
        let w1 := fixedUpdate (fixedTimeStep w) w in
        updateLoop fuel'
          (with_accumulator w1 (accumulator w1 - fixedTimeStep w1)%float)
          (calls ++ [fixedTimeStep w])
    end
  else Some (w, calls).

Definition update (fuel : nat) (deltaTime : float) (w : t)
  : option (t * list float) :=
  updateLoop fuel (with_accumulator w (accumulator w + deltaTime)%float) [].

End Update.

(** The accumulator [a] after [k] subtractions of [step], each rounded. *)
Fixpoint accumulatorAfter (step a : float) (k : nat) : float :=
  match k with
  | O => a
  | S k' => accumulatorAfter step (a - step)%float k'
  end.

(** The loop of [update] ends after exactly [n] calls: the test
    [accumulator >= fixedTimeStep] holds before each of them and fails after
    the last. *)
Definition endsAfter (step a : float) (n : nat) : Prop :=
  (forall k, (k < n)%nat ->
     (step <=? accumulatorAfter step a k)%float = true)
  /\ (step <=? accumulatorAfter step a n)%float = false.

(** [checkWorldBounds(body)], lines 150-174. *)
Definition checkWorldBounds (body : Body.t) : Body.t :=
  if Vector3.y (Body.position body) <? groundThreshold then
    let body1 :=
      if Vector3.y (Body.position body) <? 0
      then Body.with_position body (Vector3.set_y (Body.position body) 0.05)
      else body in
    if Vector3.y (Body.velocity body1) <=? 0.1 then
      let body2 := Body.with_onGround body1 true in
      if Vector3.y (Body.velocity body2) <? 0
      then Body.with_velocity body2 (Vector3.set_y (Body.velocity body2) 0)
      else body2
    else body1
  else Body.with_onGround body false.

(** What a body's [checkCollision] hands back. *)
Record CollisionInfo : Type := mkInfo { normal : Vector3.t; depth : R }.

(** [resolveCollision(bodyA, bodyB)], lines 201-357, for two distinct
    bodies, as [detectCollisions] pairs them. *)
Section Resolve.

(** The method [checkCollision] of a body belongs to [PhysicsBody.js]:
    [bodyCheckCollision a b] is what [a.checkCollision(b)] returns, [None]
    when [a] has no such method or the call returns [null]. *)
Variable bodyCheckCollision : Body.t -> Body.t -> option CollisionInfo.

(** Lines 203-216: the contact from [bodyA], else from [bodyB] with its
    normal inverted. *)
Definition collisionInfo (bodyA bodyB : Body.t) : option CollisionInfo :=
  match bodyCheckCollision bodyA bodyB with
  | Some info => Some info
  | None =>
      match bodyCheckCollision bodyB bodyA with
      | Some info =>
          Some (mkInfo (Vector3.multiplyScalar (normal info) (-1))
                       (depth info))
      | None => None
      end
  end.

(** Lines 229-230 and 301: velocity of A relative to B, along [n]. *)
Definition velAlongNormal (bodyA bodyB : Body.t) (n : Vector3.t) : R :=
  Vector3.dot (Vector3.sub (Body.velocity bodyA) (Body.velocity bodyB)) n.

(** Lines 219-289.  [aIsPlayer] is the test
    [bodyA === this.engine.player?.physicsBody]. *)
Definition resolveWithInfo (aIsPlayer : bool) (info : CollisionInfo)
    (bodyA bodyB : Body.t) : Body.t * Body.t :=
  let n := normal info in
  let vn := velAlongNormal bodyA bodyB n in
  if 0 <? vn then (bodyA, bodyB) else
  let e := Rmin (orDefault (Body.restitution bodyA) 0)
                (orDefault (Body.restitution bodyB) 0) in
  let j := - (1 + e) * vn in
  let invMassA := orDefault (Body.invMass bodyA) 0 in
  let invMassB := orDefault (Body.invMass bodyB) 0 in
  let invMassSum := invMassA + invMassB in
  if invMassSum =? 0 then (bodyA, bodyB) else
  let j := j / invMassSum in
  let impulse := Vector3.multiplyScalar n j in
  let a1 :=
    if 0 <? invMassA
    then Body.with_velocity bodyA
           (Vector3.add (Body.velocity bodyA)
              (Vector3.multiplyScalar impulse invMassA))
    else bodyA in
  let b1 :=
    if 0 <? invMassB
    then Body.with_velocity bodyB
           (Vector3.sub (Body.velocity bodyB)
              (Vector3.multiplyScalar impulse invMassB))
    else bodyB in
  let '(a2, b2) :=
    if 0 <? depth info then
      let correction := Vector3.multiplyScalar n (depth info * 1.0) in
      let a' :=
        if 0 <? invMassA
        then Body.with_position a1
               (Vector3.add (Body.position a1)
                  (Vector3.multiplyScalar correction
                     (invMassA / invMassSum)))
        else a1 in
      let b' :=
        if 0 <? invMassB
        then Body.with_position b1
               (Vector3.sub (Body.position b1)
                  (Vector3.multiplyScalar correction
                     (invMassB / invMassSum)))
        else b1 in
      (Body.refreshCollider a', Body.refreshCollider b')
    else (a1, b1) in
  let a3 :=
    if (0.7 <? Vector3.y n) && aIsPlayer
    then Body.with_onGround a2 true
    else a2 in
  (a3, b2).

(** Lines 291-357: the sphere fallback. *)
Definition resolveSpheres (aIsPlayer : bool) (bodyA bodyB : Body.t)
  : Body.t * Body.t :=
  let n := Vector3.normalize
             (Vector3.sub (Body.position bodyA) (Body.position bodyB)) in
  let vn := velAlongNormal bodyA bodyB n in
  if 0 <? vn then (bodyA, bodyB) else
  let e := Rmin (orDefault (Body.restitution bodyA) 0.3)
                (orDefault (Body.restitution bodyB) 0.3) in
  let j := - (1 + e) * vn in
  let invMassSum := orDefault (Body.invMass bodyA) 0
                    + orDefault (Body.invMass bodyB) 0 in
  if invMassSum =? 0 then (bodyA, bodyB) else
  let impulse := j / invMassSum in
  let impulseVec := Vector3.multiplyScalar n impulse in
  let a1 :=
    if 0 <? Body.invMass bodyA
    then Body.with_velocity bodyA
           (Vector3.add (Body.velocity bodyA)
              (Vector3.multiplyScalar impulseVec (Body.invMass bodyA)))
    else bodyA in
  let b1 :=
    if 0 <? Body.invMass bodyB
    then Body.with_velocity bodyB
           (Vector3.sub (Body.velocity bodyB)
              (Vector3.multiplyScalar impulseVec (Body.invMass bodyB)))
    else bodyB in
  let minDist := orDefaultOpt (Body.radius bodyA) 0.5
                 + orDefaultOpt (Body.radius bodyB) 0.5 in
  let dist := Vector3.distanceTo (Body.position a1) (Body.position b1) in
  let correction := Rmax (minDist - dist) 0 * 0.8 in
  let '(a2, b2) :=
    if 0 <? correction then
      let correctionVec := Vector3.multiplyScalar n correction in
      let corrA := Vector3.multiplyScalar correctionVec
                     (Body.invMass a1 / invMassSum) in
      let corrB := Vector3.multiplyScalar correctionVec
                     (Body.invMass b1 / invMassSum) in
      let a' :=
        if 0 <? Body.invMass a1
        then Body.refreshCollider
               (Body.with_position a1
                  (Vector3.add (Body.position a1) corrA))
        else a1 in
      let b' :=
        if 0 <? Body.invMass b1
        then Body.refreshCollider
               (Body.with_position b1
                  (Vector3.sub (Body.position b1) corrB))
        else b1 in
      (a', b')
    else (a1, b1) in
  let a3 :=
    if (0.7 <? Vector3.y n) && aIsPlayer
    then Body.with_onGround a2 true
    else a2 in
  (a3, b2).

Definition resolveCollision (aIsPlayer : bool) (bodyA bodyB : Body.t)
  : Body.t * Body.t :=
  match collisionInfo bodyA bodyB with
  | Some info => resolveWithInfo aIsPlayer info bodyA bodyB
  | None => resolveSpheres aIsPlayer bodyA bodyB
  end.

End Resolve.

(** [checkCollision(bodyA, bodyB)] and [detectCollisions()], lines 120-194. *)
Section Detect.

(** The method [intersects] of a collider belongs to [Collider.js]. *)
Variable intersects : Body.Collider -> Body.Collider -> bool.

Variable bodyCheckCollision : Body.t -> Body.t -> option CollisionInfo.

(** Lines 182-194. *)
Definition checkCollision (bodyA bodyB : Body.t) : bool :=
  match Body.collider bodyA, Body.collider bodyB with
  | Some colliderA, Some colliderB => intersects colliderA colliderB
  | _, _ =>
      let minDist := orDefaultOpt (Body.radius bodyA) 0
                     + orDefaultOpt (Body.radius bodyB) 0 in
      if minDist <=? 0 then false
      else Vector3.distanceTo (Body.position bodyA) (Body.position bodyB)
           <? minDist
  end.

(** Either inner loop of [detectCollisions] (lines 129-135 and 138-142):
    [bodyA] against each body of [others] in turn.  Every slot of the two
    arrays is taken to hold an object of its own. *)
Fixpoint collideWith (aIsPlayer : bool) (bodyA : Body.t)
    (others : list Body.t) : Body.t * list Body.t :=
  match others with
  | [] => (bodyA, [])
  | bodyB :: rest =>
      let r := if checkCollision bodyA bodyB
               then resolveCollision bodyCheckCollision aIsPlayer bodyA bodyB
               else (bodyA, bodyB) in
      let r' := collideWith aIsPlayer (fst r) rest in
      (fst r', snd r :: snd r')
  end.

(** The outer loop (lines 122-143) from the index [i] on: [rest] holds
    [bodies[i]], [bodies[i + 1]], ...; [n] counts the iterations left and
    [player] is the index of the player's body in [bodies], if it is there. *)
Fixpoint detectFrom (n i : nat) (player : option nat)
    (rest statics : list Body.t) : list Body.t * list Body.t :=
  match n, rest with
  | S n', bodyA :: later =>
      let aIsPlayer :=
        match player with
        | Some k => Nat.eqb k i
        | None => false
        end in
      let a1 := checkWorldBounds bodyA in
      let r1 := collideWith aIsPlayer a1 later in
      let r2 := collideWith aIsPlayer (fst r1) statics in
      let r3 := detectFrom n' (S i) player (snd r1) (snd r2) in
      (fst r2 :: fst r3, snd r3)
  | _, _ => (rest, statics)
  end.

(** [detectCollisions()], lines 120-144. *)
Definition detectCollisions (player : option nat) (w : t) : t :=
  let r := detectFrom (List.length (bodies w)) 0 player (bodies w)
             (staticBodies w) in
  with_staticBodies (with_bodies w (fst r)) (snd r).

End Detect.

End PhysicsWorld.

(** ** The arrays of [PhysicsWorld] as arrays of references

    [removeBody] and [clear] look bodies up by identity.  Here a body is a
    reference and [object] gives the object behind it. *)

Module WorldRefs.

Definition Ref : Type := nat.

Record t : Type := mk {
  object : Ref -> Body.t;
  bodies : list Ref;
  staticBodies : list Ref
}.

(** [Array.prototype.indexOf]: [None] stands for [-1]. *)
Fixpoint indexOf (r : Ref) (l : list Ref) : option nat :=
  match l with
  | [] => None
  | x :: rest =>
      if Nat.eqb x r then Some 0%nat
      else match indexOf r rest with
           | Some i => Some (S i)
           | None => None
           end
  end.

(** [splice(index, 1)]. *)
Fixpoint splice1 (index : nat) (l : list Ref) : list Ref :=
  match l, index with
  | [], _ => []
  | _ :: rest, O => rest
  | x :: rest, S i => x :: splice1 i rest
  end.

(** [addBody(body)] for a [PhysicsBody], lines 37-44. *)
Definition addBody (body : Ref) (w : t) : t :=
  if Body.isStatic (object w body)
  then mk (object w) (bodies w) (staticBodies w ++ [body])
  else mk (object w) (bodies w ++ [body]) (staticBodies w).

(** [removeBody(body)], lines 51-63. *)
Definition removeBody (body : Ref) (w : t) : t :=
  if Body.isStatic (object w body) then
    match indexOf body (staticBodies w) with
    | Some index => mk (object w) (bodies w) (splice1 index (staticBodies w))
    | None => w
    end
  else
    match indexOf body (bodies w) with
    | Some index => mk (object w) (splice1 index (bodies w)) (staticBodies w)
    | None => w
    end.

(** [clear()], lines 68-79; [player] is [this.engine.player?.physicsBody]. *)
Definition clear (player : option Ref) (w : t) : t :=
  match player with
  | Some playerBody =>
      mk (object w)
         (if Body.isStatic (object w playerBody) then [] else [playerBody])
         (if Body.isStatic (object w playerBody) then [playerBody] else [])
  | None => mk (object w) [] []
  end.

(** The objects in the two arrays. *)
Definition dynamicObjects (w : t) : list Body.t := map (object w) (bodies w).
Definition staticObjects (w : t) : list Body.t :=
  map (object w) (staticBodies w).

(** A field of an object is assigned: [body.isStatic = flag]. *)
Definition setStatic (body : Ref) (flag : bool) (w : t) : t :=
  mk (fun r => if Nat.eqb r body
               then Body.mk (Body.position (object w r))
                      (Body.velocity (object w r)) (Body.mass (object w r))
                      (Body.invMass (object w r))
                      (Body.restitution (object w r))
                      (Body.friction (object w r))
                      (Body.usesGravity (object w r)) flag
                      (Body.onGround (object w r)) (Body.radius (object w r))
                      (Body.collider (object w r))
               else object w r)
     (bodies w) (staticBodies w).

End WorldRefs.

(** ** The state of [Player] and of its [Movement] *)

Module State.

(** The fields of [Movement] that change after the constructor. *)
Record Movement : Type := mkMovement {
  moveDirection : Vector3.t;
  targetVelocity : Vector3.t;
  lastMoveInput : Vector3.t;
  lastDirection : Vector3.t;
  lastSpeed : R;
  directionChangeTime : R;
  hasChangedDirection : bool
}.

(** The fields of [Player] that [update] and [processJump] read or write. *)
Record Player : Type := mkPlayer {
  position : Vector3.t;
  velocity : Vector3.t;
  viewRotation : Euler.t;
  moveInput : Vector3.t;
  isJumping : bool;
  isSprinting : bool;
  jumpCount : nat;
  maxJumps : nat;
  onGround : bool;
  lastJumpTime : R;
  jumpRequested : bool;
  jumpBufferTime : R;
  lastGroundedTime : R;
  isDead : bool;
  physicsBody : Body.t;
  movement : Movement
}.

Definition with_moveDirection (m : Movement) (v : Vector3.t) : Movement :=
  mkMovement v (targetVelocity m) (lastMoveInput m) (lastDirection m)
    (lastSpeed m) (directionChangeTime m) (hasChangedDirection m).

Definition with_targetVelocity (m : Movement) (v : Vector3.t) : Movement :=
  mkMovement (moveDirection m) v (lastMoveInput m) (lastDirection m)
    (lastSpeed m) (directionChangeTime m) (hasChangedDirection m).

Definition with_directionChange (m : Movement) (time : R) (flag : bool)
  : Movement :=
  mkMovement (moveDirection m) (targetVelocity m) (lastMoveInput m)
    (lastDirection m) (lastSpeed m) time flag.

Definition with_last (m : Movement) (input dir : Vector3.t) (speed : R)
  : Movement :=
  mkMovement (moveDirection m) (targetVelocity m) input dir speed
    (directionChangeTime m) (hasChangedDirection m).

Definition with_movement (p : Player) (m : Movement) : Player :=
  mkPlayer (position p) (velocity p) (viewRotation p) (moveInput p)
    (isJumping p) (isSprinting p) (jumpCount p) (maxJumps p) (onGround p)
    (lastJumpTime p) (jumpRequested p) (jumpBufferTime p)
    (lastGroundedTime p) (isDead p) (physicsBody p) m.

Definition with_physicsBody (p : Player) (b : Body.t) : Player :=
  mkPlayer (position p) (velocity p) (viewRotation p) (moveInput p)
    (isJumping p) (isSprinting p) (jumpCount p) (maxJumps p) (onGround p)
    (lastJumpTime p) (jumpRequested p) (jumpBufferTime p)
    (lastGroundedTime p) (isDead p) b (movement p).

Definition with_isJumping (p : Player) (f : bool) : Player :=
  mkPlayer (position p) (velocity p) (viewRotation p) (moveInput p)
    f (isSprinting p) (jumpCount p) (maxJumps p) (onGround p)
    (lastJumpTime p) (jumpRequested p) (jumpBufferTime p)
    (lastGroundedTime p) (isDead p) (physicsBody p) (movement p).

Definition with_kinematics (p : Player) (pos vel : Vector3.t) : Player :=
  mkPlayer pos vel (viewRotation p) (moveInput p)
    (isJumping p) (isSprinting p) (jumpCount p) (maxJumps p) (onGround p)
    (lastJumpTime p) (jumpRequested p) (jumpBufferTime p)
    (lastGroundedTime p) (isDead p) (physicsBody p) (movement p).

Definition with_onGround (p : Player) (g : bool) : Player :=
  mkPlayer (position p) (velocity p) (viewRotation p) (moveInput p)
    (isJumping p) (isSprinting p) (jumpCount p) (maxJumps p) g
    (lastJumpTime p) (jumpRequested p) (jumpBufferTime p)
    (lastGroundedTime p) (isDead p) (physicsBody p) (movement p).

Definition with_jumpCount (p : Player) (n : nat) : Player :=
  mkPlayer (position p) (velocity p) (viewRotation p) (moveInput p)
    (isJumping p) (isSprinting p) n (maxJumps p) (onGround p)
    (lastJumpTime p) (jumpRequested p) (jumpBufferTime p)
    (lastGroundedTime p) (isDead p) (physicsBody p) (movement p).

Definition with_lastJumpTime (p : Player) (time : R) : Player :=
  mkPlayer (position p) (velocity p) (viewRotation p) (moveInput p)
    (isJumping p) (isSprinting p) (jumpCount p) (maxJumps p) (onGround p)
    time (jumpRequested p) (jumpBufferTime p)
    (lastGroundedTime p) (isDead p) (physicsBody p) (movement p).

Definition with_jumpRequest (p : Player) (f : bool) (time : R) : Player :=
  mkPlayer (position p) (velocity p) (viewRotation p) (moveInput p)
    (isJumping p) (isSprinting p) (jumpCount p) (maxJumps p) (onGround p)
    (lastJumpTime p) f time
    (lastGroundedTime p) (isDead p) (physicsBody p) (movement p).

Definition with_lastGroundedTime (p : Player) (time : R) : Player :=
  mkPlayer (position p) (velocity p) (viewRotation p) (moveInput p)
    (isJumping p) (isSprinting p) (jumpCount p) (maxJumps p) (onGround p)
    (lastJumpTime p) (jumpRequested p) (jumpBufferTime p)
    time (isDead p) (physicsBody p) (movement p).

(** [this.player.physicsBody.velocity = v] *)
Definition with_bodyVelocity (p : Player) (v : Vector3.t) : Player :=
  with_physicsBody p (Body.with_velocity (physicsBody p) v).

Definition with_viewRotation (p : Player) (e : Euler.t) : Player :=
  mkPlayer (position p) (velocity p) e (moveInput p)
    (isJumping p) (isSprinting p) (jumpCount p) (maxJumps p) (onGround p)
    (lastJumpTime p) (jumpRequested p) (jumpBufferTime p)
    (lastGroundedTime p) (isDead p) (physicsBody p) (movement p).

Definition with_moveInput (p : Player) (v : Vector3.t) : Player :=
  mkPlayer (position p) (velocity p) (viewRotation p) v
    (isJumping p) (isSprinting p) (jumpCount p) (maxJumps p) (onGround p)
    (lastJumpTime p) (jumpRequested p) (jumpBufferTime p)
    (lastGroundedTime p) (isDead p) (physicsBody p) (movement p).

Definition with_isDead (p : Player) (d : bool) : Player :=
  mkPlayer (position p) (velocity p) (viewRotation p) (moveInput p)
    (isJumping p) (isSprinting p) (jumpCount p) (maxJumps p) (onGround p)
    (lastJumpTime p) (jumpRequested p) (jumpBufferTime p)
    (lastGroundedTime p) d (physicsBody p) (movement p).

Definition with_playerPosition (p : Player) (v : Vector3.t) : Player :=
  mkPlayer v (velocity p) (viewRotation p) (moveInput p)
    (isJumping p) (isSprinting p) (jumpCount p) (maxJumps p) (onGround p)
    (lastJumpTime p) (jumpRequested p) (jumpBufferTime p)
    (lastGroundedTime p) (isDead p) (physicsBody p) (movement p).

(** The fields of [Player] for its health (lines 30-34). *)
Record Vitals : Type := mkVitals {
  health : R;
  maxHealth : R;
  lastDamageTime : R
}.

(** The fields that [Player.update] and [processJump] keep for jumping:
    everything but the kinematics, the body, the view, the input and the
    [Movement] object. *)
Definition jumpState (p : Player)
  : bool * R * nat * nat * bool * R * R * bool :=
  (jumpRequested p, jumpBufferTime p, jumpCount p, maxJumps p, onGround p,
   lastJumpTime p, lastGroundedTime p, isDead p).

End State.

(** ** [Movement] *)

Module Movement.

Import State.

(** The parameters, set by the constructor and never reassigned. *)
Definition walkSpeed : R := 6.0.
Definition runSpeed : R := 10.0.
Definition maxSpeed : R := 12.0.
Definition groundAcceleration : R := 150.0.
Definition airAcceleration : R := 20.0.
Definition stopAcceleration : R := 200.0.
Definition momentumRetention : R := 0.5.
Definition dirChangeBoostMultiplier : R := 3.0.
Definition jumpForce : R := 7.5.
Definition jumpBoostForward : R := 0.2.
Definition airControl : R := 0.9.
Definition directionChangeThreshold : R := 0.85.

(** The constructor's values of the fields that change. *)
Definition create : Movement :=
  mkMovement Vector3.zero Vector3.zero Vector3.zero Vector3.zero 0 0 false.

(** [calculateMoveDirection(moveInput)], lines 84-110. *)
Definition calculateMoveDirection (input : Vector3.t) (p : Player) : Player :=
  let rotation :=
    Quaternion.setFromEuler (Euler.mk 0 (Euler.y (viewRotation p)) 0) in
  let forward := Quaternion.applyQuaternion (Vector3.mk 0 0 (-1)) rotation in
  let right := Quaternion.applyQuaternion (Vector3.mk 1 0 0) rotation in
  let forward := Vector3.set_y forward 0 in
  let right := Vector3.set_y right 0 in
  let forward :=
    if 0 <? Vector3.lengthSq forward then Vector3.normalize forward
    else forward in
  let right :=
    if 0 <? Vector3.lengthSq right then Vector3.normalize right
    else right in
  let dir := Vector3.mk 0 0 0 in
  let dir := Vector3.addScaledVector dir forward (- Vector3.z input) in
  let dir := Vector3.addScaledVector dir right (Vector3.x input) in
  let dir :=
    if 0 <? Vector3.lengthSq dir then Vector3.normalize dir else dir in
  with_movement p (with_moveDirection (movement p) dir).

(** [detectDirectionChange()], lines 112-131; [now] is the value of the one
    [performance.now()] that either branch evaluates. *)
Definition detectDirectionChange (now : R) (p : Player) : Player :=
  let m := movement p in
  if Vector3.lengthSq (lastDirection m) =? 0 then
    with_movement p (with_directionChange m (directionChangeTime m) false)
  else
    let dotProduct := Vector3.dot (lastDirection m) (moveDirection m) in
    if dotProduct <? directionChangeThreshold then
      with_movement p (with_directionChange m now true)
    else
      with_movement p
        (with_directionChange m (directionChangeTime m)
           (hasChangedDirection m
            && (now - directionChangeTime m <? 100))).

(** Lines 135-142: the body's velocity on the horizontal plane. *)
Definition currentVelocity (p : Player) : Vector3.t :=
  Vector3.mk (Vector3.x (Body.velocity (physicsBody p))) 0
             (Vector3.z (Body.velocity (physicsBody p))).

Definition currentSpeed (p : Player) : R :=
  Vector3.length (currentVelocity p).

(** Lines 145-176: [newVelocity] as it stands before the speed limit. *)
Definition blendedVelocity (deltaTime : R) (p : Player) : Vector3.t :=
  let m := movement p in
  if hasChangedDirection m && (2.0 <? currentSpeed p) then
    let newVelocity :=
      Vector3.multiplyScalar (currentVelocity p) momentumRetention in
    let targetContributionFactor := 1.0 - momentumRetention in
    Vector3.addScaledVector newVelocity (targetVelocity m)
      targetContributionFactor
  else
    let accel :=
      if onGround p then groundAcceleration else airAcceleration in
    let accel :=
      if (currentSpeed p <? 2.0) || hasChangedDirection m
      then accel * dirChangeBoostMultiplier else accel in
    let accel := if negb (onGround p) then accel * airControl else accel in
    let velocityDelta :=
      Vector3.sub (targetVelocity m) (currentVelocity p) in
    let velocityDelta :=
      Vector3.multiplyScalar velocityDelta (Rmin (accel * deltaTime) 1.0) in
    Vector3.add (currentVelocity p) velocityDelta.

(** Lines 178-182: limit the speed. *)
Definition limitSpeed (newVelocity : Vector3.t) : Vector3.t :=
  let newSpeed := Vector3.length newVelocity in
  if maxSpeed <? newSpeed
  then Vector3.multiplyScalar newVelocity (maxSpeed / newSpeed)
  else newVelocity.

(** Lines 184-195: write x and z to the body, then the jump boost. *)
Definition writeVelocity (newVelocity : Vector3.t) (p : Player) : Player :=
  let v := Body.velocity (physicsBody p) in
  let v := Vector3.set_x v (Vector3.x newVelocity) in
  let v := Vector3.set_z v (Vector3.z newVelocity) in
  let p := with_bodyVelocity p v in
  if isJumping p && Nat.eqb (jumpCount p) 1 then
    let forwardBoost :=
      Vector3.multiplyScalar (moveDirection (movement p))
        (jumpBoostForward * walkSpeed) in
    let v := Body.velocity (physicsBody p) in
    let v := Vector3.set_x v (Vector3.x v + Vector3.x forwardBoost) in
    let v := Vector3.set_z v (Vector3.z v + Vector3.z forwardBoost) in
    with_isJumping (with_bodyVelocity p v) false
  else p.

(** [applyAccelerationWithMomentum(deltaTime)], lines 133-196. *)
Definition applyAccelerationWithMomentum (deltaTime : R) (p : Player)
  : Player :=
  writeVelocity (limitSpeed (blendedVelocity deltaTime p)) p.

(** [applyStopForce(deltaTime)], lines 201-227. *)
Definition applyStopForce (deltaTime : R) (p : Player) : Player :=
  let velocity := Body.velocity (physicsBody p) in
  let horizontalVelocity :=
    Vector3.mk (Vector3.x velocity) 0 (Vector3.z velocity) in
  let speed := Vector3.length horizontalVelocity in
  if speed <? 0.1 then
    with_bodyVelocity p (Vector3.set_z (Vector3.set_x velocity 0) 0)
  else
    let stopAccel :=
      if onGround p then stopAcceleration else stopAcceleration * 0.2 in
    let deceleration := Rmin speed (stopAccel * deltaTime) in
    let direction := Vector3.normalize horizontalVelocity in
    let velocity :=
      Vector3.set_x velocity
        (Vector3.x velocity - Vector3.x direction * deceleration) in
    let velocity :=
      Vector3.set_z velocity
        (Vector3.z velocity - Vector3.z direction * deceleration) in
    with_bodyVelocity p velocity.

(** Lines 48-50. *)
Definition hasInput (p : Player) : bool :=
  0 <? Vector3.lengthSq (moveInput p).

(** Lines 55-67: the input clamped, the direction, the direction-change flag
    and the target velocity, as [applyAccelerationWithMomentum] finds them. *)
Definition clampedInput (p : Player) : Vector3.t :=
  if 1 <? Vector3.lengthSq (moveInput p)
  then Vector3.normalize (moveInput p)
  else moveInput p.

Definition steer (now : R) (p : Player) : Player :=
  let p := calculateMoveDirection (clampedInput p) p in
  let p := detectDirectionChange now p in
  let speed := if isSprinting p then runSpeed else walkSpeed in
  with_movement p
    (with_targetVelocity (movement p)
       (Vector3.multiplyScalar (moveDirection (movement p)) speed)).

(** Lines 76-81: keep this frame's values for the next one. *)
Definition saveLast (input : Vector3.t) (p : Player) : Player :=
  let m := movement p in
  let dir :=
    if 0 <? Vector3.lengthSq (moveDirection m) then moveDirection m
    else lastDirection m in
  with_movement p
    (with_last m input dir
       (Vector3.length (Body.velocity (physicsBody p)))).

(** [update(deltaTime)], lines 47-82; [now] is the clock as
    [detectDirectionChange] reads it. *)
Definition update (deltaTime now : R) (p : Player) : Player :=
  if hasInput p then
    saveLast (clampedInput p)
      (applyAccelerationWithMomentum deltaTime (steer now p))
  else
    saveLast (moveInput p) (applyStopForce deltaTime p).

(** [applyJumpBoost()], lines 259-263. *)
Definition applyJumpBoost (p : Player) : Player :=
  if (0 <? Vector3.lengthSq (moveDirection (movement p))) && onGround p
  then with_isJumping p true
  else p.

(** The friction parameters of the constructor. *)
Definition groundFriction : R := 8.0.
Definition airFriction : R := 0.1.

(** [applyFriction(deltaTime)], lines 229-256; nothing calls it. *)
Definition applyFriction (deltaTime : R) (p : Player) : Player :=
  let velocity := Body.velocity (physicsBody p) in
  let horizontalVelocity :=
    Vector3.mk (Vector3.x velocity) 0 (Vector3.z velocity) in
  let speed := Vector3.length horizontalVelocity in
  if speed <? 0.1 then
    with_bodyVelocity p (Vector3.set_z (Vector3.set_x velocity 0) 0)
  else
    let frictionMultiplier := 0.3 in
    let friction :=
      if onGround p then groundFriction * frictionMultiplier
      else airFriction in
    let damping := Rmax 0 (1 - friction * deltaTime) in
    let velocity := Vector3.set_x velocity (Vector3.x velocity * damping) in
    let velocity := Vector3.set_z velocity (Vector3.z velocity * damping) in
    with_bodyVelocity p velocity.

End Movement.

(** ** [Player] *)

Module Player.

Import State.

(** Set by the constructor and never reassigned. *)
Definition jumpBufferWindow : R := 200.
Definition coyoteTime : R := 150.

(** [this.maxJumps = engine.config.maxJumps || 2]. *)
Definition configuredMaxJumps (configMaxJumps : option nat) : nat :=
  match configMaxJumps with
  | Some (S n) => S n
  | _ => 2%nat
  end.

(** The constructor; [body] is the [PhysicsBody] it creates. *)
Definition create (configMaxJumps : option nat) (body : Body.t) : Player :=
  mkPlayer (Vector3.mk 0 2 0) Vector3.zero (Euler.mk 0 0 0) Vector3.zero
    false false 0 (configuredMaxJumps configMaxJumps) false 0 false 0 0
    false body Movement.create.

(** The handler of the key [Space], lines 90-93. *)
Definition pressJump (now : R) (p : Player) : Player :=
  with_jumpRequest p true now.

(** Lines 119-120. *)
Definition canFirstJump (currentTime : R) (p : Player) : bool :=
  let inCoyoteTime := currentTime - lastGroundedTime p <? coyoteTime in
  onGround p || inCoyoteTime.

Definition setBodyVelocityY (p : Player) (v : R) : Player :=
  with_bodyVelocity p (Vector3.set_y (Body.velocity (physicsBody p)) v).

(** [processJump()], lines 115-147; [currentTime] is its own reading of the
    clock. *)
Definition processJump (currentTime : R) (p : Player) : Player * bool :=
  if currentTime - lastJumpTime p <? 100 then (p, false)
  else if canFirstJump currentTime p && Nat.eqb (jumpCount p) 0 then
    let p1 := setBodyVelocityY p Movement.jumpForce in
    let p2 := with_jumpCount p1 1 in
    let p3 := with_lastJumpTime p2 currentTime in
    (Movement.applyJumpBoost p3, true)
  else if negb (canFirstJump currentTime p)
          && Nat.ltb (jumpCount p) (maxJumps p) then
    let p1 := setBodyVelocityY p (Movement.jumpForce * 0.9) in
    let p2 := with_jumpCount p1 (S (jumpCount p1)) in
    (with_lastJumpTime p2 currentTime, true)
  else (p, false).

(** Lines 237-253 of [update]: copy the body's state and follow the ground
    state. *)
Definition trackGround (currentTime : R) (p : Player) : Player :=
  let p := with_kinematics p (Body.position (physicsBody p))
                             (Body.velocity (physicsBody p)) in
  let wasOnGround := onGround p in
  let p := with_onGround p (Body.onGround (physicsBody p)) in
  let p :=
    if onGround p && negb wasOnGround then with_jumpCount p 0 else p in
  if negb (onGround p) && wasOnGround
  then with_lastGroundedTime p currentTime
  else p.

(** Lines 255-268 of [update]: the buffered jump request.  The boolean tells
    whether [processJump] ran and succeeded. *)
Definition processJumpRequest (currentTime jumpTime : R) (p : Player)
  : Player * bool :=
  if jumpRequested p then
    let jumpBuffer := currentTime - jumpBufferTime p <? jumpBufferWindow in
    if jumpBuffer then
      let '(p1, jumpSucceeded) := processJump jumpTime p in
      if jumpSucceeded
      then (with_jumpRequest p1 false (jumpBufferTime p1), true)
      else (p1, false)
    else (with_jumpRequest p false (jumpBufferTime p), false)
  else (p, false).

(** The three readings of the clock during one [update]: by [update] itself,
    by [processJump] and by [Movement.detectDirectionChange]. *)
Record Clock : Type := mkClock {
  atUpdate : R;
  atProcessJump : R;
  atDetect : R
}.

(** [update(deltaTime)], lines 231-278.  The weapon manager and the
    interaction system, updated last, are other components. *)
Definition update (deltaTime : R) (clock : Clock) (p : Player) : Player :=
  if isDead p then p
  else
    let p := trackGround (atUpdate clock) p in
    let p := fst (processJumpRequest (atUpdate clock)
                    (atProcessJump clock) p) in
    Movement.update deltaTime (atDetect clock) p.

(** Whether this [update] makes the player jump. *)
Definition jumps (clock : Clock) (p : Player) : bool :=
  negb (isDead p)
  && snd (processJumpRequest (atUpdate clock) (atProcessJump clock)
            (trackGround (atUpdate clock) p)).

(** The guards of [processJump], lines 119-128 and 138, as propositions. *)
Definition cooldownOver (currentTime : R) (p : Player) : Prop :=
  100 <= currentTime - lastJumpTime p.

Definition groundedOrCoyote (currentTime : R) (p : Player) : Prop :=
  onGround p = true \/ currentTime - lastGroundedTime p < coyoteTime.

Definition firstJumpAllowed (currentTime : R) (p : Player) : Prop :=
  groundedOrCoyote currentTime p /\ jumpCount p = 0%nat.

Definition airJumpAllowed (currentTime : R) (p : Player) : Prop :=
  ~ groundedOrCoyote currentTime p /\ (jumpCount p < maxJumps p)%nat.

Definition jumpConditions (currentTime : R) (p : Player) : Prop :=
  cooldownOver currentTime p
  /\ (firstJumpAllowed currentTime p \/ airJumpAllowed currentTime p).

(** One frame of the game as the player lives it: what the rest of the game
    does to the player since the last [update] (the physics step on the
    body, the key handlers, damage), then the [update]. *)
Record Frame : Type := mkFrame {
  before : Player -> Player;
  deltaTime : R;
  clock : Clock
}.

Definition runFrame (f : Frame) (p : Player) : Player :=
  update (deltaTime f) (clock f) (before f p).

Definition run (frames : list Frame) (p : Player) : Player :=
  fold_left (fun q f => runFrame f q) frames p.

(** A frame in which the key [Space] is not pressed and the player neither
    dies nor respawns. *)
Definition quiet (f : Frame) : Prop :=
  forall p,
    jumpRequested (before f p) = jumpRequested p
    /\ jumpBufferTime (before f p) = jumpBufferTime p
    /\ isDead (before f p) = isDead p.

(** [rotate(dx, dy)], lines 103-113; [mouseSensitivity] is the field of that
    name, [engine.config.mouseSpeed || 0.002]. *)
Definition rotate (mouseSensitivity dx dy : R) (p : Player) : Player :=
  let y := Euler.y (viewRotation p) - dx * mouseSensitivity in
  let x := Euler.x (viewRotation p) - dy * mouseSensitivity in
  let x := Rmax (- PI / 2 + 0.01) (Rmin (PI / 2 - 0.01) x) in
  with_viewRotation p (Euler.mk x y (Euler.z (viewRotation p))).

(** Set by the constructor and never reassigned. *)
Definition invulnerabilityDuration : R := 500.

(** [die()], lines 195-209.  The second component is the delay of the
    [setTimeout] that will call [respawn], if one is started.  What
    [console.log] prints is left out here and below. *)
Definition die (p : Player) : Player * option R :=
  if isDead p then (p, None)
  else (with_moveInput (with_isDead p true) (Vector3.mk 0 0 0), Some 3000).

(** [takeDamage(amount)], lines 149-174, at the time [currentTime]. *)
Definition takeDamage (currentTime amount : R) (p : Player) (v : Vitals)
  : Player * Vitals * option R :=
  if currentTime - lastDamageTime v <? invulnerabilityDuration
  then (p, v, None)
  else if isDead p then (p, v, None)
  else
    let v1 := mkVitals (health v - amount) (maxHealth v) currentTime in
    if health v1 <=? 0 then
      let v2 := mkVitals 0 (maxHealth v1) (lastDamageTime v1) in
      (fst (die p), v2, snd (die p))
    else (p, v1, None).

(** [heal(amount)], lines 176-184. *)
Definition heal (amount : R) (p : Player) (v : Vitals) : Vitals :=
  if isDead p then v
  else mkVitals (Rmin (health v + amount) (maxHealth v)) (maxHealth v)
         (lastDamageTime v).

(** [respawn()], lines 211-225. *)
Definition respawn (p : Player) (v : Vitals) : Player * Vitals :=
  let v1 := mkVitals (maxHealth v) (maxHealth v) (lastDamageTime v) in
  let p1 := with_isDead p false in
  let p2 := with_playerPosition p1 (Vector3.mk 0 2 0) in
  let body := Body.with_position (physicsBody p2) (position p2) in
  let body := Body.with_velocity body (Vector3.mk 0 0 0) in
  (with_physicsBody p2 body, v1).

(** The health is positive and at most [maxHealth] while the player lives,
    and 0 once the player is dead. *)
Definition vitalsOk (p : Player) (v : Vitals) : Prop :=
  0 < maxHealth v
  /\ health v <= maxHealth v
  /\ (if isDead p then health v = 0 else 0 < health v).

End Player.

(** ** [Math.atan2] *)

Module JsMath.

(** [Math.atan2(y, x)] on real numbers; no zero has a sign here. *)
Definition atan2 (y x : R) : R :=
  if 0 <? x then atan (y / x)
  else if x <? 0 then
    (if 0 <=? y then atan (y / x) + PI else atan (y / x) - PI)
  else if 0 <? y then PI / 2
  else if y <? 0 then - (PI / 2)
  else 0.

End JsMath.

(** ** [Zombie] *)

Module Zombie.

(** The values of [this.state]. *)
Inductive StateName : Type := Idle | Chase | Attack | Death.

Definition StateName_eqb (a b : StateName) : bool :=
  match a, b with
  | Idle, Idle | Chase, Chase | Attack, Attack | Death, Death => true
  | _, _ => false
  end.

(** The names under which [loadModel] stores animation clips. *)
Inductive Animation : Type :=
  animIdle | animWalk | animRun | animAttack | animDeath.

(** [this.object], the 3D model: its position and its rotation about y. *)
Record Model : Type := mkModel {
  modelPosition : Vector3.t;
  modelRotationY : R
}.

(** The fields of [Zombie] that [update] and [takeDamage] read or write.
    Of [this.rotation] only [y] is ever assigned.  [animations] tells which
    clips were loaded; [currentAnimation] is the clip of the action that
    [playAnimation] started last, with its [loop] argument. *)
Record t : Type := mk {
  position : Vector3.t;
  rotationY : R;
  enabled : bool;
  state : StateName;
  health : R;
  lastAttackTime : R;
  timeSinceLastStateChange : R;
  isAlive : bool;
  physicsBody : Body.t;
  object : option Model;
  hasMixer : bool;
  animations : Animation -> bool;
  currentAnimation : option (Animation * bool)
}.

(** Set by the constructor and never reassigned. *)
Definition walkSpeed : R := 2.0.
Definition runSpeed : R := 4.5.
Definition damage : R := 20.
Definition attackRange : R := 1.8.
Definition detectionRange : R := 15.
Definition attackCooldown : R := 1.2.

Definition with_position (z : t) (v : Vector3.t) : t :=
  mk v (rotationY z) (enabled z) (state z) (health z) (lastAttackTime z)
     (timeSinceLastStateChange z) (isAlive z) (physicsBody z) (object z)
     (hasMixer z) (animations z) (currentAnimation z).

Definition with_rotationY (z : t) (a : R) : t :=
  mk (position z) a (enabled z) (state z) (health z) (lastAttackTime z)
     (timeSinceLastStateChange z) (isAlive z) (physicsBody z) (object z)
     (hasMixer z) (animations z) (currentAnimation z).

Definition with_state (z : t) (s : StateName) (time : R) : t :=
  mk (position z) (rotationY z) (enabled z) s (health z) (lastAttackTime z)
     time (isAlive z) (physicsBody z) (object z)
     (hasMixer z) (animations z) (currentAnimation z).

Definition with_health (z : t) (h : R) : t :=
  mk (position z) (rotationY z) (enabled z) (state z) h (lastAttackTime z)
     (timeSinceLastStateChange z) (isAlive z) (physicsBody z) (object z)
     (hasMixer z) (animations z) (currentAnimation z).

Definition with_lastAttackTime (z : t) (time : R) : t :=
  mk (position z) (rotationY z) (enabled z) (state z) (health z) time
     (timeSinceLastStateChange z) (isAlive z) (physicsBody z) (object z)
     (hasMixer z) (animations z) (currentAnimation z).

Definition with_isAlive (z : t) (a : bool) : t :=
  mk (position z) (rotationY z) (enabled z) (state z) (health z)
     (lastAttackTime z) (timeSinceLastStateChange z) a (physicsBody z)
     (object z) (hasMixer z) (animations z) (currentAnimation z).

Definition with_physicsBody (z : t) (b : Body.t) : t :=
  mk (position z) (rotationY z) (enabled z) (state z) (health z)
     (lastAttackTime z) (timeSinceLastStateChange z) (isAlive z) b
     (object z) (hasMixer z) (animations z) (currentAnimation z).

Definition with_object (z : t) (m : option Model) : t :=
  mk (position z) (rotationY z) (enabled z) (state z) (health z)
     (lastAttackTime z) (timeSinceLastStateChange z) (isAlive z)
     (physicsBody z) m (hasMixer z) (animations z) (currentAnimation z).

Definition with_currentAnimation (z : t) (a : option (Animation * bool)) : t :=
  mk (position z) (rotationY z) (enabled z) (state z) (health z)
     (lastAttackTime z) (timeSinceLastStateChange z) (isAlive z)
     (physicsBody z) (object z) (hasMixer z) (animations z) a.

(** The callbacks handed to [setTimeout]. *)
Inductive Timer : Type := removeEntity | respawnPlayer.

(** What a method of [Zombie] can reach and change: the zombie itself,
    [this.engine.player] with its health, the number of calls of
    [Math.random] made so far, and the timers started, with their delays. *)
Record Game : Type := mkGame {
  zombie : t;
  player : option (State.Player * State.Vitals);
  draws : nat;
  timers : list (Timer * R)
}.

(** A method either returns, with a value and the game it leaves, or throws
    a [TypeError] by reading a property of [null] ([None]). *)
Definition M (A : Type) : Type := Game -> option (A * Game).

Definition ret {A : Type} (a : A) : M A := fun g => Some (a, g).

Definition bind {A B : Type} (m : M A) (k : A -> M B) : M B :=
  fun g => match m g with
           | Some (a, g1) => k a g1
           | None => None
           end.

Definition throw {A : Type} : M A := fun _ => None.

Notation "x <- c1 ;; c2" := (bind c1 (fun x => c2))
  (at level 61, c1 at next level, right associativity).
Notation "c1 ;; c2" := (bind c1 (fun _ => c2))
  (at level 61, right associativity).

Definition getGame : M Game := fun g => Some (g, g).

Definition getZ : M t := fun g => Some (zombie g, g).

Definition setZ (z : t) : M unit :=
  fun g => Some (tt, mkGame z (player g) (draws g) (timers g)).

Definition setPlayer (p : State.Player * State.Vitals) : M unit :=
  fun g => Some (tt, mkGame (zombie g) (Some p) (draws g) (timers g)).

Definition startTimer (callback : Timer) (delay : R) : M unit :=
  fun g => Some (tt, mkGame (zombie g) (player g) (draws g)
                       (timers g ++ [(callback, delay)])).

(** The game after a method that returns. *)
Definition exec {A : Type} (m : M A) (g : Game) : option Game :=
  match m g with
  | Some (_, g1) => Some g1
  | None => None
  end.

(** The two readings of the clock during one [update]: by
    [processAttackState] and by the player's [takeDamage]. *)
Record Clock : Type := mkClock {
  atAttack : R;
  atDamage : R
}.

Section Random.

(** The values [Math.random()] returns, call after call. *)
Variable random : nat -> R.

Definition mathRandom : M R :=
  fun g => Some (random (draws g),
                 mkGame (zombie g) (player g) (S (draws g)) (timers g)).

(** [playAnimation(name, loop)], lines 415-443. *)
Definition playAnimation (name : Animation) (loop : bool) : M unit :=
  z <- getZ ;;
  if negb (hasMixer z) then ret tt
  else if negb (animations z name) then ret tt
  else setZ (with_currentAnimation z (Some (name, loop))).

(** [changeState(newState)], lines 384-413. *)
Definition changeState (newState : StateName) : M unit :=
  z <- getZ ;;
  if StateName_eqb newState (state z) then ret tt
  else
    setZ (with_state z newState 0) ;;
    match newState with
    | Idle => playAnimation animIdle true
    | Chase =>
        r <- mathRandom ;;
        playAnimation (if r <? 0.5 then animRun else animWalk) true
    | Attack => playAnimation animAttack false
    | Death =>
        playAnimation animDeath false ;;
        z <- getZ ;;
        setZ (with_physicsBody z
                (Body.with_velocity (physicsBody z) (Vector3.mk 0 0 0)))
    end.

(** [lookAt(target)], lines 445-454. *)
Definition lookAt (target : Vector3.t) : M unit :=
  z <- getZ ;;
  let direction := Vector3.normalize (Vector3.sub target (position z)) in
  let z := with_rotationY z
             (JsMath.atan2 (Vector3.x direction) (Vector3.z direction)) in
  match object z with
  | None => throw
  | Some m => setZ (with_object z (Some (mkModel (modelPosition m)
                                           (rotationY z))))
  end.

(** [attack(player)], lines 364-370, for [player = this.engine.player] at
    the time [damageTime] as [Player.takeDamage] reads it. *)
Definition attack (damageTime : R) : M unit :=
  g <- getGame ;;
  match player g with
  | None => throw
  | Some (p, v) =>
      let '(p1, v1, timer) := Player.takeDamage damageTime damage p v in
      setPlayer (p1, v1) ;;
      match timer with
      | Some delay => startTimer respawnPlayer delay
      | None => ret tt
      end
  end.

(** [processIdleState(deltaTime)], lines 256-274. *)
Definition processIdleState (deltaTime : R) : M unit :=
  g <- getGame ;;
  match player g with
  | None => ret tt
  | Some (p, _) =>
      z <- getZ ;;
      let distanceToPlayer :=
        Vector3.distanceTo (position z) (State.position p) in
      (if distanceToPlayer <? detectionRange then changeState Chase
       else ret tt) ;;
      r <- mathRandom ;;
      if r <? 0.01 then
        r2 <- mathRandom ;;
        let randomAngle := r2 * PI * 2 in
        z <- getZ ;;
        let z := with_rotationY z randomAngle in
        match object z with
        | None => throw
        | Some m =>
            setZ (with_object z (Some (mkModel (modelPosition m)
                                         randomAngle)))
        end
      else ret tt
  end.

(** [processChaseState(deltaTime)], lines 276-320. *)
Definition processChaseState (deltaTime : R) : M unit :=
  g <- getGame ;;
  match player g with
  | None => ret tt
  | Some (p, _) =>
      z <- getZ ;;
      let distanceToPlayer :=
        Vector3.distanceTo (position z) (State.position p) in
      if detectionRange * 1.5 <? distanceToPlayer then changeState Idle
      else if distanceToPlayer <? attackRange then changeState Attack
      else
        let direction :=
          Vector3.normalize (Vector3.sub (State.position p) (position z)) in
        lookAt (State.position p) ;;
        let speed :=
          if distanceToPlayer <? detectionRange * 0.5 then runSpeed
          else walkSpeed in
        let moveForce :=
          Vector3.multiplyScalar direction (speed * 60 * deltaTime) in
        z <- getZ ;;
        let v := Body.velocity (physicsBody z) in
        let v := Vector3.set_x v (Vector3.x moveForce) in
        let v := Vector3.set_z v (Vector3.z moveForce) in
        setZ (with_physicsBody z (Body.with_velocity (physicsBody z) v)) ;;
        if speed =? runSpeed then playAnimation animRun true
        else playAnimation animWalk true
  end.

(** [processAttackState(deltaTime)], lines 322-347. *)
Definition processAttackState (clock : Clock) (deltaTime : R) : M unit :=
  g <- getGame ;;
  match player g with
  | None => ret tt
  | Some (p, _) =>
      z <- getZ ;;
      let distanceToPlayer :=
        Vector3.distanceTo (position z) (State.position p) in
      if attackRange * 1.2 <? distanceToPlayer then changeState Chase
      else
        lookAt (State.position p) ;;
        let currentTime := atAttack clock / 1000 in
        z <- getZ ;;
        if attackCooldown <? currentTime - lastAttackTime z then
          setZ (with_lastAttackTime z currentTime) ;;
          attack (atDamage clock) ;;
          playAnimation animAttack false
        else ret tt
  end.

(** [processDeathState(deltaTime)], lines 349-362. *)
Definition processDeathState (deltaTime : R) : M unit :=
  z <- getZ ;;
  if (2.0 <? timeSinceLastStateChange z) && isAlive z then
    setZ (with_isAlive z false) ;;
    startTimer removeEntity 3000
  else ret tt.

(** [update(deltaTime)], lines 214-254.  The animation mixer, updated
    first, belongs to three.js. *)
Definition update (deltaTime : R) (clock : Clock) : M unit :=
  z <- getZ ;;
  match object z with
  | None => ret tt
  | Some m =>
      if negb (enabled z) then ret tt
      else
        let z := with_position z (Body.position (physicsBody z)) in
        let z := with_object z (Some (mkModel (position z)
                                        (modelRotationY m))) in
        let z := with_state z (state z)
                   (timeSinceLastStateChange z + deltaTime) in
        setZ z ;;
        match state z with
        | Idle => processIdleState deltaTime
        | Chase => processChaseState deltaTime
        | Attack => processAttackState clock deltaTime
        | Death => processDeathState deltaTime
        end ;;
        z <- getZ ;;
        if (health z <=? 0) && negb (StateName_eqb (state z) Death)
        then changeState Death
        else ret tt
  end.

(** [takeDamage(amount)], lines 372-382. *)
Definition takeDamage (amount : R) : M unit :=
  z <- getZ ;;
  if negb (isAlive z) then ret tt
  else
    let z := with_health z (health z - amount) in
    setZ z ;;
    if health z <=? 0 then changeState Death else ret tt.

End Random.

End Zombie.

(** ** Bodies of the game, used as concrete inputs *)

Module Sample.

(** The body [Player]'s constructor creates (lines 40-47), at [pos] with
    velocity [vel]; a new body is not on the ground. *)
Definition playerBody (pos vel : Vector3.t) : Body.t :=
  Body.mk pos vel 75 (1 / 75) 0.0 0.1 true false false (Some 0.5) None.

(** The body of a [Zombie] (lines 33-39 of [Zombie.js]). *)
Definition zombieBody (pos vel : Vector3.t) : Body.t :=
  Body.mk pos vel 70 (1 / 70) 0.2 0.5 true false false (Some 0.5) None.

(** The ground plane [Renderer] adds (lines 113-118): a static body. *)
Definition groundPlane : Body.t :=
  Body.mk Vector3.zero Vector3.zero 0 0 0.3 0.8 false true false None
          (Some (Body.mkCollider Vector3.zero)).

(** A world at 60 physics steps per second. *)
Definition world : PhysicsWorld.t := PhysicsWorld.create (-20) 60%float.

(** The world with the ground plane and one dynamic body. *)
Definition worldWith (body : Body.t) : PhysicsWorld.t :=
  PhysicsWorld.mk [body] [groundPlane] (Vector3.mk 0 (-20) 0) 0%float
    (1 / 60)%float [].

(** The objects of a small game: the ground plane, the player's body and
    the bodies of zombies; the first two are in the world. *)
Definition objects (r : WorldRefs.Ref) : Body.t :=
  match r with
  | O => groundPlane
  | S O => playerBody (Vector3.mk 0 2 0) Vector3.zero
  | _ => zombieBody (Vector3.mk 5 0 (-5)) Vector3.zero
  end.

Definition refs : WorldRefs.t := WorldRefs.mk objects [1%nat] [0%nat].


(** A player looking along -z and holding the key D, with the body [body]
    and the movement state [m]. *)
Definition playerHoldingD (sprint jumping : bool) (count : nat)
    (grounded : bool) (body : Body.t) (m : State.Movement) : State.Player :=
  State.mkPlayer (Body.position body) (Body.velocity body) (Euler.mk 0 0 0)
    (Vector3.mk 1 0 0) jumping sprint count 2 grounded 0 false 0 0 false
    body m.

(** Sprinting through the air along +x at 12 units per second, the boost of
    the first jump not yet applied. *)
Definition boostedPlayer : State.Player :=
  playerHoldingD true true 1 false
    (playerBody (Vector3.mk 0 1 0) (Vector3.mk 12 0 0))
    (State.mkMovement (Vector3.mk 1 0 0) (Vector3.mk 10 0 0)
       (Vector3.mk 1 0 0) (Vector3.mk 1 0 0) 12 0 false).

(** Moving on the ground along -x at 6 units per second when the key D
    replaces the key A and the sprint key is held. *)
Definition turningPlayer : State.Player :=
  playerHoldingD true false 0 true
    (Body.with_onGround
       (playerBody (Vector3.mk 0 0.05 0) (Vector3.mk (-6) 0 0)) true)
    (State.mkMovement (Vector3.mk (-1) 0 0) (Vector3.mk (-6) 0 0)
       (Vector3.mk (-1) 0 0) (Vector3.mk (-1) 0 0) 6 0 false).

(** A player in the air since the time 950, after a first jump at 900,
    who pressed [Space] at 1000. *)
Definition coyotePlayer : State.Player :=
  State.mkPlayer (Vector3.mk 0 1 0) (Vector3.mk 0 3 0) (Euler.mk 0 0 0)
    Vector3.zero false false 1 2 false 900 true 1000 950 false
    (playerBody (Vector3.mk 0 1 0) (Vector3.mk 0 3 0)) Movement.create.

(** A dead player standing on the ground, [Space] pressed at 1000. *)
Definition deadPlayer : State.Player :=
  State.mkPlayer (Vector3.mk 0 0.05 0) Vector3.zero (Euler.mk 0 0 0)
    Vector3.zero false false 0 2 true 0 true 1000 0 true
    (Body.with_onGround (playerBody (Vector3.mk 0 0.05 0) Vector3.zero) true)
    Movement.create.

(** A player falling towards the ground after a double jump, who pressed
    [Space] at 1000, shortly before landing. *)
Definition fallingPlayer : State.Player :=
  State.mkPlayer (Vector3.mk 0 0.5 0) (Vector3.mk 0 (-5) 0) (Euler.mk 0 0 0)
    Vector3.zero false false 2 2 false 400 true 1000 100 false
    (playerBody (Vector3.mk 0 0.5 0) (Vector3.mk 0 (-5) 0)) Movement.create.

(** The physics step that puts the body on the ground. *)
Definition landing (p : State.Player) : State.Player :=
  State.with_physicsBody p
    (Body.with_onGround
       (Body.with_velocity
          (Body.with_position (State.physicsBody p) (Vector3.mk 0 0.05 0))
          Vector3.zero)
       true).

Definition identity (p : State.Player) : State.Player := p.

(** Standing on the ground, looking along -z, when the key D goes down. *)
Definition standingPlayer : State.Player :=
  playerHoldingD false false 0 true
    (Body.with_onGround (playerBody (Vector3.mk 0 0.05 0) Vector3.zero) true)
    Movement.create.

(** Sliding on the ground along +x at 6 units per second, all keys up. *)
Definition slidingPlayer : State.Player :=
  State.mkPlayer (Vector3.mk 0 0.05 0) (Vector3.mk 6 0 0) (Euler.mk 0 0 0)
    Vector3.zero false false 0 2 true 0 false 0 0 false
    (Body.with_onGround
       (playerBody (Vector3.mk 0 0.05 0) (Vector3.mk 6 0 0)) true)
    (State.mkMovement (Vector3.mk 1 0 0) (Vector3.mk 6 0 0)
       (Vector3.mk 1 0 0) (Vector3.mk 1 0 0) 6 0 false).

(** Walking on the ground with no jump made, about to step off a ledge. *)
Definition ledgePlayer : State.Player :=
  State.mkPlayer (Vector3.mk 0 3 0) Vector3.zero (Euler.mk 0 0 0)
    Vector3.zero false false 0 2 true 0 false 0 0 false
    (playerBody (Vector3.mk 0 3 0) Vector3.zero) Movement.create.

(** A new zombie at [pos], its model and animations loaded, in the state
    [st]. *)
Definition zombieAt (st : Zombie.StateName) (pos : Vector3.t) : Zombie.t :=
  Zombie.mk pos 0 true st 100 0 0 true (zombieBody pos Vector3.zero)
    (Some (Zombie.mkModel pos 0)) true (fun _ => true) None.

(** A [Math.random] that always returns 0.5. *)
Definition random (n : nat) : R := 0.5.

(** A game with that zombie and a full-health player at [playerPos]. *)
Definition game (st : Zombie.StateName) (pos playerPos : Vector3.t)
  : Zombie.Game :=
  Zombie.mkGame (zombieAt st pos)
    (Some (State.with_playerPosition standingPlayer playerPos,
           State.mkVitals 100 100 0))
    0 [].

(** The health of a new player, and of one hit for 20 at the time 1000. *)
Definition fullHealth : State.Vitals := State.mkVitals 100 100 0.
Definition hurt : State.Vitals := State.mkVitals 80 100 1000.

(** Two frames for [fallingPlayer]: one still in the air, at 1016, and the
    one of the landing, at 1050. *)
Definition airFrame : Player.Frame :=
  Player.mkFrame identity (1 / 60) (Player.mkClock 1016 1016 1016).

Definition landingFrame : Player.Frame :=
  Player.mkFrame landing (1 / 60) (Player.mkClock 1050 1050 1050).

Definition clockAt (now : R) : Player.Clock := Player.mkClock now now now.

End Sample.

(** ** Facts about the comparisons *)

Lemma Rltb_true (a b : R) : (a <? b) = true <-> a < b.
Proof. unfold Rltb. destruct (Rlt_dec a b); split; intros; congruence || lra. Qed.

Lemma Rltb_false (a b : R) : (a <? b) = false <-> b <= a.
Proof. unfold Rltb. destruct (Rlt_dec a b); split; intros; congruence || lra. Qed.

Lemma Rleb_true (a b : R) : (a <=? b) = true <-> a <= b.
Proof. unfold Rleb. destruct (Rle_dec a b); split; intros; congruence || lra. Qed.

Lemma Rleb_false (a b : R) : (a <=? b) = false <-> b < a.
Proof. unfold Rleb. destruct (Rle_dec a b); split; intros; congruence || lra. Qed.

Lemma Reqb_true (a b : R) : (a =? b) = true <-> a = b.
Proof. unfold Reqb. destruct (Req_dec_T a b); split; intros; congruence. Qed.

Lemma Reqb_false (a b : R) : (a =? b) = false <-> a <> b.
Proof. unfold Reqb. destruct (Req_dec_T a b); split; intros; congruence. Qed.

(** Decide every comparison in the goal and keep the facts learnt. *)
Ltac rcases :=
  repeat match goal with
  | |- context [Rltb ?a ?b] =>
      let H := fresh "C" in
      destruct (Rltb a b) eqn:H;
      [ apply Rltb_true in H | apply Rltb_false in H ]
  | |- context [Rleb ?a ?b] =>
      let H := fresh "C" in
      destruct (Rleb a b) eqn:H;
      [ apply Rleb_true in H | apply Rleb_false in H ]
  | |- context [Reqb ?a ?b] =>
      let H := fresh "C" in
      destruct (Reqb a b) eqn:H;
      [ apply Reqb_true in H | apply Reqb_false in H ]
  end.

(** Unfold the vector operations and the sample bodies. *)
Ltac vec :=
  unfold Vector3.add, Vector3.sub, Vector3.multiplyScalar,
    Vector3.addScaledVector, Vector3.dot, Vector3.lengthSq, Vector3.set_x,
    Vector3.set_y, Vector3.set_z, Vector3.zero, Body.wf, Sample.playerBody,
    Sample.groundPlane in *;
  simpl in *.

Lemma orDefault_zero (v : R) : orDefault v 0 = v.
Proof. unfold orDefault. rcases; congruence. Qed.

(** ** The ground check *)

(** What [checkWorldBounds] does to a body that is low and not rising. *)
Lemma checkWorldBounds_low_slow (b : Body.t) :
  Vector3.y (Body.position b) < 0.15 ->
  Vector3.y (Body.velocity b) <= 0.1 ->
  Body.onGround (PhysicsWorld.checkWorldBounds b) = true
  /\ 0 <= Vector3.y (Body.velocity (PhysicsWorld.checkWorldBounds b))
  /\ (Vector3.y (Body.position b) < 0 ->
      Vector3.y (Body.position (PhysicsWorld.checkWorldBounds b)) = 0.05).
Proof.
  intros Hy Hv.
  unfold PhysicsWorld.checkWorldBounds, PhysicsWorld.groundThreshold.
  rcases; simpl in *; repeat split; try reflexivity; intros; try lra.
Qed.

(** What it does to a body that is low and rising. *)
Lemma checkWorldBounds_low_rising (b : Body.t) :
  Vector3.y (Body.position b) < 0.15 ->
  0.1 < Vector3.y (Body.velocity b) ->
  PhysicsWorld.checkWorldBounds b
  = if Vector3.y (Body.position b) <? 0
    then Body.with_position b (Vector3.set_y (Body.position b) 0.05)
    else b.
Proof.
  intros Hy Hv.
  unfold PhysicsWorld.checkWorldBounds, PhysicsWorld.groundThreshold.
  rcases; simpl in *; try reflexivity; lra.
Qed.

(** What it does to a body that is high. *)
Lemma checkWorldBounds_high (b : Body.t) :
  0.15 <= Vector3.y (Body.position b) ->
  PhysicsWorld.checkWorldBounds b = Body.with_onGround b false.
Proof.
  intros Hy.
  unfold PhysicsWorld.checkWorldBounds, PhysicsWorld.groundThreshold.
  rcases; simpl in *; try reflexivity; lra.
Qed.

(** C2, as stated, fails: a body on the ground that is low and rising (here
    the player's body one step after a jump: height 0.1, vertical velocity
    7.5, [onGround] set) is in none of the cases "low and not rising", yet it
    leaves the check with [onGround = true]. *)
Lemma checkWorldBounds_otherwise_not_cleared :
  let b := Body.with_onGround
             (Sample.playerBody (Vector3.mk 0 0.1 0) (Vector3.mk 0 7.5 0))
             true in
  ~ (Vector3.y (Body.position b) < 0.15
     /\ Vector3.y (Body.velocity b) <= 0.1)
  /\ Body.onGround (PhysicsWorld.checkWorldBounds b) <> false.
Proof.
  simpl. split.
  - intros [_ H]. lra.
  - rewrite checkWorldBounds_low_rising by (simpl; lra).
    simpl. rcases; simpl; discriminate.
Qed.

(** C2, amended: a body that is low ([position.y < 0.15]) and not rising
    ([velocity.y <= 0.1]) leaves the check with [onGround = true], a vertical
    velocity that is not negative, and its height set to 0.05 if it was
    negative; a body that is not low ([position.y >= 0.15]) leaves it with
    [onGround = false]; a body that is low and rising keeps the [onGround] it
    had. *)
Theorem checkWorldBounds_ground_state (b : Body.t) :
  (Vector3.y (Body.position b) < 0.15 ->
   Vector3.y (Body.velocity b) <= 0.1 ->
   Body.onGround (PhysicsWorld.checkWorldBounds b) = true
   /\ 0 <= Vector3.y (Body.velocity (PhysicsWorld.checkWorldBounds b))
   /\ (Vector3.y (Body.velocity b) < 0 ->
       Vector3.y (Body.velocity (PhysicsWorld.checkWorldBounds b)) = 0)
   /\ (Vector3.y (Body.position b) < 0 ->
       Vector3.y (Body.position (PhysicsWorld.checkWorldBounds b)) = 0.05))
  /\ (0.15 <= Vector3.y (Body.position b) ->
      Body.onGround (PhysicsWorld.checkWorldBounds b) = false)
  /\ (Vector3.y (Body.position b) < 0.15 ->
      0.1 < Vector3.y (Body.velocity b) ->
      Body.onGround (PhysicsWorld.checkWorldBounds b) = Body.onGround b).
Proof.
  split; [| split].
  - intros Hy Hv.
    destruct (checkWorldBounds_low_slow b Hy Hv) as (Hg & Hv' & Hp).
    repeat split; try assumption.
    intros Hneg.
    unfold PhysicsWorld.checkWorldBounds, PhysicsWorld.groundThreshold.
    rcases; simpl in *; try reflexivity; lra.
  - intros Hy. rewrite checkWorldBounds_high by assumption. reflexivity.
  - intros Hy Hv. rewrite checkWorldBounds_low_rising by assumption.
    rcases; reflexivity.
Qed.

(** The amended C2 at three bodies: the player's body sunk below the ground
    and falling, the same body high above it, and the body of the
    counterexample. *)
Lemma checkWorldBounds_ground_state_witness :
  (let b := Sample.playerBody (Vector3.mk 0 (-0.02) 0) (Vector3.mk 0 (-5) 0) in
   Body.onGround (PhysicsWorld.checkWorldBounds b) = true
   /\ 0 <= Vector3.y (Body.velocity (PhysicsWorld.checkWorldBounds b))
   /\ (Vector3.y (Body.velocity b) < 0 ->
       Vector3.y (Body.velocity (PhysicsWorld.checkWorldBounds b)) = 0)
   /\ (Vector3.y (Body.position b) < 0 ->
       Vector3.y (Body.position (PhysicsWorld.checkWorldBounds b)) = 0.05))
  /\ Body.onGround
       (PhysicsWorld.checkWorldBounds
          (Sample.playerBody (Vector3.mk 0 2 0) Vector3.zero)) = false
  /\ Body.onGround
       (PhysicsWorld.checkWorldBounds
          (Body.with_onGround
             (Sample.playerBody (Vector3.mk 0 0.1 0) (Vector3.mk 0 7.5 0))
             true)) = true.
Proof.
  split; [| split].
  - apply (proj1 (checkWorldBounds_ground_state
             (Sample.playerBody (Vector3.mk 0 (-0.02) 0)
                (Vector3.mk 0 (-5) 0)))); simpl; lra.
  - apply (proj1 (proj2 (checkWorldBounds_ground_state
             (Sample.playerBody (Vector3.mk 0 2 0) Vector3.zero)))).
    simpl; lra.
  - apply (proj2 (proj2 (checkWorldBounds_ground_state
             (Body.with_onGround
                (Sample.playerBody (Vector3.mk 0 0.1 0) (Vector3.mk 0 7.5 0))
                true)))); simpl; lra.
Defined.

(** C10: a body below the ground threshold whose vertical velocity is above
    0.1 keeps its [onGround] flag and its velocity; nothing but [position.y]
    changes, and that only when it was negative, to 0.05. *)
Theorem checkWorldBounds_rising_keeps_state (b : Body.t) :
  Vector3.y (Body.position b) < 0.15 ->
  0.1 < Vector3.y (Body.velocity b) ->
  Body.onGround (PhysicsWorld.checkWorldBounds b) = Body.onGround b
  /\ Body.velocity (PhysicsWorld.checkWorldBounds b) = Body.velocity b
  /\ (Vector3.y (Body.position b) < 0 ->
      PhysicsWorld.checkWorldBounds b
      = Body.with_position b (Vector3.set_y (Body.position b) 0.05))
  /\ (0 <= Vector3.y (Body.position b) ->
      PhysicsWorld.checkWorldBounds b = b).
Proof.
  intros Hy Hv. rewrite checkWorldBounds_low_rising by assumption.
  rcases; simpl; repeat split; intros; try reflexivity; lra.
Qed.

Lemma checkWorldBounds_rising_keeps_state_witness :
  let b := Body.with_onGround
             (Sample.playerBody (Vector3.mk 0 (-0.01) 0) (Vector3.mk 1 7.5 0))
             true in
  Body.onGround (PhysicsWorld.checkWorldBounds b) = true
  /\ Body.velocity (PhysicsWorld.checkWorldBounds b) = Vector3.mk 1 7.5 0
  /\ (Vector3.y (Body.position b) < 0 ->
      PhysicsWorld.checkWorldBounds b
      = Body.with_position b (Vector3.set_y (Body.position b) 0.05))
  /\ (0 <= Vector3.y (Body.position b) ->
      PhysicsWorld.checkWorldBounds b = b).
Proof.
  apply (checkWorldBounds_rising_keeps_state
           (Body.with_onGround
              (Sample.playerBody (Vector3.mk 0 (-0.01) 0) (Vector3.mk 1 7.5 0))
              true)); simpl; lra.
Defined.

(** ** The resolver *)

Lemma refreshCollider_velocity (b : Body.t) :
  Body.velocity (Body.refreshCollider b) = Body.velocity b.
Proof. unfold Body.refreshCollider. destruct (Body.collider b); reflexivity. Qed.

Lemma refreshCollider_position (b : Body.t) :
  Body.position (Body.refreshCollider b) = Body.position b.
Proof. unfold Body.refreshCollider. destruct (Body.collider b); reflexivity. Qed.

(** Bodies that separate along the normal are left as they are. *)
Lemma resolveWithInfo_separating (aIsPlayer : bool)
    (info : PhysicsWorld.CollisionInfo) (bodyA bodyB : Body.t) :
  0 < PhysicsWorld.velAlongNormal bodyA bodyB (PhysicsWorld.normal info) ->
  PhysicsWorld.resolveWithInfo aIsPlayer info bodyA bodyB = (bodyA, bodyB).
Proof.
  intros H. unfold PhysicsWorld.resolveWithInfo.
  apply Rltb_true in H. rewrite H. reflexivity.
Qed.

(** The velocities the explicit path leaves, for bodies that approach. *)
Lemma resolveWithInfo_velocities (aIsPlayer : bool)
    (info : PhysicsWorld.CollisionInfo) (bodyA bodyB : Body.t) :
  Body.wf bodyA -> Body.wf bodyB ->
  PhysicsWorld.velAlongNormal bodyA bodyB (PhysicsWorld.normal info) <= 0 ->
  0 < Body.invMass bodyA + Body.invMass bodyB ->
  let n := PhysicsWorld.normal info in
  let j := - (1 + Rmin (Body.restitution bodyA) (Body.restitution bodyB))
           * PhysicsWorld.velAlongNormal bodyA bodyB n
           / (Body.invMass bodyA + Body.invMass bodyB) in
  let r := PhysicsWorld.resolveWithInfo aIsPlayer info bodyA bodyB in
  Body.velocity (fst r)
  = Vector3.add (Body.velocity bodyA)
      (Vector3.multiplyScalar n (j * Body.invMass bodyA))
  /\ Body.velocity (snd r)
     = Vector3.sub (Body.velocity bodyB)
         (Vector3.multiplyScalar n (j * Body.invMass bodyB)).
Proof.
  intros HA HB Hv Hsum n j r. subst r j n. unfold Body.wf in HA, HB.
  unfold PhysicsWorld.resolveWithInfo.
  rewrite !orDefault_zero.
  set (n := PhysicsWorld.normal info) in *.
  set (vn := PhysicsWorld.velAlongNormal bodyA bodyB n) in *.
  destruct (0 <? vn) eqn:E1;
    [apply Rltb_true in E1; lra |].
  destruct (Body.invMass bodyA + Body.invMass bodyB =? 0) eqn:E2;
    [apply Reqb_true in E2; lra |].
  destruct (0 <? Body.invMass bodyA) eqn:EA;
    destruct (0 <? Body.invMass bodyB) eqn:EB;
    destruct (0 <? PhysicsWorld.depth info) eqn:ED;
    destruct ((0.7 <? Vector3.y n) && aIsPlayer) eqn:EG;
    simpl; rewrite ?refreshCollider_velocity; simpl;
    try apply Rltb_false in EA; try apply Rltb_false in EB;
    split; unfold Vector3.add, Vector3.sub, Vector3.multiplyScalar; simpl;
    try (replace (Body.invMass bodyA) with 0 by lra);
    try (replace (Body.invMass bodyB) with 0 by lra);
    destruct (Body.velocity bodyA), (Body.velocity bodyB); simpl;
    f_equal; try (field; lra); try lra.
Qed.

(** C1: when a body's [checkCollision] gives the contact [{normal, depth}],
    with [vRel = dot(vA - vB, normal)]: if [vRel > 0] the call changes
    neither body; if [vRel <= 0] and [invMassA + invMassB > 0] it leaves the
    velocities [vA + j * invMassA * normal] and [vB - j * invMassB * normal],
    where [j = -(1 + min(restitutionA, restitutionB)) * vRel
               / (invMassA + invMassB)].
    The bodies are well formed: no inverse mass is negative. *)
Theorem resolveCollision_contact_impulse
    (chk : Body.t -> Body.t -> option PhysicsWorld.CollisionInfo)
    (aIsPlayer : bool) (bodyA bodyB : Body.t)
    (info : PhysicsWorld.CollisionInfo) :
  PhysicsWorld.collisionInfo chk bodyA bodyB = Some info ->
  Body.wf bodyA -> Body.wf bodyB ->
  let n := PhysicsWorld.normal info in
  let vRel :=
    Vector3.dot (Vector3.sub (Body.velocity bodyA) (Body.velocity bodyB)) n in
  let r := PhysicsWorld.resolveCollision chk aIsPlayer bodyA bodyB in
  (0 < vRel -> r = (bodyA, bodyB))
  /\ (vRel <= 0 ->
      0 < Body.invMass bodyA + Body.invMass bodyB ->
      let j := - (1 + Rmin (Body.restitution bodyA) (Body.restitution bodyB))
               * vRel / (Body.invMass bodyA + Body.invMass bodyB) in
      Body.velocity (fst r)
      = Vector3.add (Body.velocity bodyA)
          (Vector3.multiplyScalar n (j * Body.invMass bodyA))
      /\ Body.velocity (snd r)
         = Vector3.sub (Body.velocity bodyB)
             (Vector3.multiplyScalar n (j * Body.invMass bodyB))).
Proof.
  intros Hinfo HA HB n vRel r. subst r.
  unfold PhysicsWorld.resolveCollision. rewrite Hinfo. split.
  - intros Hsep. apply resolveWithInfo_separating. exact Hsep.
  - intros Happ Hsum.
    exact (resolveWithInfo_velocities aIsPlayer info bodyA bodyB
             HA HB Happ Hsum).
Qed.

(** C1 at the player's body falling at 5 units per second onto the ground
    plane, whose [checkCollision] is taken to report the upward normal and a
    depth of 0.1: the player's body comes to rest, the plane stays still. *)
Lemma resolveCollision_contact_impulse_witness :
  let chk := fun (_ _ : Body.t) =>
               Some (PhysicsWorld.mkInfo (Vector3.mk 0 1 0) 0.1) in
  let a := Sample.playerBody (Vector3.mk 0 0.4 0) (Vector3.mk 0 (-5) 0) in
  let r := PhysicsWorld.resolveCollision chk true a Sample.groundPlane in
  Body.velocity (fst r) = Vector3.mk 0 0 0
  /\ Body.velocity (snd r) = Vector3.mk 0 0 0.
Proof.
  intros chk a r.
  assert (Hw : Body.wf a) by (subst a; vec; lra).
  assert (Hg : Body.wf Sample.groundPlane) by (vec; lra).
  destruct (resolveCollision_contact_impulse chk true a Sample.groundPlane
              (PhysicsWorld.mkInfo (Vector3.mk 0 1 0) 0.1)
              eq_refl Hw Hg) as [_ H].
  destruct H as [H1 H2]; [subst a; vec; lra | subst a; vec; lra |].
  fold r in H1, H2. rewrite H1, H2. subst a. vec.
  rewrite Rmin_left by lra.
  split; f_equal; lra.
Defined.

(** A body without inverse mass keeps velocity and position on the explicit
    path; a pair without inverse mass is left as it is. *)
Lemma resolveWithInfo_static (aIsPlayer : bool)
    (info : PhysicsWorld.CollisionInfo) (bodyA bodyB : Body.t) :
  let r := PhysicsWorld.resolveWithInfo aIsPlayer info bodyA bodyB in
  (Body.invMass bodyA = 0 ->
   Body.velocity (fst r) = Body.velocity bodyA
   /\ Body.position (fst r) = Body.position bodyA)
  /\ (Body.invMass bodyB = 0 ->
      Body.velocity (snd r) = Body.velocity bodyB
      /\ Body.position (snd r) = Body.position bodyB)
  /\ (Body.invMass bodyA + Body.invMass bodyB = 0 -> r = (bodyA, bodyB)).
Proof.
  intros r. subst r. unfold PhysicsWorld.resolveWithInfo.
  rewrite !orDefault_zero.
  destruct (0 <? PhysicsWorld.velAlongNormal bodyA bodyB
                   (PhysicsWorld.normal info)).
  { simpl. repeat split; reflexivity. }
  destruct (Body.invMass bodyA + Body.invMass bodyB =? 0) eqn:E.
  { simpl. repeat split; reflexivity. }
  apply Reqb_false in E.
  split; [| split]; try (intros H; contradiction).
  - intros HA. rewrite HA.
    replace (0 <? 0) with false by (symmetry; apply Rltb_false; lra).
    destruct (0 <? Body.invMass bodyB), (0 <? PhysicsWorld.depth info),
      ((0.7 <? Vector3.y (PhysicsWorld.normal info)) && aIsPlayer);
      simpl; rewrite ?refreshCollider_velocity, ?refreshCollider_position;
      split; reflexivity.
  - intros HB. rewrite HB.
    replace (0 <? 0) with false by (symmetry; apply Rltb_false; lra).
    destruct (0 <? Body.invMass bodyA), (0 <? PhysicsWorld.depth info),
      ((0.7 <? Vector3.y (PhysicsWorld.normal info)) && aIsPlayer);
      simpl; rewrite ?refreshCollider_velocity, ?refreshCollider_position;
      split; reflexivity.
Qed.

(** The same on the sphere fallback. *)
Lemma resolveSpheres_static (aIsPlayer : bool) (bodyA bodyB : Body.t) :
  let r := PhysicsWorld.resolveSpheres aIsPlayer bodyA bodyB in
  (Body.invMass bodyA = 0 ->
   Body.velocity (fst r) = Body.velocity bodyA
   /\ Body.position (fst r) = Body.position bodyA)
  /\ (Body.invMass bodyB = 0 ->
      Body.velocity (snd r) = Body.velocity bodyB
      /\ Body.position (snd r) = Body.position bodyB)
  /\ (Body.invMass bodyA + Body.invMass bodyB = 0 -> r = (bodyA, bodyB)).
Proof.
  intros r. subst r. unfold PhysicsWorld.resolveSpheres.
  rewrite !orDefault_zero.
  set (n := Vector3.normalize _). clearbody n.
  destruct (0 <? PhysicsWorld.velAlongNormal bodyA bodyB n).
  { simpl. repeat split; reflexivity. }
  destruct (Body.invMass bodyA + Body.invMass bodyB =? 0) eqn:E.
  { simpl. repeat split; reflexivity. }
  apply Reqb_false in E.
  assert (Hz : (0 <? 0) = false) by (apply Rltb_false; lra).
  split; [| split]; try (intros H; contradiction).
  - intros HA. rewrite HA, Hz.
    destruct (0 <? Body.invMass bodyB) eqn:EB; cbn -[Rmax]; rewrite ?HA, ?Hz;
      match goal with |- context [if ?c then _ else _] => destruct c end;
      destruct ((0.7 <? Vector3.y n) && aIsPlayer);
      cbn; split; reflexivity.
  - intros HB. rewrite HB, Hz.
    destruct (0 <? Body.invMass bodyA) eqn:EA; cbn -[Rmax]; rewrite ?HB, ?Hz;
      match goal with |- context [if ?c then _ else _] => destruct c end;
      destruct ((0.7 <? Vector3.y n) && aIsPlayer);
      cbn; rewrite ?refreshCollider_velocity, ?refreshCollider_position;
      split; reflexivity.
Qed.

(** C8: on either path of [resolveCollision], a body whose inverse mass is 0
    keeps its velocity and its position, and when the two inverse masses add
    up to 0 neither body is changed at all. *)
Theorem resolveCollision_static_untouched
    (chk : Body.t -> Body.t -> option PhysicsWorld.CollisionInfo)
    (aIsPlayer : bool) (bodyA bodyB : Body.t) :
  let r := PhysicsWorld.resolveCollision chk aIsPlayer bodyA bodyB in
  (Body.invMass bodyA = 0 ->
   Body.velocity (fst r) = Body.velocity bodyA
   /\ Body.position (fst r) = Body.position bodyA)
  /\ (Body.invMass bodyB = 0 ->
      Body.velocity (snd r) = Body.velocity bodyB
      /\ Body.position (snd r) = Body.position bodyB)
  /\ (Body.invMass bodyA + Body.invMass bodyB = 0 -> r = (bodyA, bodyB)).
Proof.
  intros r. subst r. unfold PhysicsWorld.resolveCollision.
  destruct (PhysicsWorld.collisionInfo chk bodyA bodyB) as [info |].
  - apply resolveWithInfo_static.
  - apply resolveSpheres_static.
Qed.

(** C8 at the player's body against the ground plane, on both paths, and at
    the ground plane against a second static body. *)
Lemma resolveCollision_static_untouched_witness :
  let a := Sample.playerBody (Vector3.mk 0 0.4 0) (Vector3.mk 0 (-5) 0) in
  let g := Sample.groundPlane in
  let contact := fun (_ _ : Body.t) =>
                   Some (PhysicsWorld.mkInfo (Vector3.mk 0 1 0) 0.1) in
  let none := fun (_ _ : Body.t) => @None PhysicsWorld.CollisionInfo in
  (Body.velocity (snd (PhysicsWorld.resolveCollision contact true a g))
   = Body.velocity g
   /\ Body.position (snd (PhysicsWorld.resolveCollision contact true a g))
      = Body.position g)
  /\ (Body.velocity (snd (PhysicsWorld.resolveCollision none true a g))
      = Body.velocity g
      /\ Body.position (snd (PhysicsWorld.resolveCollision none true a g))
         = Body.position g)
  /\ PhysicsWorld.resolveCollision contact false g g = (g, g)
  /\ PhysicsWorld.resolveCollision none false g g = (g, g).
Proof.
  intros a g contact none. repeat split.
  - apply (proj1 (proj2 (resolveCollision_static_untouched contact true a g))).
    reflexivity.
  - apply (proj1 (proj2 (resolveCollision_static_untouched contact true a g))).
    reflexivity.
  - apply (proj1 (proj2 (resolveCollision_static_untouched none true a g))).
    reflexivity.
  - apply (proj1 (proj2 (resolveCollision_static_untouched none true a g))).
    reflexivity.
  - apply (proj2 (proj2 (resolveCollision_static_untouched contact false g g))).
    subst g; vec; lra.
  - apply (proj2 (proj2 (resolveCollision_static_untouched none false g g))).
    subst g; vec; lra.
Defined.

(** ** [addBody] *)

(** C9: for an argument that is not a [PhysicsBody], [addBody] prints an
    error, returns [null] and leaves both collections as they were; for a
    [PhysicsBody] it appends the body to [staticBodies] when [isStatic] is
    set and to [bodies] otherwise, and returns the body.  In both cases the
    call returns: nothing is thrown. *)
Theorem addBody_spec (v : JsValue) (w : PhysicsWorld.t) :
  let w' := fst (PhysicsWorld.addBody v w) in
  match asPhysicsBody v with
  | None =>
      snd (PhysicsWorld.addBody v w) = Returned None
      /\ PhysicsWorld.consoleErrors w'
         = PhysicsWorld.consoleErrors w
           ++ ["Trying to add a non-PhysicsBody object to the physics world"%string]
      /\ PhysicsWorld.bodies w' = PhysicsWorld.bodies w
      /\ PhysicsWorld.staticBodies w' = PhysicsWorld.staticBodies w
  | Some b =>
      snd (PhysicsWorld.addBody v w) = Returned (Some b)
      /\ PhysicsWorld.consoleErrors w' = PhysicsWorld.consoleErrors w
      /\ (Body.isStatic b = true ->
          PhysicsWorld.staticBodies w' = PhysicsWorld.staticBodies w ++ [b]
          /\ PhysicsWorld.bodies w' = PhysicsWorld.bodies w)
      /\ (Body.isStatic b = false ->
          PhysicsWorld.bodies w' = PhysicsWorld.bodies w ++ [b]
          /\ PhysicsWorld.staticBodies w' = PhysicsWorld.staticBodies w)
  end.
Proof.
  unfold PhysicsWorld.addBody.
  destruct v; simpl; try (repeat split; reflexivity).
  destruct (Body.isStatic b); simpl;
    (split; [reflexivity | split; [reflexivity | split]]);
    intros H; try discriminate H; split; reflexivity.
Qed.

(** C9 at the world of the game: a string is refused, the ground plane is
    filed with the static bodies and the player's body with the dynamic
    ones. *)
Lemma addBody_spec_witness :
  let p := Sample.playerBody (Vector3.mk 0 2 0) Vector3.zero in
  let added (v : JsValue) := fst (PhysicsWorld.addBody v Sample.world) in
  (snd (PhysicsWorld.addBody (JsString "zombie") Sample.world) = Returned None
   /\ PhysicsWorld.bodies (added (JsString "zombie")) = []
   /\ PhysicsWorld.staticBodies (added (JsString "zombie")) = [])
  /\ (PhysicsWorld.staticBodies (added (JsPhysicsBody Sample.groundPlane))
      = [Sample.groundPlane]
      /\ PhysicsWorld.bodies (added (JsPhysicsBody Sample.groundPlane)) = [])
  /\ (PhysicsWorld.bodies (added (JsPhysicsBody p)) = [p]
      /\ PhysicsWorld.staticBodies (added (JsPhysicsBody p)) = []).
Proof.
  intros p added.
  pose proof (addBody_spec (JsString "zombie") Sample.world) as H1.
  pose proof (addBody_spec (JsPhysicsBody Sample.groundPlane) Sample.world)
    as H2.
  pose proof (addBody_spec (JsPhysicsBody p) Sample.world) as H3.
  split; [| split].
  - destruct H1 as (Hr & _ & Hb & Hs). split; [exact Hr | split].
    + exact Hb.
    + exact Hs.
  - destruct H2 as (_ & _ & H2 & _). exact (H2 eq_refl).
  - destruct H3 as (_ & _ & _ & H3). exact (H3 eq_refl).
Defined.

(** ** The fixed-step loop *)

(** *** Facts about binary64 *)









Lemma digits2_pos_size (m : positive) : SpecFloat.digits2_pos m = Pos.size m.
Proof. induction m; cbn; congruence. Qed.












(** *** The loop *)

Section UpdateLoop.

Variable fixedUpdateBodies :
  float -> list Body.t * list Body.t -> list Body.t * list Body.t.



End UpdateLoop.


(** The number of calls is unique. *)
Lemma endsAfter_unique (step a : float) (n m : nat) :
  PhysicsWorld.endsAfter step a n -> PhysicsWorld.endsAfter step a m -> n = m.
Proof.
  intros [Hn1 Hn2] [Hm1 Hm2].
  destruct (Nat.lt_trichotomy n m) as [H | [H | H]]; [| exact H |].
  - rewrite (Hm1 n H) in Hn2. discriminate Hn2.
  - rewrite (Hn1 m H) in Hm2. discriminate Hm2.
Qed.



(** The constructor sets up what the amended C3 asks of the world, for the
    60 steps per second of the game. *)
Lemma create_accumulator (configGravity : R) :
  let w := PhysicsWorld.create configGravity 60%float in
  (zero <=? PhysicsWorld.accumulator w)%float = true
  /\ (zero <? PhysicsWorld.fixedTimeStep w)%float = true
  /\ (PhysicsWorld.fixedTimeStep w <? infinity)%float = true.
Proof. repeat split. Qed.


(** ** Lengths *)

Lemma lengthSq_nonneg (v : Vector3.t) : 0 <= Vector3.lengthSq v.
Proof. unfold Vector3.lengthSq. nra. Qed.

Lemma length_square (v : Vector3.t) :
  Vector3.length v * Vector3.length v = Vector3.lengthSq v.
Proof. apply sqrt_sqrt. apply lengthSq_nonneg. Qed.

Lemma length_le_of_sq (v : Vector3.t) (c : R) :
  0 <= c -> Vector3.lengthSq v <= c * c -> Vector3.length v <= c.
Proof.
  intros Hc H. unfold Vector3.length. rewrite <- (sqrt_square c Hc).
  apply sqrt_le_1; [apply lengthSq_nonneg | nra | exact H].
Qed.

Lemma length_of_sq (v : Vector3.t) (c : R) :
  0 <= c -> Vector3.lengthSq v = c * c -> Vector3.length v = c.
Proof.
  intros Hc H. unfold Vector3.length. rewrite H. apply sqrt_square. exact Hc.
Qed.

(** A vector scaled to the length [m]. *)
Lemma lengthSq_rescaled (v : Vector3.t) (m : R) :
  0 < Vector3.length v ->
  Vector3.lengthSq (Vector3.multiplyScalar v (m / Vector3.length v)) = m * m.
Proof.
  intros Hpos. pose proof (length_square v) as Hsq.
  set (l := Vector3.length v) in *.
  unfold Vector3.lengthSq in *. unfold Vector3.multiplyScalar. simpl.
  transitivity
    ((Vector3.x v * Vector3.x v + Vector3.y v * Vector3.y v
      + Vector3.z v * Vector3.z v) * (m / l * (m / l))).
  - ring.
  - rewrite <- Hsq. field. lra.
Qed.

(** [limitSpeed] keeps its promise. *)
Lemma limitSpeed_length (v : Vector3.t) :
  Vector3.length (Movement.limitSpeed v) <= Movement.maxSpeed.
Proof.
  unfold Movement.limitSpeed.
  destruct (Movement.maxSpeed <? Vector3.length v) eqn:E.
  - apply Rltb_true in E.
    assert (Hm : 0 <= Movement.maxSpeed) by (unfold Movement.maxSpeed; lra).
    apply length_le_of_sq; [exact Hm |].
    rewrite lengthSq_rescaled by lra. lra.
  - apply Rltb_false in E. exact E.
Qed.

(** The speed on the horizontal plane is at most the speed. *)
Lemma horizontal_length (v : Vector3.t) :
  Vector3.length (Vector3.mk (Vector3.x v) 0 (Vector3.z v))
  <= Vector3.length v.
Proof.
  unfold Vector3.length. apply sqrt_le_1; try apply lengthSq_nonneg.
  unfold Vector3.lengthSq. simpl. nra.
Qed.

(** ** [Movement] *)

Lemma detectDirectionChange_frame (now : R) (p : State.Player) :
  Movement.detectDirectionChange now p
  = State.with_movement p
      (State.movement (Movement.detectDirectionChange now p)).
Proof.
  unfold Movement.detectDirectionChange.
  repeat match goal with
         | |- context [if ?c then _ else _] => destruct c
         end; reflexivity.
Qed.

(** [steer] writes to the [Movement] object only. *)
Lemma steer_frame (now : R) (p : State.Player) :
  Movement.steer now p
  = State.with_movement p (State.movement (Movement.steer now p)).
Proof.
  unfold Movement.steer.
  rewrite (detectDirectionChange_frame now
             (Movement.calculateMoveDirection (Movement.clampedInput p) p)).
  reflexivity.
Qed.

Lemma steer_physicsBody (now : R) (p : State.Player) :
  State.physicsBody (Movement.steer now p) = State.physicsBody p.
Proof. rewrite steer_frame. reflexivity. Qed.

Lemma steer_isJumping (now : R) (p : State.Player) :
  State.isJumping (Movement.steer now p) = State.isJumping p.
Proof. rewrite steer_frame. reflexivity. Qed.

Lemma steer_jumpCount (now : R) (p : State.Player) :
  State.jumpCount (Movement.steer now p) = State.jumpCount p.
Proof. rewrite steer_frame. reflexivity. Qed.

Lemma steer_targetVelocity (now : R) (p : State.Player) :
  State.targetVelocity (State.movement (Movement.steer now p))
  = Vector3.multiplyScalar
      (State.moveDirection (State.movement (Movement.steer now p)))
      (if State.isSprinting p then Movement.runSpeed else Movement.walkSpeed).
Proof.
  unfold Movement.steer.
  set (q := Movement.detectDirectionChange now _).
  assert (Hs : State.isSprinting q = State.isSprinting p).
  { subst q. rewrite detectDirectionChange_frame. reflexivity. }
  cbn [State.movement State.with_movement State.targetVelocity
       State.with_targetVelocity State.moveDirection].
  rewrite Hs. reflexivity.
Qed.

Lemma saveLast_physicsBody (input : Vector3.t) (p : State.Player) :
  State.physicsBody (Movement.saveLast input p) = State.physicsBody p.
Proof. reflexivity. Qed.

(** What [writeVelocity] leaves in the body. *)
Lemma writeVelocity_body (nv : Vector3.t) (p : State.Player) :
  State.physicsBody (Movement.writeVelocity nv p)
  = Body.with_velocity (State.physicsBody p)
      (if State.isJumping p && Nat.eqb (State.jumpCount p) 1
       then Vector3.mk
              (Vector3.x nv
               + Vector3.x (State.moveDirection (State.movement p))
                 * (Movement.jumpBoostForward * Movement.walkSpeed))
              (Vector3.y (Body.velocity (State.physicsBody p)))
              (Vector3.z nv
               + Vector3.z (State.moveDirection (State.movement p))
                 * (Movement.jumpBoostForward * Movement.walkSpeed))
       else Vector3.mk (Vector3.x nv)
              (Vector3.y (Body.velocity (State.physicsBody p)))
              (Vector3.z nv)).
Proof.
  unfold Movement.writeVelocity.
  cbn [State.isJumping State.jumpCount State.with_bodyVelocity
       State.with_physicsBody].
  destruct (State.isJumping p && Nat.eqb (State.jumpCount p) 1); reflexivity.
Qed.

(** What [applyStopForce] leaves in the body. *)
Lemma applyStopForce_body (deltaTime : R) (p : State.Player) :
  exists vx vz,
    State.physicsBody (Movement.applyStopForce deltaTime p)
    = Body.with_velocity (State.physicsBody p)
        (Vector3.mk vx (Vector3.y (Body.velocity (State.physicsBody p))) vz).
Proof.
  unfold Movement.applyStopForce.
  match goal with |- context [if ?c then _ else _] => destruct c end;
    eexists; eexists; reflexivity.
Qed.

(** *** The direction of movement for a player who looks along -z *)

Lemma setFromEuler_zero :
  Quaternion.setFromEuler (Euler.mk 0 0 0) = Quaternion.mk 0 0 0 1.
Proof.
  unfold Quaternion.setFromEuler. cbn [Euler.x Euler.y Euler.z].
  replace (0 / 2) with 0 by lra. rewrite cos_0, sin_0.
  f_equal; ring.
Qed.

Lemma applyQuaternion_identity (v : Vector3.t) :
  Quaternion.applyQuaternion v (Quaternion.mk 0 0 0 1) = v.
Proof.
  destruct v as [a b c]. unfold Quaternion.applyQuaternion. simpl.
  f_equal; ring.
Qed.

Lemma Rltb_0_1 : (0 <? 1) = true.
Proof. apply Rltb_true. lra. Qed.

Lemma normalize_unit (v : Vector3.t) :
  Vector3.lengthSq v = 1 -> Vector3.normalize v = v.
Proof.
  intros H.
  assert (Hl : Vector3.length v = 1).
  { apply length_of_sq; lra. }
  unfold Vector3.normalize, Vector3.divideScalar, orDefault. rewrite Hl.
  replace (1 =? 0) with false by (symmetry; apply Reqb_false; lra).
  destruct v as [a b c]. unfold Vector3.multiplyScalar. simpl.
  f_equal; field.
Qed.

Lemma calculateMoveDirection_D (p : State.Player) :
  State.viewRotation p = Euler.mk 0 0 0 ->
  State.moveDirection
    (State.movement (Movement.calculateMoveDirection (Vector3.mk 1 0 0) p))
  = Vector3.mk 1 0 0.
Proof.
  intros Hview. unfold Movement.calculateMoveDirection.
  rewrite Hview. cbn [Euler.y State.movement State.with_movement
                      State.moveDirection State.with_moveDirection].
  rewrite setFromEuler_zero, !applyQuaternion_identity.
  unfold Vector3.set_y. cbn [Vector3.x Vector3.y Vector3.z].
  assert (Hf : Vector3.lengthSq (Vector3.mk 0 0 (-1)) = 1) by (vec; lra).
  assert (Hr : Vector3.lengthSq (Vector3.mk 1 0 0) = 1) by (vec; lra).
  rewrite Hf, Hr, Rltb_0_1, !normalize_unit by assumption.
  replace (Vector3.addScaledVector _ _ _) with (Vector3.mk 1 0 0)
    by (vec; f_equal; lra).
  rewrite Hr, Rltb_0_1. apply normalize_unit. exact Hr.
Qed.

(** The sample players hold D: the input needs no clamping. *)
Lemma clampedInput_D (p : State.Player) :
  State.moveInput p = Vector3.mk 1 0 0 ->
  Movement.hasInput p = true
  /\ Movement.clampedInput p = Vector3.mk 1 0 0.
Proof.
  intros H. unfold Movement.hasInput, Movement.clampedInput. rewrite H.
  assert (Hr : Vector3.lengthSq (Vector3.mk 1 0 0) = 1) by (vec; lra).
  rewrite Hr, Rltb_0_1.
  replace (1 <? 1) with false by (symmetry; apply Rltb_false; lra).
  split; reflexivity.
Qed.

Lemma calculateMoveDirection_D_eq (p : State.Player) :
  State.viewRotation p = Euler.mk 0 0 0 ->
  Movement.calculateMoveDirection (Vector3.mk 1 0 0) p
  = State.with_movement p
      (State.with_moveDirection (State.movement p) (Vector3.mk 1 0 0)).
Proof.
  intros Hview.
  rewrite <- (calculateMoveDirection_D p Hview) at 2. reflexivity.
Qed.

(** Replace by its value every test on numbers that [lra] can decide. *)
Ltac decide_tests :=
  repeat match goal with
  | |- context [Rltb ?a ?b] =>
      first [ replace (Rltb a b) with true
                by (symmetry; apply Rltb_true; lra)
            | replace (Rltb a b) with false
                by (symmetry; apply Rltb_false; lra) ]
  | |- context [Rleb ?a ?b] =>
      first [ replace (Rleb a b) with true
                by (symmetry; apply Rleb_true; lra)
            | replace (Rleb a b) with false
                by (symmetry; apply Rleb_false; lra) ]
  | |- context [Reqb ?a ?b] =>
      first [ replace (Reqb a b) with true
                by (symmetry; apply Reqb_true; lra)
            | replace (Reqb a b) with false
                by (symmetry; apply Reqb_false; lra) ]
  end.

(** The three sample players after [steer]. *)
Lemma steer_turningPlayer (now : R) :
  State.movement (Movement.steer now Sample.turningPlayer)
  = State.mkMovement (Vector3.mk 1 0 0)
      (Vector3.multiplyScalar (Vector3.mk 1 0 0) Movement.runSpeed)
      (Vector3.mk (-1) 0 0) (Vector3.mk (-1) 0 0) 6 now true.
Proof.
  unfold Movement.steer.
  rewrite (proj2 (clampedInput_D Sample.turningPlayer eq_refl)).
  rewrite calculateMoveDirection_D_eq by reflexivity.
  unfold Movement.detectDirectionChange, Movement.directionChangeThreshold.
  cbn. vec. decide_tests. reflexivity.
Qed.

Lemma steer_airborne (now : R) (jumping : bool) :
  let p := Sample.playerHoldingD true jumping 1 false
             (Sample.playerBody (Vector3.mk 0 1 0) (Vector3.mk 12 0 0))
             (State.mkMovement (Vector3.mk 1 0 0) (Vector3.mk 10 0 0)
                (Vector3.mk 1 0 0) (Vector3.mk 1 0 0) 12 0 false) in
  State.movement (Movement.steer now p)
  = State.mkMovement (Vector3.mk 1 0 0)
      (Vector3.multiplyScalar (Vector3.mk 1 0 0) Movement.runSpeed)
      (Vector3.mk 1 0 0) (Vector3.mk 1 0 0) 12 0 false.
Proof.
  intros p. unfold Movement.steer.
  rewrite (proj2 (clampedInput_D p eq_refl)).
  rewrite calculateMoveDirection_D_eq by reflexivity.
  unfold Movement.detectDirectionChange, Movement.directionChangeThreshold.
  cbn. vec. decide_tests. reflexivity.
Qed.

(** C6: when [update] runs with move input, the direction-change flag is set
    as [applyAccelerationWithMomentum] reads it and the horizontal speed is
    above 2.0, the velocity before the speed limit is
    [currentV * 0.5 + targetVelocity * 0.5], with
    [targetVelocity = moveDirection * (sprinting ? runSpeed : walkSpeed)];
    the update goes on from that velocity. *)
Theorem momentum_blend (deltaTime now : R) (p : State.Player) :
  Movement.hasInput p = true ->
  State.hasChangedDirection (State.movement (Movement.steer now p)) = true ->
  2.0 < Movement.currentSpeed p ->
  let q := Movement.steer now p in
  let target :=
    Vector3.multiplyScalar (State.moveDirection (State.movement q))
      (if State.isSprinting p then Movement.runSpeed else Movement.walkSpeed) in
  let blended :=
    Vector3.add (Vector3.multiplyScalar (Movement.currentVelocity p) 0.5)
                (Vector3.multiplyScalar target 0.5) in
  Movement.momentumRetention = 0.5
  /\ State.targetVelocity (State.movement q) = target
  /\ Movement.blendedVelocity deltaTime q = blended
  /\ Movement.update deltaTime now p
     = Movement.saveLast (Movement.clampedInput p)
         (Movement.writeVelocity (Movement.limitSpeed blended) q).
Proof.
  intros Hinput Hflag Hspeed q target blended.
  assert (Ht : State.targetVelocity (State.movement q) = target)
    by apply steer_targetVelocity.
  assert (Hcv : Movement.currentVelocity q = Movement.currentVelocity p).
  { unfold Movement.currentVelocity. subst q. rewrite steer_physicsBody.
    reflexivity. }
  assert (Hb : Movement.blendedVelocity deltaTime q = blended).
  { unfold Movement.blendedVelocity, Movement.currentSpeed.
    rewrite Hcv, Ht. fold q in Hflag. rewrite Hflag.
    fold (Movement.currentSpeed p).
    replace (2.0 <? Movement.currentSpeed p) with true
      by (symmetry; apply Rltb_true; exact Hspeed).
    subst blended. unfold Movement.momentumRetention. vec.
    f_equal; lra. }
  split; [reflexivity | split; [exact Ht | split; [exact Hb |]]].
  unfold Movement.update. rewrite Hinput.
  unfold Movement.applyAccelerationWithMomentum. fold q. rewrite Hb.
  reflexivity.
Qed.

Lemma currentSpeed_turningPlayer :
  Movement.currentSpeed Sample.turningPlayer = 6.
Proof.
  unfold Movement.currentSpeed. apply length_of_sq; [lra |]. vec. lra.
Qed.

(** C6 at the player who turns from -x to +x at 6 units per second while
    sprinting: half of [(-6, 0, 0)] plus half of [(10, 0, 0)]. *)
Lemma momentum_blend_witness :
  Movement.blendedVelocity (1 / 60) (Movement.steer 1000 Sample.turningPlayer)
  = Vector3.mk 2 0 0.
Proof.
  destruct (momentum_blend (1 / 60) 1000 Sample.turningPlayer)
    as (_ & _ & H & _).
  - apply (clampedInput_D Sample.turningPlayer). reflexivity.
  - rewrite steer_turningPlayer. reflexivity.
  - rewrite currentSpeed_turningPlayer. lra.
  - rewrite H. rewrite steer_turningPlayer. unfold Movement.runSpeed. vec.
    f_equal; lra.
Defined.

(** *** The speed limit and the jump boost *)

Lemma steer_airborne_eq (now : R) (jumping : bool) :
  let p := Sample.playerHoldingD true jumping 1 false
             (Sample.playerBody (Vector3.mk 0 1 0) (Vector3.mk 12 0 0))
             (State.mkMovement (Vector3.mk 1 0 0) (Vector3.mk 10 0 0)
                (Vector3.mk 1 0 0) (Vector3.mk 1 0 0) 12 0 false) in
  Movement.steer now p
  = State.with_movement p
      (State.mkMovement (Vector3.mk 1 0 0)
         (Vector3.multiplyScalar (Vector3.mk 1 0 0) Movement.runSpeed)
         (Vector3.mk 1 0 0) (Vector3.mk 1 0 0) 12 0 false).
Proof.
  intros p. rewrite steer_frame. subst p. rewrite steer_airborne.
  reflexivity.
Qed.

Lemma length_along_x (a : R) :
  0 <= a -> Vector3.length (Vector3.mk a 0 0) = a.
Proof. intros H. apply length_of_sq; [exact H |]. vec. lra. Qed.

(** In the air at 12 units per second along +x, over 1/60 s, the velocity is
    drawn towards the target of 10 by [20 * 0.9 / 60 = 0.3] of the
    difference, and stays under the limit. *)
Lemma limited_airborne (now : R) (jumping : bool) :
  let p := Sample.playerHoldingD true jumping 1 false
             (Sample.playerBody (Vector3.mk 0 1 0) (Vector3.mk 12 0 0))
             (State.mkMovement (Vector3.mk 1 0 0) (Vector3.mk 10 0 0)
                (Vector3.mk 1 0 0) (Vector3.mk 1 0 0) 12 0 false) in
  Movement.limitSpeed
    (Movement.blendedVelocity (1 / 60) (Movement.steer now p))
  = Vector3.mk 11.4 0 0.
Proof.
  intros p. subst p. rewrite steer_airborne_eq.
  assert (Hb : forall q,
             q = State.with_movement
                   (Sample.playerHoldingD true jumping 1 false
                      (Sample.playerBody (Vector3.mk 0 1 0)
                         (Vector3.mk 12 0 0))
                      (State.mkMovement (Vector3.mk 1 0 0) (Vector3.mk 10 0 0)
                         (Vector3.mk 1 0 0) (Vector3.mk 1 0 0) 12 0 false))
                   (State.mkMovement (Vector3.mk 1 0 0)
                      (Vector3.multiplyScalar (Vector3.mk 1 0 0)
                         Movement.runSpeed)
                      (Vector3.mk 1 0 0) (Vector3.mk 1 0 0) 12 0 false) ->
             Movement.blendedVelocity (1 / 60) q = Vector3.mk 11.4 0 0).
  { intros q Hq.
    assert (Hs : Movement.currentSpeed q = 12).
    { rewrite Hq. unfold Movement.currentSpeed, Movement.currentVelocity.
      cbn. apply length_along_x. lra. }
    unfold Movement.blendedVelocity. rewrite Hs. rewrite Hq.
    unfold Movement.currentVelocity, Movement.airAcceleration,
      Movement.airControl, Movement.runSpeed. cbn.
    decide_tests. cbn. rewrite Rmin_left by lra. vec. f_equal; lra. }
  rewrite (Hb _ eq_refl). unfold Movement.limitSpeed.
  rewrite length_along_x by lra. unfold Movement.maxSpeed.
  decide_tests. reflexivity.
Qed.

(** C7 fails, and by a slip of the code: the source calls [maxSpeed] the
    "cap for absolute maximum speed" and limits the "maximum horizontal
    speed" to it, but adds the boost of the first jump after the limit.  The
    player of [Sample.boostedPlayer] has move input, travels through the air
    at 12 units per second and still has the boost to receive; [update]
    limits the speed to 11.4 and then adds the boost of 1.2, so the
    horizontal speed is 12.6, above [maxSpeed]. *)
Lemma movement_speed_above_max_after_boost :
  let p' := Movement.update (1 / 60) 0 Sample.boostedPlayer in
  let v' := Body.velocity (State.physicsBody p') in
  Movement.hasInput Sample.boostedPlayer = true
  /\ Vector3.x v' = 12.6 /\ Vector3.z v' = 0
  /\ ~ sqrt (Vector3.x v' * Vector3.x v' + Vector3.z v' * Vector3.z v')
       <= Movement.maxSpeed.
Proof.
  intros p' v'.
  assert (Hin : Movement.hasInput Sample.boostedPlayer = true)
    by (apply (clampedInput_D Sample.boostedPlayer); reflexivity).
  assert (Hv : v' = Vector3.mk 12.6 0 0).
  { subst v' p'. unfold Movement.update. rewrite Hin.
    rewrite saveLast_physicsBody.
    unfold Movement.applyAccelerationWithMomentum.
    rewrite writeVelocity_body.
    unfold Sample.boostedPlayer. rewrite limited_airborne.
    rewrite steer_airborne_eq.
    unfold Movement.jumpBoostForward, Movement.walkSpeed. cbn.
    f_equal; lra. }
  rewrite Hv. cbn. repeat split; try reflexivity; try exact Hin.
  intros H. unfold Movement.maxSpeed in H.
  replace (12.6 * 12.6 + 0 * 0) with (12.6 * 12.6) in H by lra.
  rewrite sqrt_square in H by lra. lra.
Qed.

(** [update] writes nothing to the body but the x and z of its velocity. *)
Lemma movement_update_body (deltaTime now : R) (p : State.Player) :
  exists vx vz,
    State.physicsBody (Movement.update deltaTime now p)
    = Body.with_velocity (State.physicsBody p)
        (Vector3.mk vx (Vector3.y (Body.velocity (State.physicsBody p))) vz).
Proof.
  unfold Movement.update. destruct (Movement.hasInput p).
  - rewrite saveLast_physicsBody.
    unfold Movement.applyAccelerationWithMomentum.
    rewrite writeVelocity_body.
    rewrite steer_physicsBody, steer_isJumping, steer_jumpCount.
    destruct (State.isJumping p && Nat.eqb (State.jumpCount p) 1);
      eexists; eexists; reflexivity.
  - rewrite saveLast_physicsBody. apply applyStopForce_body.
Qed.

(** With move input and no boost due, the update ends within the limit. *)
Lemma movement_update_speed (deltaTime now : R) (p : State.Player) :
  Movement.hasInput p = true ->
  State.isJumping p && Nat.eqb (State.jumpCount p) 1 = false ->
  let v' :=
    Body.velocity (State.physicsBody (Movement.update deltaTime now p)) in
  sqrt (Vector3.x v' * Vector3.x v' + Vector3.z v' * Vector3.z v')
  <= Movement.maxSpeed.
Proof.
  intros Hin Hboost v'. subst v'. unfold Movement.update. rewrite Hin.
  rewrite saveLast_physicsBody.
  unfold Movement.applyAccelerationWithMomentum.
  rewrite writeVelocity_body.
  rewrite steer_physicsBody, steer_isJumping, steer_jumpCount, Hboost.
  set (nv := Movement.limitSpeed _). cbn.
  apply Rle_trans with (Vector3.length nv); [| apply limitSpeed_length].
  pose proof (horizontal_length nv) as H.
  unfold Vector3.length at 1 in H. unfold Vector3.lengthSq at 1 in H.
  cbn in H.
  replace (Vector3.x nv * Vector3.x nv + Vector3.z nv * Vector3.z nv)
    with (Vector3.x nv * Vector3.x nv + 0 * 0
          + Vector3.z nv * Vector3.z nv) by ring.
  exact H.
Qed.

(** ** [Player]: jumping *)

(** [Movement.update] leaves the jump state alone. *)
Lemma writeVelocity_jumpState (nv : Vector3.t) (p : State.Player) :
  State.jumpState (Movement.writeVelocity nv p) = State.jumpState p.
Proof.
  unfold Movement.writeVelocity.
  match goal with |- context [if ?c then _ else _] => destruct c end;
    reflexivity.
Qed.

Lemma applyStopForce_jumpState (deltaTime : R) (p : State.Player) :
  State.jumpState (Movement.applyStopForce deltaTime p) = State.jumpState p.
Proof.
  unfold Movement.applyStopForce.
  match goal with |- context [if ?c then _ else _] => destruct c end;
    reflexivity.
Qed.

Lemma steer_jumpState (now : R) (p : State.Player) :
  State.jumpState (Movement.steer now p) = State.jumpState p.
Proof. rewrite steer_frame. reflexivity. Qed.

Lemma saveLast_jumpState (input : Vector3.t) (p : State.Player) :
  State.jumpState (Movement.saveLast input p) = State.jumpState p.
Proof. reflexivity. Qed.

Lemma movement_update_jumpState (deltaTime now : R) (p : State.Player) :
  State.jumpState (Movement.update deltaTime now p) = State.jumpState p.
Proof.
  unfold Movement.update. destruct (Movement.hasInput p).
  - rewrite saveLast_jumpState.
    unfold Movement.applyAccelerationWithMomentum.
    rewrite writeVelocity_jumpState. apply steer_jumpState.
  - rewrite saveLast_jumpState. apply applyStopForce_jumpState.
Qed.

Lemma movement_update_velocity_y (deltaTime now : R) (p : State.Player) :
  Vector3.y (Body.velocity (State.physicsBody (Movement.update deltaTime now p)))
  = Vector3.y (Body.velocity (State.physicsBody p)).
Proof.
  destruct (movement_update_body deltaTime now p) as (vx & vz & H).
  rewrite H. reflexivity.
Qed.

(** The ground tracking of [update]. *)
Lemma trackGround_fields (currentTime : R) (p : State.Player) :
  let s := Player.trackGround currentTime p in
  let landed := Body.onGround (State.physicsBody p) && negb (State.onGround p) in
  State.jumpCount s = (if landed then 0%nat else State.jumpCount p)
  /\ State.onGround s = Body.onGround (State.physicsBody p)
  /\ State.jumpRequested s = State.jumpRequested p
  /\ State.jumpBufferTime s = State.jumpBufferTime p
  /\ State.maxJumps s = State.maxJumps p
  /\ State.lastJumpTime s = State.lastJumpTime p
  /\ State.isDead s = State.isDead p
  /\ State.physicsBody s = State.physicsBody p.
Proof.
  unfold Player.trackGround.
  cbn [State.onGround State.with_kinematics State.with_onGround
       State.physicsBody].
  destruct (Body.onGround (State.physicsBody p)), (State.onGround p); cbn;
    repeat split; reflexivity.
Qed.

Lemma canFirstJump_true (currentTime : R) (p : State.Player) :
  Player.canFirstJump currentTime p = true
  <-> Player.groundedOrCoyote currentTime p.
Proof.
  unfold Player.canFirstJump, Player.groundedOrCoyote.
  rewrite orb_true_iff, Rltb_true. reflexivity.
Qed.

(** [processJump] succeeds exactly under [jumpConditions]. *)
Lemma processJump_succeeds (currentTime : R) (p : State.Player) :
  snd (Player.processJump currentTime p) = true
  <-> Player.jumpConditions currentTime p.
Proof.
  unfold Player.processJump, Player.jumpConditions, Player.cooldownOver,
    Player.firstJumpAllowed, Player.airJumpAllowed.
  rewrite <- canFirstJump_true.
  destruct (currentTime - State.lastJumpTime p <? 100) eqn:Ecool.
  { apply Rltb_true in Ecool. simpl. split; [discriminate | intros [H _]; lra]. }
  apply Rltb_false in Ecool.
  destruct (Player.canFirstJump currentTime p) eqn:Efirst; simpl.
  - destruct (Nat.eqb (State.jumpCount p) 0) eqn:Ecount; simpl.
    + apply Nat.eqb_eq in Ecount. split; [| reflexivity].
      intros _. split; [exact Ecool | left; split; [reflexivity | exact Ecount]].
    + apply Nat.eqb_neq in Ecount. split; [discriminate |].
      intros [_ [[_ H] | [H _]]]; [contradiction | exfalso; apply H; reflexivity].
  - destruct (Nat.ltb (State.jumpCount p) (State.maxJumps p)) eqn:Ecount; simpl.
    + apply Nat.ltb_lt in Ecount. split; [| reflexivity].
      intros _. split; [exact Ecool | right; split; [discriminate | exact Ecount]].
    + apply Nat.ltb_ge in Ecount. split; [discriminate |].
      intros [_ [[H _] | [_ H]]]; [discriminate | lia].
Qed.

Lemma processJump_fails (currentTime : R) (p : State.Player) :
  snd (Player.processJump currentTime p) = false ->
  fst (Player.processJump currentTime p) = p.
Proof.
  unfold Player.processJump.
  repeat match goal with
         | |- context [if ?c then _ else _] => destruct c
         end; simpl; intros H; try discriminate H; reflexivity.
Qed.

Lemma applyJumpBoost_fields (p : State.Player) :
  State.jumpState (Movement.applyJumpBoost p) = State.jumpState p
  /\ State.physicsBody (Movement.applyJumpBoost p) = State.physicsBody p.
Proof.
  unfold Movement.applyJumpBoost.
  match goal with |- context [if ?c then _ else _] => destruct c end;
    split; reflexivity.
Qed.

(** What [processJump] does to the fields that matter for jumping. *)
Lemma processJump_fields (currentTime : R) (p : State.Player) :
  let r := Player.processJump currentTime p in
  State.jumpCount (fst r)
  = (State.jumpCount p + (if snd r then 1 else 0))%nat
  /\ State.jumpRequested (fst r) = State.jumpRequested p
  /\ State.jumpBufferTime (fst r) = State.jumpBufferTime p
  /\ State.maxJumps (fst r) = State.maxJumps p
  /\ State.isDead (fst r) = State.isDead p
  /\ (snd r = true ->
      State.lastJumpTime (fst r) = currentTime
      /\ Vector3.y (Body.velocity (State.physicsBody (fst r)))
         = (if Player.canFirstJump currentTime p
            then Movement.jumpForce else Movement.jumpForce * 0.9))
  /\ ((1 <= State.maxJumps p)%nat ->
      (State.jumpCount p <= State.maxJumps p)%nat ->
      (State.jumpCount (fst r) <= State.maxJumps p)%nat).
Proof.
  unfold Player.processJump.
  destruct (currentTime - State.lastJumpTime p <? 100).
  { simpl. rewrite Nat.add_0_r.
    repeat split; try reflexivity; try discriminate. intros; assumption. }
  destruct (Player.canFirstJump currentTime p) eqn:Efirst; simpl.
  - destruct (Nat.eqb (State.jumpCount p) 0) eqn:Ecount; simpl.
    + apply Nat.eqb_eq in Ecount.
      destruct (applyJumpBoost_fields
                  (State.with_lastJumpTime
                     (State.with_jumpCount
                        (Player.setBodyVelocityY p Movement.jumpForce) 1)
                     currentTime)) as [Hj Hb].
      rewrite Hb. unfold State.jumpState in Hj.
      injection Hj as Hd Hg Hl Ho Hm Hc Ht Hr.
      rewrite ?Hr, ?Ht, ?Hc, ?Hm, ?Hd, ?Hl, ?Hg, ?Ho, ?Ecount. simpl.
      repeat split; try reflexivity. intros; assumption.
    + rewrite Nat.add_0_r.
      repeat split; try reflexivity; try discriminate. intros; assumption.
  - destruct (Nat.ltb (State.jumpCount p) (State.maxJumps p)) eqn:Ecount;
      simpl.
    + apply Nat.ltb_lt in Ecount. rewrite Nat.add_1_r.
      repeat split; try reflexivity. intros; lia.
    + rewrite Nat.add_0_r.
      repeat split; try reflexivity; try discriminate. intros; assumption.
Qed.

(** The buffered request, case by case. *)
Lemma processJumpRequest_idle (now jumpTime : R) (s : State.Player) :
  State.jumpRequested s = false ->
  Player.processJumpRequest now jumpTime s = (s, false).
Proof. intros H. unfold Player.processJumpRequest. rewrite H. reflexivity. Qed.

Lemma processJumpRequest_expired (now jumpTime : R) (s : State.Player) :
  State.jumpRequested s = true ->
  200 <= now - State.jumpBufferTime s ->
  Player.processJumpRequest now jumpTime s
  = (State.with_jumpRequest s false (State.jumpBufferTime s), false).
Proof.
  intros H Hw. unfold Player.processJumpRequest, Player.jumpBufferWindow.
  rewrite H.
  replace (now - State.jumpBufferTime s <? 200) with false
    by (symmetry; apply Rltb_false; exact Hw).
  reflexivity.
Qed.

Lemma processJumpRequest_waits (now jumpTime : R) (s : State.Player) :
  State.jumpRequested s = true ->
  now - State.jumpBufferTime s < 200 ->
  ~ Player.jumpConditions jumpTime s ->
  Player.processJumpRequest now jumpTime s = (s, false).
Proof.
  intros H Hw Hc. unfold Player.processJumpRequest, Player.jumpBufferWindow.
  rewrite H.
  replace (now - State.jumpBufferTime s <? 200) with true
    by (symmetry; apply Rltb_true; exact Hw).
  assert (Hs : snd (Player.processJump jumpTime s) = false).
  { destruct (snd (Player.processJump jumpTime s)) eqn:E; [| reflexivity].
    exfalso. apply Hc. apply processJump_succeeds. exact E. }
  pose proof (processJump_fails jumpTime s Hs) as Hf.
  destruct (Player.processJump jumpTime s) as [p1 ok]. simpl in Hs, Hf.
  subst. reflexivity.
Qed.

Lemma processJumpRequest_jumps (now jumpTime : R) (s : State.Player) :
  State.jumpRequested s = true ->
  now - State.jumpBufferTime s < 200 ->
  Player.jumpConditions jumpTime s ->
  Player.processJumpRequest now jumpTime s
  = (State.with_jumpRequest (fst (Player.processJump jumpTime s)) false
       (State.jumpBufferTime s), true).
Proof.
  intros H Hw Hc. unfold Player.processJumpRequest, Player.jumpBufferWindow.
  rewrite H.
  replace (now - State.jumpBufferTime s <? 200) with true
    by (symmetry; apply Rltb_true; exact Hw).
  apply processJump_succeeds in Hc.
  destruct (processJump_fields jumpTime s) as (_ & _ & Hb & _).
  destruct (Player.processJump jumpTime s) as [p1 ok]. simpl in Hc, Hb.
  subst ok. rewrite Hb. reflexivity.
Qed.

Lemma processJumpRequest_fields (now jumpTime : R) (s : State.Player) :
  let r := Player.processJumpRequest now jumpTime s in
  State.jumpCount (fst r)
  = (State.jumpCount s + (if snd r then 1 else 0))%nat
  /\ State.maxJumps (fst r) = State.maxJumps s
  /\ State.isDead (fst r) = State.isDead s
  /\ ((1 <= State.maxJumps s)%nat ->
      (State.jumpCount s <= State.maxJumps s)%nat ->
      (State.jumpCount (fst r) <= State.maxJumps s)%nat).
Proof.
  unfold Player.processJumpRequest.
  destruct (State.jumpRequested s).
  2:{ simpl. rewrite Nat.add_0_r. repeat split; intros; assumption. }
  destruct (now - State.jumpBufferTime s <? Player.jumpBufferWindow).
  2:{ simpl. rewrite Nat.add_0_r. repeat split; intros; assumption. }
  destruct (processJump_fields jumpTime s)
    as (Hcount & _ & _ & Hmax & Hdead & _ & Hbound).
  destruct (Player.processJump jumpTime s) as [p1 ok].
  simpl in Hcount, Hmax, Hdead, Hbound.
  destruct ok; simpl; repeat split; assumption.
Qed.

(** The constructor starts the count at 0, under a maximum of at least 1. *)
Lemma create_jumpCount (configMaxJumps : option nat) (body : Body.t) :
  State.jumpCount (Player.create configMaxJumps body) = 0%nat
  /\ (1 <= State.maxJumps (Player.create configMaxJumps body))%nat.
Proof.
  split; [reflexivity |]. simpl.
  destruct configMaxJumps as [[| n] |]; simpl; lia.
Qed.

(** C5: over one [update], [jumpCount] is set to 0 exactly when the update
    sees the landing ([physicsBody.onGround] set, [onGround] of the previous
    update clear; the update of a dead player sees nothing), and a jump made
    in this update then adds exactly 1; nothing else changes it.  With a
    maximum of at least 1, as the constructor gives, a count within
    [maxJumps] stays within it. *)
Theorem jumpCount_update (deltaTime : R) (clock : Player.Clock)
    (p : State.Player) :
  let p' := Player.update deltaTime clock p in
  let landed :=
    negb (State.isDead p)
    && (Body.onGround (State.physicsBody p) && negb (State.onGround p)) in
  State.jumpCount p'
  = ((if landed then 0 else State.jumpCount p)
     + (if Player.jumps clock p then 1 else 0))%nat
  /\ State.maxJumps p' = State.maxJumps p
  /\ ((1 <= State.maxJumps p)%nat ->
      (State.jumpCount p <= State.maxJumps p)%nat ->
      (State.jumpCount p' <= State.maxJumps p')%nat).
Proof.
  intros p' landed. subst p' landed. unfold Player.update, Player.jumps.
  destruct (State.isDead p) eqn:Hdead; simpl.
  { rewrite Nat.add_0_r. repeat split; intros; assumption. }
  set (s := Player.trackGround (Player.atUpdate clock) p).
  set (r := Player.processJumpRequest (Player.atUpdate clock)
              (Player.atProcessJump clock) s).
  pose proof (movement_update_jumpState deltaTime (Player.atDetect clock)
                (fst r)) as Hm.
  unfold State.jumpState in Hm. injection Hm as _ _ Hcount Hmax _ _ _ _.
  rewrite Hcount, Hmax.
  destruct (processJumpRequest_fields (Player.atUpdate clock)
              (Player.atProcessJump clock) s) as (Hc & Hx & _ & Hb).
  fold r in Hc, Hx, Hb.
  destruct (trackGround_fields (Player.atUpdate clock) p)
    as (Hsc & _ & _ & _ & Hsm & _).
  fold s in Hsc, Hsm.
  split; [rewrite Hc, Hsc; reflexivity | split; [rewrite Hx; exact Hsm |]].
  intros H1 Hle. rewrite Hx. apply Hb; rewrite Hsm; [exact H1 |].
  rewrite Hsc. destruct (Body.onGround (State.physicsBody p)
                         && negb (State.onGround p)); lia.
Qed.

(** C5 at the landing of a player who has used both jumps: the count, back at
    0 and raised to 1 by the buffered jump, is within the maximum of 2. *)
Lemma jumpCount_update_witness :
  (State.jumpCount
     (Player.update (1 / 60) (Sample.clockAt 1050)
        (Sample.landing Sample.fallingPlayer))
   <= State.maxJumps
        (Player.update (1 / 60) (Sample.clockAt 1050)
           (Sample.landing Sample.fallingPlayer)))%nat.
Proof.
  apply (proj2 (proj2 (jumpCount_update (1 / 60) (Sample.clockAt 1050)
                         (Sample.landing Sample.fallingPlayer))));
    simpl; lia.
Defined.

(** One [update] of a live player, by the state of the jump request. *)
Lemma update_request_step (deltaTime : R) (clock : Player.Clock)
    (q : State.Player) :
  State.isDead q = false ->
  let s := Player.trackGround (Player.atUpdate clock) q in
  let q' := Player.update deltaTime clock q in
  (State.jumpRequested q = true ->
   Player.atUpdate clock - State.jumpBufferTime q < 200 ->
   Player.jumpConditions (Player.atProcessJump clock) s ->
   Player.jumps clock q = true
   /\ State.jumpRequested q' = false
   /\ State.lastJumpTime q' = Player.atProcessJump clock
   /\ Vector3.y (Body.velocity (State.physicsBody q'))
      = (if Player.canFirstJump (Player.atProcessJump clock) s
         then Movement.jumpForce else Movement.jumpForce * 0.9))
  /\ (State.jumpRequested q = true ->
      Player.atUpdate clock - State.jumpBufferTime q < 200 ->
      ~ Player.jumpConditions (Player.atProcessJump clock) s ->
      Player.jumps clock q = false
      /\ State.jumpRequested q' = true
      /\ State.jumpBufferTime q' = State.jumpBufferTime q)
  /\ (State.jumpRequested q = true ->
      200 <= Player.atUpdate clock - State.jumpBufferTime q ->
      Player.jumps clock q = false /\ State.jumpRequested q' = false)
  /\ (State.jumpRequested q = false ->
      Player.jumps clock q = false /\ State.jumpRequested q' = false).
Proof.
  intros Hdead s q'. subst q'. unfold Player.update, Player.jumps.
  rewrite Hdead. cbn [negb andb]. fold s.
  destruct (trackGround_fields (Player.atUpdate clock) q)
    as (_ & _ & Hreq & Hbuf & _).
  fold s in Hreq, Hbuf. rewrite <- Hreq, <- Hbuf.
  set (r := Player.processJumpRequest (Player.atUpdate clock)
              (Player.atProcessJump clock) s).
  pose proof (movement_update_jumpState deltaTime (Player.atDetect clock)
                (fst r)) as Hm.
  unfold State.jumpState in Hm. injection Hm as Hmr Hmb _ _ _ Hml _ _.
  rewrite Hmr, Hmb, Hml, movement_update_velocity_y.
  split; [| split; [| split]].
  - intros Hp Hw Hc. subst r.
    rewrite (processJumpRequest_jumps _ _ s Hp Hw Hc). simpl.
    destruct (processJump_fields (Player.atProcessJump clock) s)
      as (_ & _ & _ & _ & _ & Heff & _).
    destruct (Heff (proj2 (processJump_succeeds _ s) Hc)) as [Ht Hv].
    repeat split; assumption.
  - intros Hp Hw Hc. subst r.
    rewrite (processJumpRequest_waits _ _ s Hp Hw Hc). simpl.
    repeat split; assumption.
  - intros Hp Hw. subst r.
    rewrite (processJumpRequest_expired _ _ s Hp Hw). simpl.
    split; reflexivity.
  - intros Hp. subst r.
    rewrite (processJumpRequest_idle _ _ s Hp). simpl.
    split; [reflexivity | exact Hp].
Qed.

Lemma run_snoc (frames : list Player.Frame) (g : Player.Frame)
    (p : State.Player) :
  Player.run (frames ++ [g]) p = Player.runFrame g (Player.run frames p).
Proof. unfold Player.run. rewrite fold_left_app. reflexivity. Qed.

Lemma update_isDead (deltaTime : R) (clock : Player.Clock)
    (p : State.Player) :
  State.isDead (Player.update deltaTime clock p) = State.isDead p.
Proof.
  unfold Player.update. destruct (State.isDead p) eqn:Hdead; [exact Hdead |].
  pose proof (movement_update_jumpState deltaTime (Player.atDetect clock)
                (fst (Player.processJumpRequest (Player.atUpdate clock)
                        (Player.atProcessJump clock)
                        (Player.trackGround (Player.atUpdate clock) p))))
    as Hm.
  unfold State.jumpState in Hm. injection Hm as _ _ _ _ _ _ _ Hd.
  rewrite Hd.
  destruct (processJumpRequest_fields (Player.atUpdate clock)
              (Player.atProcessJump clock)
              (Player.trackGround (Player.atUpdate clock) p))
    as (_ & _ & Hd' & _).
  rewrite Hd'.
  destruct (trackGround_fields (Player.atUpdate clock) p)
    as (_ & _ & _ & _ & _ & _ & Hd'' & _).
  rewrite Hd''. exact Hdead.
Qed.

(** Quiet frames keep a live player alive. *)
Lemma run_isDead (frames : list Player.Frame) :
  forall p,
    Forall Player.quiet frames ->
    State.isDead (Player.run frames p) = State.isDead p.
Proof.
  induction frames as [| f frames IH]; intros p Hq.
  - reflexivity.
  - inversion Hq as [| ? ? Hf Hrest]; subst.
    change (Player.run (f :: frames) p)
      with (Player.run frames (Player.runFrame f p)).
    rewrite IH by exact Hrest. unfold Player.runFrame.
    rewrite update_isDead. apply (Hf p).
Qed.

(** Without a request, and with the key left alone, no frame jumps. *)
Lemma idle_stays (frames : list Player.Frame) :
  forall p,
    State.isDead p = false ->
    State.jumpRequested p = false ->
    Forall Player.quiet frames ->
    State.jumpRequested (Player.run frames p) = false.
Proof.
  induction frames as [| f frames IH]; intros p Ha Hp Hq.
  - exact Hp.
  - inversion Hq as [| ? ? Hf Hrest]; subst.
    change (Player.run (f :: frames) p)
      with (Player.run frames (Player.runFrame f p)).
    destruct (Hf p) as (Hr & _ & Hd). rewrite Ha in Hd.
    apply IH; [| | exact Hrest]; unfold Player.runFrame.
    + rewrite update_isDead. exact Hd.
    + apply (update_request_step (Player.deltaTime f) (Player.clock f)
               (Player.before f p) Hd).
      rewrite Hr. exact Hp.
Qed.

Lemma idle_never_jumps (frames pre post : list Player.Frame)
    (g : Player.Frame) (p : State.Player) :
  State.isDead p = false ->
  State.jumpRequested p = false ->
  Forall Player.quiet frames ->
  frames = pre ++ g :: post ->
  Player.jumps (Player.clock g) (Player.before g (Player.run pre p)) = false.
Proof.
  intros Ha Hp Hq Hsplit. subst frames.
  apply Forall_app in Hq. destruct Hq as [Hpre Hrest].
  inversion Hrest as [| ? ? Hg _]; subst.
  destruct (Hg (Player.run pre p)) as (Hr & _ & Hd).
  rewrite run_isDead, Ha in Hd by exact Hpre.
  apply (update_request_step 0 (Player.clock g) _ Hd).
  rewrite Hr. apply idle_stays; assumption.
Qed.

(** While every update finds the window open and the conditions unmet, the
    request stays as the press left it. *)
Lemma pending_kept (t : R) (p : State.Player) (frames : list Player.Frame) :
  State.isDead p = false ->
  State.jumpRequested p = true ->
  State.jumpBufferTime p = t ->
  Forall Player.quiet frames ->
  (forall pre g post,
      frames = pre ++ g :: post ->
      Player.atUpdate (Player.clock g) - t < 200
      /\ ~ Player.jumpConditions (Player.atProcessJump (Player.clock g))
             (Player.trackGround (Player.atUpdate (Player.clock g))
                (Player.before g (Player.run pre p)))) ->
  State.jumpRequested (Player.run frames p) = true
  /\ State.jumpBufferTime (Player.run frames p) = t.
Proof.
  intros Ha Hp Ht. induction frames as [| g frames IH] using rev_ind;
    intros Hq Hwait.
  - split; assumption.
  - apply Forall_app in Hq. destruct Hq as [Hfs Hg].
    inversion Hg as [| ? ? Hquiet _]; subst.
    destruct IH as [IHr IHb].
    + exact Hfs.
    + intros pre g0 post Hsplit. apply (Hwait pre g0 (post ++ [g])).
      rewrite Hsplit, <- app_assoc. reflexivity.
    + rewrite run_snoc. unfold Player.runFrame.
      destruct (Hquiet (Player.run frames p)) as (Hr & Hb & Hd).
      rewrite run_isDead, Ha in Hd by exact Hfs.
      destruct (Hwait frames g [] eq_refl) as [Hw Hc].
      destruct (update_request_step (Player.deltaTime g) (Player.clock g)
                  (Player.before g (Player.run frames p)) Hd)
        as (_ & Hstep & _).
      destruct Hstep as (_ & Hr' & Hb').
      * rewrite Hr. exact IHr.
      * rewrite Hb, IHb. exact Hw.
      * exact Hc.
      * split; [exact Hr' |]. rewrite Hb', Hb. exact IHb.
Qed.

(** C4, as stated, fails in two ways.  The player of [Sample.coyotePlayer] is
    alive, pressed [Space] 10 ms ago, left the ground 60 ms ago (within the
    coyote window), has made one jump of two, the last one 110 ms ago: the
    conditions listed hold, yet [update] makes no jump, because
    [processJump] gives the first jump to a count of 0 only and the air jump
    to a player outside the coyote window only.  A dead player's [update]
    returns at once: it makes no jump while the window is open and leaves the
    request pending when the window has passed. *)
Lemma jump_request_not_served :
  (let p := Sample.coyotePlayer in
   let c := Sample.clockAt 1010 in
   State.isDead p = false
   /\ State.jumpRequested p = true
   /\ Player.atUpdate c - State.jumpBufferTime p < 200
   /\ Player.atProcessJump c - State.lastGroundedTime p < 150
   /\ (State.jumpCount p < State.maxJumps p)%nat
   /\ 100 <= Player.atProcessJump c - State.lastJumpTime p
   /\ Player.jumps c p = false)
  /\ (let p := Sample.deadPlayer in
      State.jumpRequested p = true
      /\ Body.onGround (State.physicsBody p) = true
      /\ State.jumpCount p = 0%nat
      /\ 100 <= 1010 - State.lastJumpTime p
      /\ Player.jumps (Sample.clockAt 1010) p = false
      /\ State.jumpRequested (Player.update (1 / 60) (Sample.clockAt 1300) p)
         = true).
Proof.
  split.
  - cbn zeta. repeat split; try (simpl; lra); try (simpl; lia).
    destruct (update_request_step 0 (Sample.clockAt 1010)
                Sample.coyotePlayer eq_refl) as (_ & Hkeep & _).
    apply Hkeep.
    + reflexivity.
    + simpl. lra.
    + unfold Player.jumpConditions, Player.firstJumpAllowed,
        Player.airJumpAllowed, Player.groundedOrCoyote, Player.coyoteTime.
      simpl. intros [_ [[_ H] | [H _]]]; [discriminate H |].
      apply H. right. lra.
  - cbn zeta. repeat split; simpl; lra.
Qed.

(** C4, amended.  After a press of [Space] at time [t], when no further
    press comes and the player stays alive, the request stays pending
    through the updates that find the window open ([t' - t < 200]) and the
    conditions of [processJump] unmet; the first update that finds the
    window open and the conditions met makes the jump and clears the
    request; an update that finds the request pending and the window passed
    clears it without a jump, and no later update jumps.  The conditions are:
    at least 100 ms since the last jump, and either a jump count of 0 with
    the player on the ground or off it for less than 150 ms (first jump), or
    the player neither on the ground nor within those 150 ms and a jump count
    below [maxJumps] (air jump, at 0.9 of the force). *)
Theorem jump_request_buffered (t : R) (p : State.Player)
    (frames : list Player.Frame) (f : Player.Frame) :
  State.isDead p = false ->
  State.jumpRequested p = true ->
  State.jumpBufferTime p = t ->
  Forall Player.quiet (frames ++ [f]) ->
  (forall pre g post,
      frames = pre ++ g :: post ->
      Player.atUpdate (Player.clock g) - t < 200
      /\ ~ Player.jumpConditions (Player.atProcessJump (Player.clock g))
             (Player.trackGround (Player.atUpdate (Player.clock g))
                (Player.before g (Player.run pre p)))) ->
  let q := Player.before f (Player.run frames p) in
  let now := Player.atUpdate (Player.clock f) in
  let jumpTime := Player.atProcessJump (Player.clock f) in
  let s := Player.trackGround now q in
  let q' := Player.update (Player.deltaTime f) (Player.clock f) q in
  (State.jumpRequested q = true /\ State.jumpBufferTime q = t)
  /\ (now - t < 200 ->
      Player.jumpConditions jumpTime s ->
      Player.jumps (Player.clock f) q = true
      /\ State.jumpRequested q' = false
      /\ State.lastJumpTime q' = jumpTime
      /\ Vector3.y (Body.velocity (State.physicsBody q'))
         = (if Player.canFirstJump jumpTime s
            then Movement.jumpForce else Movement.jumpForce * 0.9))
  /\ (now - t < 200 ->
      ~ Player.jumpConditions jumpTime s ->
      Player.jumps (Player.clock f) q = false
      /\ State.jumpRequested q' = true
      /\ State.jumpBufferTime q' = t)
  /\ (200 <= now - t ->
      Player.jumps (Player.clock f) q = false
      /\ State.jumpRequested q' = false
      /\ forall later pre g post,
           Forall Player.quiet later ->
           later = pre ++ g :: post ->
           Player.jumps (Player.clock g)
             (Player.before g (Player.run pre q')) = false).
Proof.
  intros Ha Hp Ht Hq Hwait q now jumpTime s q'.
  apply Forall_app in Hq. destruct Hq as [Hfs Hf].
  inversion Hf as [| ? ? Hquiet _]; subst.
  destruct (pending_kept _ p frames Ha Hp eq_refl Hfs Hwait) as [Hr Hb].
  destruct (Hquiet (Player.run frames p)) as (Hqr & Hqb & Hqd).
  rewrite run_isDead, Ha in Hqd by exact Hfs.
  fold q in Hqr, Hqb, Hqd.
  assert (Hreq : State.jumpRequested q = true) by (rewrite Hqr; exact Hr).
  assert (Hbuf : State.jumpBufferTime q = State.jumpBufferTime p)
    by (rewrite Hqb; exact Hb).
  destruct (update_request_step (Player.deltaTime f) (Player.clock f) q Hqd)
    as (Hjump & Hkeep & Hdrop & _).
  fold now jumpTime s q' in Hjump, Hkeep, Hdrop.
  rewrite Hbuf in Hjump, Hkeep, Hdrop.
  split; [split; assumption |].
  split; [intros Hw Hc; exact (Hjump Hreq Hw Hc) |].
  split.
  - intros Hw Hc. destruct (Hkeep Hreq Hw Hc) as (H1 & H2 & H3).
    repeat split; assumption.
  - intros Hw. destruct (Hdrop Hreq Hw) as [H1 H2].
    split; [exact H1 | split; [exact H2 |]].
    intros later pre g post Hlater Hsplit.
    apply (idle_never_jumps later pre post g q'); try assumption.
    subst q'. rewrite update_isDead. exact Hqd.
Qed.

(** An update that leaves the request waiting changes the jump state as
    [trackGround] does, and no further. *)
Lemma update_waiting_jumpState (deltaTime : R) (clock : Player.Clock)
    (q : State.Player) :
  State.isDead q = false ->
  State.jumpRequested q = true ->
  Player.atUpdate clock - State.jumpBufferTime q < 200 ->
  ~ Player.jumpConditions (Player.atProcessJump clock)
      (Player.trackGround (Player.atUpdate clock) q) ->
  State.jumpState (Player.update deltaTime clock q)
  = State.jumpState (Player.trackGround (Player.atUpdate clock) q).
Proof.
  intros Hd Hr Hw Hc. unfold Player.update. rewrite Hd.
  destruct (trackGround_fields (Player.atUpdate clock) q)
    as (_ & _ & Hreq & Hbuf & _).
  rewrite processJumpRequest_waits.
  - apply movement_update_jumpState.
  - rewrite Hreq. exact Hr.
  - rewrite Hbuf. exact Hw.
  - exact Hc.
Qed.

Lemma fallingPlayer_waits :
  ~ Player.jumpConditions 1016 (Player.trackGround 1016 Sample.fallingPlayer).
Proof.
  unfold Player.jumpConditions, Player.firstJumpAllowed,
    Player.airJumpAllowed.
  simpl. intros [_ [[_ H] | [_ H]]]; [discriminate H | lia].
Qed.

Lemma fallingPlayer_in_air :
  State.jumpState (Player.run [Sample.airFrame] Sample.fallingPlayer)
  = (true, 1000, 2%nat, 2%nat, false, 400, 100, false).
Proof.
  change (Player.run [Sample.airFrame] Sample.fallingPlayer)
    with (Player.update (1 / 60) (Player.mkClock 1016 1016 1016)
            Sample.fallingPlayer).
  rewrite update_waiting_jumpState.
  - reflexivity.
  - reflexivity.
  - reflexivity.
  - simpl. lra.
  - exact fallingPlayer_waits.
Qed.

(** The amended C4 at a press 50 ms before the landing of a player who has
    no air jump left: the update in the air, at 1016, leaves the request
    pending; the update that sees the landing, at 1050, makes the jump at
    the full force and clears the request. *)
Lemma jump_request_buffered_witness :
  let q := Sample.landing (Player.run [Sample.airFrame] Sample.fallingPlayer) in
  let q' := Player.update (1 / 60) (Player.mkClock 1050 1050 1050) q in
  State.jumpRequested q = true
  /\ Player.jumps (Player.mkClock 1050 1050 1050) q = true
  /\ State.jumpRequested q' = false
  /\ Vector3.y (Body.velocity (State.physicsBody q')) = Movement.jumpForce.
Proof.
  intros q q'.
  pose proof fallingPlayer_in_air as Hair.
  unfold State.jumpState in Hair.
  injection Hair as Hreq Hbuf Hcount Hmax Hground Hlast Hleft Hdead.
  assert (Hquiet : Forall Player.quiet ([Sample.airFrame] ++ [Sample.landingFrame])).
  { repeat constructor. }
  assert (Hwait : forall pre g post,
             [Sample.airFrame] = pre ++ g :: post ->
             Player.atUpdate (Player.clock g) - 1000 < 200
             /\ ~ Player.jumpConditions
                    (Player.atProcessJump (Player.clock g))
                    (Player.trackGround (Player.atUpdate (Player.clock g))
                       (Player.before g (Player.run pre Sample.fallingPlayer)))).
  { intros pre g post Hsplit.
    destruct pre as [| a pre].
    - injection Hsplit as Hg _. subst g. split.
      + simpl. lra.
      + exact fallingPlayer_waits.
    - destruct pre; discriminate Hsplit. }
  destruct (jump_request_buffered 1000 Sample.fallingPlayer
              [Sample.airFrame] Sample.landingFrame
              eq_refl eq_refl eq_refl Hquiet Hwait)
    as ((Hpending & _) & Hjump & _).
  change (Player.before Sample.landingFrame
            (Player.run [Sample.airFrame] Sample.fallingPlayer))
    with q in Hpending, Hjump.
  change (Player.update (Player.deltaTime Sample.landingFrame)
            (Player.clock Sample.landingFrame) q) with q' in Hjump.
  change (Player.clock Sample.landingFrame)
    with (Player.mkClock 1050 1050 1050) in Hjump.
  cbn [Player.atUpdate Player.atProcessJump] in Hjump.
  destruct (trackGround_fields 1050 q)
    as (Hsc & Hsg & _ & _ & _ & Hsl & _).
  assert (Hbody : Body.onGround (State.physicsBody q) = true) by reflexivity.
  assert (Hwas : State.onGround q = false) by exact Hground.
  rewrite Hbody, Hwas in Hsc. rewrite Hbody in Hsg. cbn in Hsc.
  assert (Hfirst : Player.canFirstJump 1050 (Player.trackGround 1050 q) = true).
  { unfold Player.canFirstJump. rewrite Hsg. reflexivity. }
  destruct Hjump as (H1 & H2 & _ & H4).
  - lra.
  - split.
    + unfold Player.cooldownOver. rewrite Hsl.
      assert (Hl : State.lastJumpTime q = 400) by exact Hlast.
      rewrite Hl. lra.
    + left. split; [left; exact Hsg | exact Hsc].
  - rewrite Hfirst in H4. repeat split; assumption.
Defined.

(** * Further properties of the code *)

(** ** The resolver: impulse, momentum, separation *)

Lemma resolveSpheres_separating (aIsPlayer : bool) (bodyA bodyB : Body.t) :
  0 < PhysicsWorld.velAlongNormal bodyA bodyB
        (Vector3.normalize
           (Vector3.sub (Body.position bodyA) (Body.position bodyB))) ->
  PhysicsWorld.resolveSpheres aIsPlayer bodyA bodyB = (bodyA, bodyB).
Proof.
  intros H. unfold PhysicsWorld.resolveSpheres.
  apply Rltb_true in H. rewrite H. reflexivity.
Qed.

(** The velocities the sphere fallback leaves, for bodies that approach. *)
Lemma resolveSpheres_velocities (aIsPlayer : bool) (bodyA bodyB : Body.t) :
  Body.wf bodyA -> Body.wf bodyB ->
  let n := Vector3.normalize
             (Vector3.sub (Body.position bodyA) (Body.position bodyB)) in
  PhysicsWorld.velAlongNormal bodyA bodyB n <= 0 ->
  0 < Body.invMass bodyA + Body.invMass bodyB ->
  let j := - (1 + Rmin (orDefault (Body.restitution bodyA) 0.3)
                       (orDefault (Body.restitution bodyB) 0.3))
           * PhysicsWorld.velAlongNormal bodyA bodyB n
           / (Body.invMass bodyA + Body.invMass bodyB) in
  let r := PhysicsWorld.resolveSpheres aIsPlayer bodyA bodyB in
  Body.velocity (fst r)
  = Vector3.add (Body.velocity bodyA)
      (Vector3.multiplyScalar n (j * Body.invMass bodyA))
  /\ Body.velocity (snd r)
     = Vector3.sub (Body.velocity bodyB)
         (Vector3.multiplyScalar n (j * Body.invMass bodyB)).
Proof.
  intros HA HB n Hv Hsum j r. subst r j. unfold Body.wf in HA, HB.
  unfold PhysicsWorld.resolveSpheres. rewrite !orDefault_zero. fold n.
  clearbody n.
  set (e := Rmin _ _). clearbody e.
  set (vn := PhysicsWorld.velAlongNormal bodyA bodyB n) in *.
  destruct (0 <? vn) eqn:E1; [apply Rltb_true in E1; lra |].
  destruct (Body.invMass bodyA + Body.invMass bodyB =? 0) eqn:E2;
    [apply Reqb_true in E2; lra |].
  destruct (0 <? Body.invMass bodyA) eqn:EA;
    destruct (0 <? Body.invMass bodyB) eqn:EB;
    cbn -[Rmax]; rewrite ?EA, ?EB;
    match goal with |- context [if ?c then _ else _] => destruct c end;
    destruct ((0.7 <? Vector3.y n) && aIsPlayer);
    cbn; rewrite ?refreshCollider_velocity; cbn;
    try apply Rltb_false in EA; try apply Rltb_false in EB;
    split; unfold Vector3.add, Vector3.sub, Vector3.multiplyScalar; simpl;
    try (replace (Body.invMass bodyA) with 0 by lra);
    try (replace (Body.invMass bodyB) with 0 by lra);
    destruct (Body.velocity bodyA), (Body.velocity bodyB); simpl;
    f_equal; try (field; lra); try lra.
Qed.

(** The impulse along a unit normal turns the closing speed [vRel] into the
    parting speed [e * vRel]. *)
Lemma bounce_algebra (vA vB n : Vector3.t) (e iA iB : R) :
  Vector3.lengthSq n = 1 ->
  0 < iA + iB ->
  let vRel := Vector3.dot (Vector3.sub vA vB) n in
  let j := - (1 + e) * vRel / (iA + iB) in
  Vector3.dot
    (Vector3.sub (Vector3.add vA (Vector3.multiplyScalar n (j * iA)))
                 (Vector3.sub vB (Vector3.multiplyScalar n (j * iB)))) n
  = - e * vRel.
Proof.
  intros Hn Hsum vRel j. subst j vRel.
  destruct vA as [ax ay az], vB as [bx b_y bz], n as [nx ny nz].
  unfold Vector3.lengthSq in Hn. unfold Vector3.dot, Vector3.sub, Vector3.add,
    Vector3.multiplyScalar. simpl in *.
  set (vRel := (ax - bx) * nx + (ay - b_y) * ny + (az - bz) * nz).
  transitivity (vRel + - (1 + e) * vRel * (nx * nx + ny * ny + nz * nz)).
  - subst vRel. field. lra.
  - rewrite Hn. ring.
Qed.

Lemma momentum_algebra (vA vB n : Vector3.t) (k iA iB : R) :
  0 < iA -> 0 < iB ->
  Vector3.add
    (Vector3.multiplyScalar
       (Vector3.add vA (Vector3.multiplyScalar n (k * iA))) (1 / iA))
    (Vector3.multiplyScalar
       (Vector3.sub vB (Vector3.multiplyScalar n (k * iB))) (1 / iB))
  = Vector3.add (Vector3.multiplyScalar vA (1 / iA))
                (Vector3.multiplyScalar vB (1 / iB)).
Proof.
  intros HA HB. destruct vA, vB, n.
  unfold Vector3.add, Vector3.sub, Vector3.multiplyScalar. simpl.
  f_equal; field; lra.
Qed.

Lemma lengthSq_zero (v : Vector3.t) :
  Vector3.lengthSq v = 0 -> v = Vector3.mk 0 0 0.
Proof.
  destruct v as [a b c]. unfold Vector3.lengthSq. simpl. intros H.
  assert (a = 0) by nra. assert (b = 0) by nra. assert (c = 0) by nra.
  subst. reflexivity.
Qed.

(** [normalize] gives a unit vector, except for the zero vector. *)
Lemma normalize_lengthSq (v : Vector3.t) :
  Vector3.lengthSq v <> 0 -> Vector3.lengthSq (Vector3.normalize v) = 1.
Proof.
  intros H. pose proof (lengthSq_nonneg v) as Hpos.
  assert (Hl : 0 < Vector3.length v).
  { unfold Vector3.length. apply sqrt_lt_R0. lra. }
  unfold Vector3.normalize, Vector3.divideScalar, orDefault.
  replace (Vector3.length v =? 0) with false
    by (symmetry; apply Reqb_false; lra).
  rewrite lengthSq_rescaled by exact Hl. ring.
Qed.

Lemma sub_lengthSq_pos (a b : Vector3.t) :
  a <> b -> Vector3.lengthSq (Vector3.sub a b) <> 0.
Proof.
  intros Hab H. apply Hab. apply lengthSq_zero in H.
  destruct a as [a1 a2 a3], b as [b1 b2 b3].
  unfold Vector3.sub in H. simpl in H. injection H as H1 H2 H3.
  f_equal; lra.
Qed.

(** X1.  On the explicit path, for a unit normal and bodies that approach,
    the velocity of A relative to B along the normal after the call is
    [- e * vRel], with [e = min(restitutionA, restitutionB)] and [vRel] the
    value before the call: the bodies part at [e] times the closing speed. *)
Theorem contact_restitution_law
    (chk : Body.t -> Body.t -> option PhysicsWorld.CollisionInfo)
    (aIsPlayer : bool) (bodyA bodyB : Body.t)
    (info : PhysicsWorld.CollisionInfo) :
  PhysicsWorld.collisionInfo chk bodyA bodyB = Some info ->
  Body.wf bodyA -> Body.wf bodyB ->
  Vector3.lengthSq (PhysicsWorld.normal info) = 1 ->
  PhysicsWorld.velAlongNormal bodyA bodyB (PhysicsWorld.normal info) <= 0 ->
  0 < Body.invMass bodyA + Body.invMass bodyB ->
  let r := PhysicsWorld.resolveCollision chk aIsPlayer bodyA bodyB in
  PhysicsWorld.velAlongNormal (fst r) (snd r) (PhysicsWorld.normal info)
  = - Rmin (Body.restitution bodyA) (Body.restitution bodyB)
    * PhysicsWorld.velAlongNormal bodyA bodyB (PhysicsWorld.normal info).
Proof.
  intros Hinfo HA HB Hn Hv Hsum r. subst r.
  unfold PhysicsWorld.resolveCollision. rewrite Hinfo.
  destruct (resolveWithInfo_velocities aIsPlayer info bodyA bodyB
              HA HB Hv Hsum) as [H1 H2].
  unfold PhysicsWorld.velAlongNormal at 1. rewrite H1, H2.
  apply bounce_algebra; assumption.
Qed.

(** X1 at the player's body (restitution 0) falling onto the ground plane:
    no speed is left along the normal. *)
Lemma contact_restitution_law_witness :
  let chk := fun (_ _ : Body.t) =>
               Some (PhysicsWorld.mkInfo (Vector3.mk 0 1 0) 0.1) in
  let a := Sample.playerBody (Vector3.mk 0 0.4 0) (Vector3.mk 3 (-5) 0) in
  let r := PhysicsWorld.resolveCollision chk true a Sample.groundPlane in
  PhysicsWorld.velAlongNormal (fst r) (snd r) (Vector3.mk 0 1 0) = 0.
Proof.
  intros chk a r.
  assert (Hw : Body.wf a) by (subst a; vec; lra).
  assert (Hg : Body.wf Sample.groundPlane) by (vec; lra).
  assert (Hn : Vector3.lengthSq (Vector3.mk 0 1 0) = 1) by (vec; lra).
  assert (Hv : PhysicsWorld.velAlongNormal a Sample.groundPlane
                 (Vector3.mk 0 1 0) <= 0)
    by (subst a; unfold PhysicsWorld.velAlongNormal; vec; lra).
  assert (Hs : 0 < Body.invMass a + Body.invMass Sample.groundPlane)
    by (subst a; vec; lra).
  pose proof (contact_restitution_law chk true a Sample.groundPlane
                (PhysicsWorld.mkInfo (Vector3.mk 0 1 0) 0.1)
                eq_refl Hw Hg Hn Hv Hs) as H.
  cbn [PhysicsWorld.normal] in H. fold r in H. rewrite H.
  subst a. unfold PhysicsWorld.velAlongNormal. vec.
  rewrite Rmin_left by lra. lra.
Defined.

(** X2.  On the sphere fallback, for bodies at different positions that
    approach, the same law holds along the line of centres, with a
    restitution of 0 counted as 0.3:
    [e = min(restitutionA || 0.3, restitutionB || 0.3)]. *)
Theorem spheres_restitution_law
    (chk : Body.t -> Body.t -> option PhysicsWorld.CollisionInfo)
    (aIsPlayer : bool) (bodyA bodyB : Body.t) :
  PhysicsWorld.collisionInfo chk bodyA bodyB = None ->
  Body.wf bodyA -> Body.wf bodyB ->
  Body.position bodyA <> Body.position bodyB ->
  let n := Vector3.normalize
             (Vector3.sub (Body.position bodyA) (Body.position bodyB)) in
  PhysicsWorld.velAlongNormal bodyA bodyB n <= 0 ->
  0 < Body.invMass bodyA + Body.invMass bodyB ->
  let r := PhysicsWorld.resolveCollision chk aIsPlayer bodyA bodyB in
  PhysicsWorld.velAlongNormal (fst r) (snd r) n
  = - Rmin (orDefault (Body.restitution bodyA) 0.3)
           (orDefault (Body.restitution bodyB) 0.3)
    * PhysicsWorld.velAlongNormal bodyA bodyB n.
Proof.
  intros Hinfo HA HB Hpos n Hv Hsum r. subst r.
  unfold PhysicsWorld.resolveCollision. rewrite Hinfo.
  destruct (resolveSpheres_velocities aIsPlayer bodyA bodyB HA HB Hv Hsum)
    as [H1 H2].
  unfold PhysicsWorld.velAlongNormal at 1. rewrite H1, H2.
  apply bounce_algebra; [| exact Hsum].
  apply normalize_lengthSq. apply sub_lengthSq_pos. exact Hpos.
Qed.

Lemma normalize_along_minus_x (a : R) :
  a < 0 -> Vector3.normalize (Vector3.mk a 0 0) = Vector3.mk (-1) 0 0.
Proof.
  intros Ha.
  assert (Hl : Vector3.length (Vector3.mk a 0 0) = - a).
  { apply length_of_sq; [lra |]. unfold Vector3.lengthSq. simpl. ring. }
  unfold Vector3.normalize, Vector3.divideScalar, orDefault. rewrite Hl.
  replace (- a =? 0) with false by (symmetry; apply Reqb_false; lra).
  unfold Vector3.multiplyScalar. simpl. f_equal; field; lra.
Qed.

(** X2 at the player's body and a zombie's running into each other along x:
    the player's restitution of 0 counts as 0.3, the zombie's is 0.2, and
    the closing speed of 2 becomes a parting speed of 0.4. *)
Lemma spheres_restitution_law_witness :
  let none := fun (_ _ : Body.t) => @None PhysicsWorld.CollisionInfo in
  let a := Sample.playerBody (Vector3.mk 0 1 0) (Vector3.mk 1 0 0) in
  let b := Body.mk (Vector3.mk 0.8 1 0) (Vector3.mk (-1) 0 0) 70 (1 / 70)
             0.2 0.5 true false false (Some 0.5) None in
  let r := PhysicsWorld.resolveCollision none true a b in
  PhysicsWorld.velAlongNormal (fst r) (snd r) (Vector3.mk (-1) 0 0) = 0.4.
Proof.
  intros none a b r.
  assert (Hn : Vector3.normalize
                 (Vector3.sub (Body.position a) (Body.position b))
               = Vector3.mk (-1) 0 0).
  { subst a b. unfold Vector3.sub. cbn.
    replace (0 - 0.8) with (-0.8) by lra.
    replace (1 - 1) with 0 by lra. replace (0 - 0) with 0 by lra.
    apply normalize_along_minus_x. lra. }
  assert (Hw : Body.wf a) by (subst a; vec; lra).
  assert (Hb : Body.wf b) by (subst b; vec; lra).
  assert (Hp : Body.position a <> Body.position b).
  { subst a b. cbn. intros H. injection H as H. lra. }
  pose proof (spheres_restitution_law none true a b eq_refl Hw Hb Hp) as H.
  cbv zeta in H. rewrite Hn in H. fold r in H. rewrite H.
  - subst a b. unfold PhysicsWorld.velAlongNormal, orDefault. vec.
    decide_tests. rewrite Rmin_right by lra. lra.
  - subst a b. unfold PhysicsWorld.velAlongNormal. vec. lra.
  - subst a b. vec. lra.
Defined.

(** X3.  On either path, a call on two bodies with positive inverse mass
    keeps the total momentum [vA / invMassA + vB / invMassB]. *)
Theorem resolveCollision_momentum
    (chk : Body.t -> Body.t -> option PhysicsWorld.CollisionInfo)
    (aIsPlayer : bool) (bodyA bodyB : Body.t) :
  0 < Body.invMass bodyA ->
  0 < Body.invMass bodyB ->
  let r := PhysicsWorld.resolveCollision chk aIsPlayer bodyA bodyB in
  Vector3.add
    (Vector3.multiplyScalar (Body.velocity (fst r)) (1 / Body.invMass bodyA))
    (Vector3.multiplyScalar (Body.velocity (snd r)) (1 / Body.invMass bodyB))
  = Vector3.add
      (Vector3.multiplyScalar (Body.velocity bodyA) (1 / Body.invMass bodyA))
      (Vector3.multiplyScalar (Body.velocity bodyB) (1 / Body.invMass bodyB)).
Proof.
  intros HA HB r. subst r.
  assert (HwA : Body.wf bodyA) by (unfold Body.wf; lra).
  assert (HwB : Body.wf bodyB) by (unfold Body.wf; lra).
  assert (Hsum : 0 < Body.invMass bodyA + Body.invMass bodyB) by lra.
  unfold PhysicsWorld.resolveCollision.
  destruct (PhysicsWorld.collisionInfo chk bodyA bodyB) as [info |].
  - destruct (Rlt_dec 0 (PhysicsWorld.velAlongNormal bodyA bodyB
                           (PhysicsWorld.normal info))) as [Hsep | Happ].
    + rewrite resolveWithInfo_separating by exact Hsep. reflexivity.
    + destruct (resolveWithInfo_velocities aIsPlayer info bodyA bodyB
                  HwA HwB ltac:(lra) Hsum) as [H1 H2].
      rewrite H1, H2. apply momentum_algebra; assumption.
  - destruct (Rlt_dec 0 (PhysicsWorld.velAlongNormal bodyA bodyB
                           (Vector3.normalize
                              (Vector3.sub (Body.position bodyA)
                                 (Body.position bodyB))))) as [Hsep | Happ].
    + rewrite resolveSpheres_separating by exact Hsep. reflexivity.
    + destruct (resolveSpheres_velocities aIsPlayer bodyA bodyB
                  HwA HwB ltac:(lra) Hsum) as [H1 H2].
      rewrite H1, H2. apply momentum_algebra; assumption.
Qed.

(** X3 at the same two bodies: 75 * 1 + 70 * (-1) along x before and
    after. *)
Lemma resolveCollision_momentum_witness :
  let none := fun (_ _ : Body.t) => @None PhysicsWorld.CollisionInfo in
  let a := Sample.playerBody (Vector3.mk 0 1 0) (Vector3.mk 1 0 0) in
  let b := Sample.zombieBody (Vector3.mk 0.8 1 0) (Vector3.mk (-1) 0 0) in
  let r := PhysicsWorld.resolveCollision none true a b in
  Vector3.add
    (Vector3.multiplyScalar (Body.velocity (fst r)) (1 / (1 / 75)))
    (Vector3.multiplyScalar (Body.velocity (snd r)) (1 / (1 / 70)))
  = Vector3.mk 5 0 0.
Proof.
  intros none a b r.
  pose proof (resolveCollision_momentum none true a b) as H.
  cbv zeta in H. fold r in H.
  change (Body.invMass a) with (1 / 75) in H.
  change (Body.invMass b) with (1 / 70) in H.
  rewrite H.
  - subst a b. unfold Sample.zombieBody. vec. f_equal; lra.
  - lra.
  - lra.
Defined.

(** The positions the explicit path leaves, for bodies that approach and a
    positive depth. *)
Lemma resolveWithInfo_positions (aIsPlayer : bool)
    (info : PhysicsWorld.CollisionInfo) (bodyA bodyB : Body.t) :
  Body.wf bodyA -> Body.wf bodyB ->
  PhysicsWorld.velAlongNormal bodyA bodyB (PhysicsWorld.normal info) <= 0 ->
  0 < Body.invMass bodyA + Body.invMass bodyB ->
  0 < PhysicsWorld.depth info ->
  let n := PhysicsWorld.normal info in
  let share (m : R) := m / (Body.invMass bodyA + Body.invMass bodyB) in
  let r := PhysicsWorld.resolveWithInfo aIsPlayer info bodyA bodyB in
  Body.position (fst r)
  = Vector3.add (Body.position bodyA)
      (Vector3.multiplyScalar n
         (PhysicsWorld.depth info * share (Body.invMass bodyA)))
  /\ Body.position (snd r)
     = Vector3.sub (Body.position bodyB)
         (Vector3.multiplyScalar n
            (PhysicsWorld.depth info * share (Body.invMass bodyB))).
Proof.
  intros HA HB Hv Hsum Hd n share r. subst r share n.
  unfold Body.wf in HA, HB. unfold PhysicsWorld.resolveWithInfo.
  rewrite !orDefault_zero.
  set (n := PhysicsWorld.normal info) in *.
  set (vn := PhysicsWorld.velAlongNormal bodyA bodyB n) in *.
  set (d := PhysicsWorld.depth info) in *.
  replace (d * 1.0) with d by lra.
  destruct (0 <? vn) eqn:E1; [apply Rltb_true in E1; lra |].
  destruct (Body.invMass bodyA + Body.invMass bodyB =? 0) eqn:E2;
    [apply Reqb_true in E2; lra |].
  replace (0 <? d) with true by (symmetry; apply Rltb_true; exact Hd).
  destruct (0 <? Body.invMass bodyA) eqn:EA;
    destruct (0 <? Body.invMass bodyB) eqn:EB;
    destruct ((0.7 <? Vector3.y n) && aIsPlayer);
    cbn; rewrite ?refreshCollider_position; cbn;
    try apply Rltb_false in EA; try apply Rltb_false in EB;
    split; unfold Vector3.add, Vector3.sub, Vector3.multiplyScalar; simpl;
    try (replace (Body.invMass bodyA) with 0 by lra);
    try (replace (Body.invMass bodyB) with 0 by lra);
    destruct (Body.position bodyA), (Body.position bodyB); simpl;
    f_equal; try (field; lra); try lra.
Qed.

(** X4.  On the explicit path, for bodies that approach and a positive
    depth, each body is moved along the normal by its share
    [invMass / (invMassA + invMassB)] of the depth, A forwards and B
    backwards: the position of A relative to B grows by [depth * normal]. *)
Theorem contact_positional_correction
    (chk : Body.t -> Body.t -> option PhysicsWorld.CollisionInfo)
    (aIsPlayer : bool) (bodyA bodyB : Body.t)
    (info : PhysicsWorld.CollisionInfo) :
  PhysicsWorld.collisionInfo chk bodyA bodyB = Some info ->
  Body.wf bodyA -> Body.wf bodyB ->
  PhysicsWorld.velAlongNormal bodyA bodyB (PhysicsWorld.normal info) <= 0 ->
  0 < Body.invMass bodyA + Body.invMass bodyB ->
  0 < PhysicsWorld.depth info ->
  let n := PhysicsWorld.normal info in
  let sum := Body.invMass bodyA + Body.invMass bodyB in
  let r := PhysicsWorld.resolveCollision chk aIsPlayer bodyA bodyB in
  Body.position (fst r)
  = Vector3.add (Body.position bodyA)
      (Vector3.multiplyScalar n
         (PhysicsWorld.depth info * (Body.invMass bodyA / sum)))
  /\ Body.position (snd r)
     = Vector3.sub (Body.position bodyB)
         (Vector3.multiplyScalar n
            (PhysicsWorld.depth info * (Body.invMass bodyB / sum)))
  /\ Vector3.sub (Body.position (fst r)) (Body.position (snd r))
     = Vector3.add (Vector3.sub (Body.position bodyA) (Body.position bodyB))
         (Vector3.multiplyScalar n (PhysicsWorld.depth info)).
Proof.
  intros Hinfo HA HB Hv Hsum Hd n sum r. subst r.
  unfold PhysicsWorld.resolveCollision. rewrite Hinfo.
  destruct (resolveWithInfo_positions aIsPlayer info bodyA bodyB
              HA HB Hv Hsum Hd) as [H1 H2].
  split; [exact H1 | split; [exact H2 |]].
  rewrite H1, H2. subst sum n.
  destruct (Body.position bodyA), (Body.position bodyB),
    (PhysicsWorld.normal info).
  unfold Vector3.add, Vector3.sub, Vector3.multiplyScalar. simpl.
  f_equal; field; lra.
Qed.

(** X4 at the player's body sunk 0.1 into the ground plane: the player's
    body takes the whole correction, the plane none. *)
Lemma contact_positional_correction_witness :
  let chk := fun (_ _ : Body.t) =>
               Some (PhysicsWorld.mkInfo (Vector3.mk 0 1 0) 0.1) in
  let a := Sample.playerBody (Vector3.mk 0 0.4 0) (Vector3.mk 0 (-5) 0) in
  let r := PhysicsWorld.resolveCollision chk true a Sample.groundPlane in
  Body.position (fst r) = Vector3.mk 0 0.5 0
  /\ Body.position (snd r) = Vector3.mk 0 0 0.
Proof.
  intros chk a r.
  assert (Hw : Body.wf a) by (subst a; vec; lra).
  assert (Hg : Body.wf Sample.groundPlane) by (vec; lra).
  assert (Hv : PhysicsWorld.velAlongNormal a Sample.groundPlane
                 (Vector3.mk 0 1 0) <= 0)
    by (subst a; unfold PhysicsWorld.velAlongNormal; vec; lra).
  assert (Hs : 0 < Body.invMass a + Body.invMass Sample.groundPlane)
    by (subst a; vec; lra).
  destruct (contact_positional_correction chk true a Sample.groundPlane
              (PhysicsWorld.mkInfo (Vector3.mk 0 1 0) 0.1)
              eq_refl Hw Hg Hv Hs ltac:(simpl; lra)) as (H1 & H2 & _).
  fold r in H1, H2. rewrite H1, H2. subst a. vec.
  split; f_equal; lra.
Defined.

(** The positions the sphere fallback leaves, for bodies that approach and
    overlap by [correction / 0.8]. *)
Lemma resolveSpheres_positions (aIsPlayer : bool) (bodyA bodyB : Body.t)
    (correction : R) :
  Body.wf bodyA -> Body.wf bodyB ->
  let n := Vector3.normalize
             (Vector3.sub (Body.position bodyA) (Body.position bodyB)) in
  PhysicsWorld.velAlongNormal bodyA bodyB n <= 0 ->
  0 < Body.invMass bodyA + Body.invMass bodyB ->
  Rmax (orDefaultOpt (Body.radius bodyA) 0.5
        + orDefaultOpt (Body.radius bodyB) 0.5
        - Vector3.distanceTo (Body.position bodyA) (Body.position bodyB)) 0
  * 0.8 = correction ->
  0 < correction ->
  let sum := Body.invMass bodyA + Body.invMass bodyB in
  let r := PhysicsWorld.resolveSpheres aIsPlayer bodyA bodyB in
  Body.position (fst r)
  = Vector3.add (Body.position bodyA)
      (Vector3.multiplyScalar n (correction * (Body.invMass bodyA / sum)))
  /\ Body.position (snd r)
     = Vector3.sub (Body.position bodyB)
         (Vector3.multiplyScalar n (correction * (Body.invMass bodyB / sum))).
Proof.
  intros HA HB n Hv Hsum Hc Hpos sum r. subst r sum.
  unfold Body.wf in HA, HB. unfold PhysicsWorld.resolveSpheres.
  rewrite !orDefault_zero. fold n. clearbody n.
  set (e := Rmin _ _). clearbody e.
  set (vn := PhysicsWorld.velAlongNormal bodyA bodyB n) in *.
  destruct (0 <? vn) eqn:E1; [apply Rltb_true in E1; lra |].
  destruct (Body.invMass bodyA + Body.invMass bodyB =? 0) eqn:E2;
    [apply Reqb_true in E2; lra |].
  assert (Ht : (0 <? correction) = true) by (apply Rltb_true; exact Hpos).
  destruct (0 <? Body.invMass bodyA) eqn:EA;
    destruct (0 <? Body.invMass bodyB) eqn:EB;
    cbn -[Rmax]; rewrite ?EA, ?EB, ?Hc, ?Ht;
    destruct ((0.7 <? Vector3.y n) && aIsPlayer);
    cbn; rewrite ?refreshCollider_position; cbn;
    try apply Rltb_false in EA; try apply Rltb_false in EB;
    split; unfold Vector3.add, Vector3.sub, Vector3.multiplyScalar; simpl;
    try (replace (Body.invMass bodyA) with 0 by lra);
    try (replace (Body.invMass bodyB) with 0 by lra);
    destruct (Body.position bodyA), (Body.position bodyB); simpl;
    f_equal; try (field; lra); try lra.
Qed.

Lemma length_scaled (v : Vector3.t) (k : R) :
  0 <= k ->
  Vector3.length (Vector3.multiplyScalar v k) = Vector3.length v * k.
Proof.
  intros Hk. pose proof (length_square v) as Hsq.
  pose proof (sqrt_pos (Vector3.lengthSq v)) as Hl.
  fold (Vector3.length v) in Hl.
  apply length_of_sq; [nra |].
  transitivity (Vector3.lengthSq v * (k * k)).
  - unfold Vector3.lengthSq, Vector3.multiplyScalar. simpl. ring.
  - rewrite <- Hsq. ring.
Qed.

Lemma distanceTo_length (a b : Vector3.t) :
  Vector3.distanceTo a b = Vector3.length (Vector3.sub a b).
Proof. reflexivity. Qed.

(** X5.  On the sphere fallback, for bodies at different positions that
    approach and overlap ([dist < minDist], with
    [minDist = (radiusA || 0.5) + (radiusB || 0.5)]), the distance of the
    centres after the call is [dist + 0.8 * (minDist - dist)]: a fifth of the
    overlap is left. *)
Theorem spheres_separation
    (chk : Body.t -> Body.t -> option PhysicsWorld.CollisionInfo)
    (aIsPlayer : bool) (bodyA bodyB : Body.t) :
  PhysicsWorld.collisionInfo chk bodyA bodyB = None ->
  Body.wf bodyA -> Body.wf bodyB ->
  Body.position bodyA <> Body.position bodyB ->
  PhysicsWorld.velAlongNormal bodyA bodyB
    (Vector3.normalize
       (Vector3.sub (Body.position bodyA) (Body.position bodyB))) <= 0 ->
  0 < Body.invMass bodyA + Body.invMass bodyB ->
  let minDist := orDefaultOpt (Body.radius bodyA) 0.5
                 + orDefaultOpt (Body.radius bodyB) 0.5 in
  let dist := Vector3.distanceTo (Body.position bodyA) (Body.position bodyB) in
  dist < minDist ->
  let r := PhysicsWorld.resolveCollision chk aIsPlayer bodyA bodyB in
  Vector3.distanceTo (Body.position (fst r)) (Body.position (snd r))
  = dist + 0.8 * (minDist - dist)
  /\ Vector3.distanceTo (Body.position (fst r)) (Body.position (snd r))
     < minDist.
Proof.
  intros Hinfo HA HB Hpos Hv Hsum minDist dist Hover r. subst r.
  unfold PhysicsWorld.resolveCollision. rewrite Hinfo.
  set (c := 0.8 * (minDist - dist)).
  assert (Hc : Rmax (minDist - dist) 0 * 0.8 = c).
  { rewrite Rmax_left by lra. subst c. lra. }
  assert (Hcpos : 0 < c) by (subst c; lra).
  destruct (resolveSpheres_positions aIsPlayer bodyA bodyB c HA HB Hv Hsum
              Hc Hcpos) as [H1 H2].
  assert (Hl : 0 < dist).
  { subst dist. rewrite distanceTo_length. unfold Vector3.length.
    apply sqrt_lt_R0. pose proof (sub_lengthSq_pos _ _ Hpos).
    pose proof (lengthSq_nonneg
                  (Vector3.sub (Body.position bodyA) (Body.position bodyB))).
    lra. }
  assert (Hd : Vector3.distanceTo (Body.position
                  (fst (PhysicsWorld.resolveSpheres aIsPlayer bodyA bodyB)))
                 (Body.position
                    (snd (PhysicsWorld.resolveSpheres aIsPlayer bodyA bodyB)))
               = dist + c).
  { rewrite distanceTo_length, H1, H2.
    unfold Vector3.normalize, Vector3.divideScalar, orDefault.
    subst dist. rewrite distanceTo_length in *.
    set (d := Vector3.sub (Body.position bodyA) (Body.position bodyB)) in *.
    set (l := Vector3.length d) in *.
    replace (l =? 0) with false by (symmetry; apply Reqb_false; lra).
    replace (Vector3.sub _ _) with (Vector3.multiplyScalar d (1 + c / l)).
    - rewrite length_scaled.
      + fold l. field. lra.
      + apply Rplus_le_le_0_compat; [lra |].
        apply Rmult_le_pos; [lra |]. left. apply Rinv_0_lt_compat. exact Hl.
    - subst d. destruct (Body.position bodyA), (Body.position bodyB).
      unfold Vector3.add, Vector3.sub, Vector3.multiplyScalar. simpl.
      f_equal; field; lra. }
  rewrite Hd. subst c. split; lra.
Qed.

Lemma length_along_minus_x (a : R) :
  a <= 0 -> Vector3.length (Vector3.mk a 0 0) = - a.
Proof.
  intros H. apply length_of_sq; [lra |]. unfold Vector3.lengthSq. simpl. ring.
Qed.

(** X5 at the player's body and a zombie's, both of radius 0.5, 0.8 apart:
    they end 0.96 apart. *)
Lemma spheres_separation_witness :
  let none := fun (_ _ : Body.t) => @None PhysicsWorld.CollisionInfo in
  let a := Sample.playerBody (Vector3.mk 0 1 0) (Vector3.mk 1 0 0) in
  let b := Sample.zombieBody (Vector3.mk 0.8 1 0) (Vector3.mk (-1) 0 0) in
  let r := PhysicsWorld.resolveCollision none true a b in
  Vector3.distanceTo (Body.position (fst r)) (Body.position (snd r)) = 0.96.
Proof.
  intros none a b r.
  assert (Hsub : Vector3.sub (Body.position a) (Body.position b)
                 = Vector3.mk (-0.8) 0 0).
  { subst a b. unfold Vector3.sub. cbn. f_equal; lra. }
  assert (Hdist : Vector3.distanceTo (Body.position a) (Body.position b) = 0.8).
  { rewrite distanceTo_length, Hsub, length_along_minus_x; lra. }
  assert (Hmin : orDefaultOpt (Body.radius a) 0.5
                 + orDefaultOpt (Body.radius b) 0.5 = 1).
  { subst a b. cbn. unfold orDefault. decide_tests. lra. }
  assert (Hw : Body.wf a) by (subst a; vec; lra).
  assert (Hb : Body.wf b) by (subst b; unfold Sample.zombieBody; vec; lra).
  assert (Hp : Body.position a <> Body.position b).
  { subst a b. cbn. intros H. injection H as H. lra. }
  destruct (spheres_separation none true a b eq_refl Hw Hb Hp) as [H _].
  - rewrite Hsub, normalize_along_minus_x by lra.
    subst a b. unfold PhysicsWorld.velAlongNormal. cbn. vec. lra.
  - subst a b. cbn. lra.
  - rewrite Hdist, Hmin. lra.
  - fold r in H. rewrite H, Hdist, Hmin. lra.
Defined.

Lemma refreshCollider_onGround (b : Body.t) :
  Body.onGround (Body.refreshCollider b) = Body.onGround b.
Proof. unfold Body.refreshCollider. destruct (Body.collider b); reflexivity. Qed.

Lemma resolveWithInfo_onGround (aIsPlayer : bool)
    (info : PhysicsWorld.CollisionInfo) (bodyA bodyB : Body.t) :
  let r := PhysicsWorld.resolveWithInfo aIsPlayer info bodyA bodyB in
  Body.onGround (snd r) = Body.onGround bodyB
  /\ (Body.onGround bodyA = true -> Body.onGround (fst r) = true)
  /\ (aIsPlayer = false -> Body.onGround (fst r) = Body.onGround bodyA).
Proof.
  unfold PhysicsWorld.resolveWithInfo.
  destruct (0.7 <? Vector3.y (PhysicsWorld.normal info)).
  all: repeat match goal with
         | |- context [if Rltb ?a ?b then _ else _] => destruct (Rltb a b)
         | |- context [if Reqb ?a ?b then _ else _] => destruct (Reqb a b)
         end;
    destruct aIsPlayer; cbn;
    rewrite ?refreshCollider_onGround; cbn;
    repeat split; intros; try reflexivity; try assumption; try discriminate.
Qed.

Lemma resolveSpheres_onGround (aIsPlayer : bool) (bodyA bodyB : Body.t) :
  let r := PhysicsWorld.resolveSpheres aIsPlayer bodyA bodyB in
  Body.onGround (snd r) = Body.onGround bodyB
  /\ (Body.onGround bodyA = true -> Body.onGround (fst r) = true)
  /\ (aIsPlayer = false -> Body.onGround (fst r) = Body.onGround bodyA).
Proof.
  unfold PhysicsWorld.resolveSpheres.
  set (n := Vector3.normalize _). clearbody n.
  destruct (0 <? PhysicsWorld.velAlongNormal bodyA bodyB n);
    [cbn; repeat split; intros; try reflexivity; assumption |].
  match goal with
  | |- context [if Reqb ?a ?b then _ else _] => destruct (Reqb a b)
  end; [cbn; repeat split; intros; try reflexivity; assumption |].
  destruct (0 <? Body.invMass bodyA) eqn:EA;
    destruct (0 <? Body.invMass bodyB) eqn:EB;
    cbn -[Rmax]; rewrite ?EA, ?EB;
    match goal with |- context [if ?c then _ else _] => destruct c end;
    destruct (0.7 <? Vector3.y n); destruct aIsPlayer; cbn;
    rewrite ?refreshCollider_onGround; cbn;
    repeat split; intros; try reflexivity; try assumption; try discriminate.
Qed.

(** X6.  [resolveCollision] never clears an [onGround] flag: B keeps its
    flag, a flag set on A stays set, and the flag of A changes only when A
    is the player's body. *)
Theorem resolveCollision_onGround
    (chk : Body.t -> Body.t -> option PhysicsWorld.CollisionInfo)
    (aIsPlayer : bool) (bodyA bodyB : Body.t) :
  let r := PhysicsWorld.resolveCollision chk aIsPlayer bodyA bodyB in
  Body.onGround (snd r) = Body.onGround bodyB
  /\ (Body.onGround bodyA = true -> Body.onGround (fst r) = true)
  /\ (aIsPlayer = false -> Body.onGround (fst r) = Body.onGround bodyA).
Proof.
  unfold PhysicsWorld.resolveCollision.
  destruct (PhysicsWorld.collisionInfo chk bodyA bodyB) as [info |].
  - apply resolveWithInfo_onGround.
  - apply resolveSpheres_onGround.
Qed.

(** X6 at a zombie's body on the ground plane, with an upward normal: the
    flag of the zombie's body, not the player's, stays clear. *)
Lemma resolveCollision_onGround_witness :
  let chk := fun (_ _ : Body.t) =>
               Some (PhysicsWorld.mkInfo (Vector3.mk 0 1 0) 0.1) in
  let z := Sample.zombieBody (Vector3.mk 0 0.4 0) (Vector3.mk 0 (-5) 0) in
  Body.onGround
    (fst (PhysicsWorld.resolveCollision chk false z Sample.groundPlane))
  = false.
Proof.
  intros chk z.
  apply (proj2 (proj2 (resolveCollision_onGround chk false z
                         Sample.groundPlane))).
  reflexivity.
Defined.

(** ** Detection *)

Lemma distanceTo_sym (a b : Vector3.t) :
  Vector3.distanceTo a b = Vector3.distanceTo b a.
Proof. unfold Vector3.distanceTo. f_equal. ring. Qed.

Lemma orDefaultOpt_le (r : option R) : orDefaultOpt r 0 <= orDefaultOpt r 0.5.
Proof.
  destruct r as [v |]; simpl; [| lra]. unfold orDefault.
  destruct (v =? 0); lra.
Qed.

(** X7.  When one of the two bodies has no collider, [checkCollision] is the
    sphere test: it reports a collision exactly when the radii, a missing or
    zero radius counting as 0, add up to more than 0 and to more than the
    distance of the centres.  So it does not depend on the order of the
    bodies, it is false when the radii add up to nothing, and a collision it
    reports is an overlap for the sphere fallback of [resolveCollision],
    which reads a missing radius as 0.5. *)
Theorem checkCollision_spheres
    (intersects : Body.Collider -> Body.Collider -> bool)
    (bodyA bodyB : Body.t) :
  Body.collider bodyA = None \/ Body.collider bodyB = None ->
  let minDist :=
    orDefaultOpt (Body.radius bodyA) 0 + orDefaultOpt (Body.radius bodyB) 0 in
  let dist :=
    Vector3.distanceTo (Body.position bodyA) (Body.position bodyB) in
  (PhysicsWorld.checkCollision intersects bodyA bodyB = true
   <-> 0 < minDist /\ dist < minDist)
  /\ PhysicsWorld.checkCollision intersects bodyA bodyB
     = PhysicsWorld.checkCollision intersects bodyB bodyA
  /\ (minDist <= 0 ->
      PhysicsWorld.checkCollision intersects bodyA bodyB = false)
  /\ (PhysicsWorld.checkCollision intersects bodyA bodyB = true ->
      dist < orDefaultOpt (Body.radius bodyA) 0.5
             + orDefaultOpt (Body.radius bodyB) 0.5).
Proof.
  intros Hnone minDist dist.
  assert (Hiff : PhysicsWorld.checkCollision intersects bodyA bodyB = true
                 <-> 0 < minDist /\ dist < minDist).
  { unfold PhysicsWorld.checkCollision. fold minDist dist.
    destruct Hnone as [H | H]; rewrite H;
      destruct (Body.collider bodyA), (Body.collider bodyB);
      try discriminate H;
      (destruct (minDist <=? 0) eqn:E;
       [ apply Rleb_true in E; split; [discriminate | intros [? _]; lra]
       | apply Rleb_false in E; rewrite Rltb_true; split;
         [intros ?; split; assumption | intros [_ ?]; assumption] ]). }
  assert (Hsym : PhysicsWorld.checkCollision intersects bodyA bodyB
                 = PhysicsWorld.checkCollision intersects bodyB bodyA).
  { unfold PhysicsWorld.checkCollision.
    rewrite (distanceTo_sym (Body.position bodyB) (Body.position bodyA)).
    rewrite (Rplus_comm (orDefaultOpt (Body.radius bodyB) 0)).
    destruct Hnone as [H | H]; rewrite H;
      destruct (Body.collider bodyA), (Body.collider bodyB);
      try discriminate H; reflexivity. }
  split; [exact Hiff | split; [exact Hsym | split]].
  - intros Hm. apply not_true_is_false. intros E.
    apply Hiff in E. lra.
  - intros Htrue. apply Hiff in Htrue. destruct Htrue as [_ Hd].
    pose proof (orDefaultOpt_le (Body.radius bodyA)) as HA.
    pose proof (orDefaultOpt_le (Body.radius bodyB)) as HB.
    subst minDist. lra.
Qed.

(** X7 at the player's body and a zombie's body 0.8 apart, with radii of
    0.5: a collision is reported. *)
Lemma checkCollision_spheres_witness :
  let a := Sample.playerBody (Vector3.mk 0 1 0) (Vector3.mk 1 0 0) in
  let b := Sample.zombieBody (Vector3.mk 0.8 1 0) (Vector3.mk (-1) 0 0) in
  PhysicsWorld.checkCollision (fun _ _ => false) a b = true
  /\ PhysicsWorld.checkCollision (fun _ _ => false) b a = true.
Proof.
  intros a b.
  destruct (checkCollision_spheres (fun _ _ => false) a b
              (or_introl eq_refl)) as (Hiff & Hsym & _).
  assert (Hab : PhysicsWorld.checkCollision (fun _ _ => false) a b = true).
  { apply Hiff.
    assert (Hr : orDefaultOpt (Body.radius a) 0
                 + orDefaultOpt (Body.radius b) 0 = 1).
    { cbn. unfold orDefault. decide_tests. lra. }
    rewrite Hr. split; [lra |].
    assert (Hd : Vector3.distanceTo (Body.position a) (Body.position b)
                 = 0.8).
    { rewrite distanceTo_length. apply length_of_sq; [lra |]. vec. lra. }
    rewrite Hd. lra. }
  split; [exact Hab | rewrite <- Hsym; exact Hab].
Defined.

Lemma refreshCollider_invMass (b : Body.t) :
  Body.invMass (Body.refreshCollider b) = Body.invMass b.
Proof. unfold Body.refreshCollider. destruct (Body.collider b); reflexivity. Qed.

(** [resolveCollision] does not write the inverse mass of B. *)
Lemma resolveCollision_invMass
    (chk : Body.t -> Body.t -> option PhysicsWorld.CollisionInfo)
    (aIsPlayer : bool) (bodyA bodyB : Body.t) :
  Body.invMass (snd (PhysicsWorld.resolveCollision chk aIsPlayer bodyA bodyB))
  = Body.invMass bodyB.
Proof.
  unfold PhysicsWorld.resolveCollision.
  destruct (PhysicsWorld.collisionInfo chk bodyA bodyB) as [info |].
  - unfold PhysicsWorld.resolveWithInfo.
    destruct ((0.7 <? Vector3.y (PhysicsWorld.normal info)) && aIsPlayer).
    all: repeat match goal with
           | |- context [if Rltb ?a ?b then _ else _] => destruct (Rltb a b)
           | |- context [if Reqb ?a ?b then _ else _] => destruct (Reqb a b)
           end; cbn; rewrite ?refreshCollider_invMass; reflexivity.
  - unfold PhysicsWorld.resolveSpheres.
    set (n := Vector3.normalize _). clearbody n.
    destruct (0 <? PhysicsWorld.velAlongNormal bodyA bodyB n);
      [reflexivity |].
    match goal with
    | |- context [if Reqb ?a ?b then _ else _] => destruct (Reqb a b)
    end; [reflexivity |].
    destruct (0 <? Body.invMass bodyA) eqn:EA;
      destruct (0 <? Body.invMass bodyB) eqn:EB;
      cbn -[Rmax]; rewrite ?EA, ?EB;
      match goal with |- context [if ?c then _ else _] => destruct c end;
      destruct ((0.7 <? Vector3.y n) && aIsPlayer); cbn;
      rewrite ?refreshCollider_invMass; reflexivity.
Qed.

(** A body B without inverse mass keeps position and velocity. *)
Lemma resolveCollision_static_B
    (chk : Body.t -> Body.t -> option PhysicsWorld.CollisionInfo)
    (aIsPlayer : bool) (bodyA bodyB : Body.t) :
  Body.invMass bodyB = 0 ->
  let r := PhysicsWorld.resolveCollision chk aIsPlayer bodyA bodyB in
  Body.position (snd r) = Body.position bodyB
  /\ Body.velocity (snd r) = Body.velocity bodyB.
Proof.
  intros H r. subst r. unfold PhysicsWorld.resolveCollision.
  destruct (PhysicsWorld.collisionInfo chk bodyA bodyB) as [info |].
  - destruct (resolveWithInfo_static aIsPlayer info bodyA bodyB)
      as (_ & HB & _). destruct (HB H). split; assumption.
  - destruct (resolveSpheres_static aIsPlayer bodyA bodyB) as (_ & HB & _).
    destruct (HB H). split; assumption.
Qed.

Section DetectFacts.

Variable intersects : Body.Collider -> Body.Collider -> bool.
Variable chk : Body.t -> Body.t -> option PhysicsWorld.CollisionInfo.

Lemma collideWith_no_contact (aIsPlayer : bool) (others : list Body.t) :
  forall bodyA,
    (forall b, In b others ->
               PhysicsWorld.checkCollision intersects bodyA b = false) ->
    PhysicsWorld.collideWith intersects chk aIsPlayer bodyA others
    = (bodyA, others).
Proof.
  induction others as [| b rest IH]; intros bodyA H.
  - reflexivity.
  - simpl. rewrite (H b (or_introl eq_refl)). simpl.
    rewrite IH by (intros c Hc; apply H; right; exact Hc). reflexivity.
Qed.

(** Bodies without inverse mass stay where they are through an inner loop. *)
Lemma collideWith_statics (aIsPlayer : bool) (others : list Body.t) :
  forall bodyA,
    Forall (fun s => Body.invMass s = 0) others ->
    let r := PhysicsWorld.collideWith intersects chk aIsPlayer bodyA others in
    map Body.position (snd r) = map Body.position others
    /\ map Body.velocity (snd r) = map Body.velocity others
    /\ Forall (fun s => Body.invMass s = 0) (snd r).
Proof.
  induction others as [| b rest IH]; intros bodyA H.
  - simpl. repeat split. constructor.
  - inversion H as [| ? ? Hb Hrest]; subst. simpl.
    set (r0 := if PhysicsWorld.checkCollision intersects bodyA b
               then PhysicsWorld.resolveCollision chk aIsPlayer bodyA b
               else (bodyA, b)).
    assert (H0 : Body.position (snd r0) = Body.position b
                 /\ Body.velocity (snd r0) = Body.velocity b
                 /\ Body.invMass (snd r0) = 0).
    { subst r0. destruct (PhysicsWorld.checkCollision intersects bodyA b).
      - destruct (resolveCollision_static_B chk aIsPlayer bodyA b Hb).
        rewrite resolveCollision_invMass. repeat split; assumption.
      - repeat split; assumption. }
    destruct H0 as (Hp & Hv & Hm).
    destruct (IH (fst r0) Hrest) as (IHp & IHv & IHm).
    rewrite Hp, Hv, IHp, IHv. repeat split. constructor; assumption.
Qed.

Lemma collideWith_length (aIsPlayer : bool) (others : list Body.t) :
  forall bodyA,
    List.length
      (snd (PhysicsWorld.collideWith intersects chk aIsPlayer bodyA others))
    = List.length others.
Proof.
  induction others as [| b rest IH]; intros bodyA; simpl;
    [reflexivity | rewrite IH; reflexivity].
Qed.

Lemma detectFrom_statics (n : nat) :
  forall i player rest statics,
    Forall (fun s => Body.invMass s = 0) statics ->
    let r := PhysicsWorld.detectFrom intersects chk n i player rest statics in
    map Body.position (snd r) = map Body.position statics
    /\ map Body.velocity (snd r) = map Body.velocity statics
    /\ List.length (fst r) = List.length rest.
Proof.
  induction n as [| n IH]; intros i player rest statics H.
  - simpl. repeat split.
  - destruct rest as [| bodyA later]; [simpl; repeat split |].
    simpl.
    set (isP := match player with Some k => Nat.eqb k i | None => false end).
    set (r1 := PhysicsWorld.collideWith intersects chk isP
                 (PhysicsWorld.checkWorldBounds bodyA) later).
    set (r2 := PhysicsWorld.collideWith intersects chk isP (fst r1) statics).
    destruct (collideWith_statics isP statics (fst r1) H) as (Hp & Hv & Hm).
    fold r2 in Hp, Hv, Hm.
    destruct (IH (S i) player (snd r1) (snd r2) Hm) as (IHp & IHv & IHl).
    rewrite IHp, IHv, IHl, Hp, Hv. subst r1.
    rewrite collideWith_length. repeat split.
Qed.

Lemma detectFrom_no_contact (rest : list Body.t) :
  forall i player statics,
    (forall pre a post,
        rest = pre ++ a :: post ->
        forall b, In b post \/ In b statics ->
          PhysicsWorld.checkCollision intersects
            (PhysicsWorld.checkWorldBounds a) b = false) ->
    PhysicsWorld.detectFrom intersects chk (List.length rest) i player rest
      statics
    = (map PhysicsWorld.checkWorldBounds rest, statics).
Proof.
  induction rest as [| a later IH]; intros i player statics H.
  - reflexivity.
  - simpl.
    rewrite (collideWith_no_contact _ later (PhysicsWorld.checkWorldBounds a))
      by (intros b Hb; apply (H [] a later eq_refl); left; exact Hb).
    simpl.
    rewrite (collideWith_no_contact _ statics
               (PhysicsWorld.checkWorldBounds a))
      by (intros b Hb; apply (H [] a later eq_refl); right; exact Hb).
    simpl. rewrite IH; [reflexivity |].
    intros pre a' post Hsplit b Hb.
    apply (H (a :: pre) a' post); [rewrite Hsplit; reflexivity | exact Hb].
Qed.

End DetectFacts.

(** X8.  When all bodies in [staticBodies] have inverse mass 0,
    [detectCollisions] leaves their positions and velocities as they were,
    whatever collides; and it keeps the number of dynamic bodies. *)
Theorem detectCollisions_statics
    (intersects : Body.Collider -> Body.Collider -> bool)
    (chk : Body.t -> Body.t -> option PhysicsWorld.CollisionInfo)
    (player : option nat) (w : PhysicsWorld.t) :
  Forall (fun s => Body.invMass s = 0) (PhysicsWorld.staticBodies w) ->
  let w' := PhysicsWorld.detectCollisions intersects chk player w in
  map Body.position (PhysicsWorld.staticBodies w')
  = map Body.position (PhysicsWorld.staticBodies w)
  /\ map Body.velocity (PhysicsWorld.staticBodies w')
     = map Body.velocity (PhysicsWorld.staticBodies w)
  /\ List.length (PhysicsWorld.bodies w') = List.length (PhysicsWorld.bodies w).
Proof.
  intros H w'. subst w'. unfold PhysicsWorld.detectCollisions. cbn.
  apply detectFrom_statics. exact H.
Qed.

(** X9.  When no body, after its ground check, collides with a later
    dynamic body or with a static body, [detectCollisions] is the ground
    check of each dynamic body in turn and nothing else. *)
Theorem detectCollisions_no_contact
    (intersects : Body.Collider -> Body.Collider -> bool)
    (chk : Body.t -> Body.t -> option PhysicsWorld.CollisionInfo)
    (player : option nat) (w : PhysicsWorld.t) :
  (forall pre a post,
      PhysicsWorld.bodies w = pre ++ a :: post ->
      forall b, In b post \/ In b (PhysicsWorld.staticBodies w) ->
        PhysicsWorld.checkCollision intersects
          (PhysicsWorld.checkWorldBounds a) b = false) ->
  PhysicsWorld.detectCollisions intersects chk player w
  = PhysicsWorld.with_staticBodies
      (PhysicsWorld.with_bodies w
         (map PhysicsWorld.checkWorldBounds (PhysicsWorld.bodies w)))
      (PhysicsWorld.staticBodies w).
Proof.
  intros H. unfold PhysicsWorld.detectCollisions.
  rewrite detectFrom_no_contact by exact H. reflexivity.
Qed.

(** X8 at the player's body falling into the ground plane, which reports
    the contact: the plane does not move. *)
Lemma detectCollisions_statics_witness :
  let chk := fun (_ _ : Body.t) =>
               Some (PhysicsWorld.mkInfo (Vector3.mk 0 1 0) 0.1) in
  let w := Sample.worldWith
             (Sample.playerBody (Vector3.mk 0 0.4 0) (Vector3.mk 0 (-5) 0)) in
  let w' := PhysicsWorld.detectCollisions (fun _ _ => true) chk (Some 0%nat) w in
  map Body.position (PhysicsWorld.staticBodies w') = [Vector3.zero]
  /\ map Body.velocity (PhysicsWorld.staticBodies w') = [Vector3.zero].
Proof.
  intros chk w w'.
  destruct (detectCollisions_statics (fun _ _ => true) chk (Some 0%nat) w)
    as (Hp & Hv & _).
  - repeat constructor.
  - split; assumption.
Defined.

Lemma length_along_y (a : R) :
  0 <= a -> Vector3.length (Vector3.mk 0 a 0) = a.
Proof. intros H. apply length_of_sq; [exact H |]. vec. lra. Qed.

(** X9 at the player's body 2 units above the ground plane: the call only
    clears its [onGround] flag. *)
Lemma detectCollisions_no_contact_witness :
  let a := Body.with_onGround
             (Sample.playerBody (Vector3.mk 0 2 0) (Vector3.mk 0 (-5) 0))
             true in
  PhysicsWorld.bodies
    (PhysicsWorld.detectCollisions (fun _ _ => true) (fun _ _ => None)
       (Some 0%nat) (Sample.worldWith a))
  = [Sample.playerBody (Vector3.mk 0 2 0) (Vector3.mk 0 (-5) 0)].
Proof.
  intros a.
  assert (Hhigh : PhysicsWorld.checkWorldBounds a
                  = Sample.playerBody (Vector3.mk 0 2 0) (Vector3.mk 0 (-5) 0)).
  { rewrite checkWorldBounds_high; [reflexivity | simpl; lra]. }
  rewrite detectCollisions_no_contact.
  - cbn [PhysicsWorld.bodies PhysicsWorld.with_staticBodies
         PhysicsWorld.with_bodies Sample.worldWith map].
    rewrite Hhigh. reflexivity.
  - intros pre a0 post Hsplit b Hb.
    destruct pre as [| x pre].
    + injection Hsplit as Ha Hpost. subst a0 post.
      destruct Hb as [[] | [Hb | []]]. subst b.
      rewrite Hhigh. unfold PhysicsWorld.checkCollision. cbn.
      unfold orDefault. decide_tests.
      rewrite distanceTo_length. unfold Vector3.sub. cbn.
      replace (0 - 0) with 0 by lra. replace (2 - 0) with 2 by lra.
      rewrite length_along_y by lra. decide_tests. reflexivity.
    + destruct pre; discriminate Hsplit.
Defined.

(** ** Adding and removing bodies *)

(** [indexOf] finds the first occurrence, and [splice] cuts it out. *)
Lemma indexOf_spec (r : WorldRefs.Ref) (l : list WorldRefs.Ref) :
  match WorldRefs.indexOf r l with
  | Some i =>
      exists pre post,
        l = pre ++ r :: post /\ ~ In r pre /\ List.length pre = i
        /\ WorldRefs.splice1 i l = pre ++ post
  | None => ~ In r l
  end.
Proof.
  induction l as [| x rest IH]; simpl.
  - intros [].
  - destruct (Nat.eqb x r) eqn:E.
    + apply Nat.eqb_eq in E. subst x. exists [], rest.
      repeat split. intros [].
    + apply Nat.eqb_neq in E.
      destruct (WorldRefs.indexOf r rest) as [i |].
      * destruct IH as (pre & post & Hl & Hpre & Hlen & Hsp).
        exists (x :: pre), post. simpl. rewrite Hsp, Hlen.
        split; [rewrite Hl; reflexivity |].
        split; [intros [H | H]; [exact (E H) | exact (Hpre H)] |].
        split; reflexivity.
      * intros [H | H]; [exact (E H) | exact (IH H)].
Qed.

Lemma indexOf_absent (r : WorldRefs.Ref) (l : list WorldRefs.Ref) :
  ~ In r l -> WorldRefs.indexOf r l = None.
Proof.
  intros H. pose proof (indexOf_spec r l) as Hs.
  destruct (WorldRefs.indexOf r l) as [i |]; [| reflexivity].
  destruct Hs as (pre & post & Hl & _). exfalso. apply H. rewrite Hl.
  apply in_or_app. right. left. reflexivity.
Qed.

Lemma indexOf_appended (r : WorldRefs.Ref) (l : list WorldRefs.Ref) :
  ~ In r l ->
  WorldRefs.indexOf r (l ++ [r]) = Some (List.length l)
  /\ WorldRefs.splice1 (List.length l) (l ++ [r]) = l.
Proof.
  induction l as [| x rest IH]; simpl; intros H.
  - rewrite Nat.eqb_refl. split; reflexivity.
  - assert (Hx : Nat.eqb x r = false)
      by (apply Nat.eqb_neq; intros E; apply H; left; exact E).
    rewrite Hx. destruct IH as [IH1 IH2]; [intros Hin; apply H; right; exact Hin |].
    rewrite IH1, IH2. split; reflexivity.
Qed.

(** X10.  A body that is in neither array is gone again after [addBody]
    and [removeBody]: the world is as it was. *)
Theorem removeBody_addBody (body : WorldRefs.Ref) (w : WorldRefs.t) :
  ~ In body (WorldRefs.bodies w) ->
  ~ In body (WorldRefs.staticBodies w) ->
  WorldRefs.removeBody body (WorldRefs.addBody body w) = w.
Proof.
  intros Hd Hs. destruct w as [obj dyn sta]. simpl in Hd, Hs.
  unfold WorldRefs.addBody, WorldRefs.removeBody. simpl.
  destruct (Body.isStatic (obj body)) eqn:E; simpl; rewrite E.
  - destruct (indexOf_appended body sta Hs) as [H1 H2].
    rewrite H1, H2. reflexivity.
  - destruct (indexOf_appended body dyn Hd) as [H1 H2].
    rewrite H1, H2. reflexivity.
Qed.

(** X11.  [removeBody] looks into one array only, the one that the body's
    [isStatic] names when it is called: if the body is not in that array,
    the world is left as it is, also when the other array holds the
    body. *)
Theorem removeBody_other_array (body : WorldRefs.Ref) (w : WorldRefs.t) :
  (Body.isStatic (WorldRefs.object w body) = true ->
   ~ In body (WorldRefs.staticBodies w)) ->
  (Body.isStatic (WorldRefs.object w body) = false ->
   ~ In body (WorldRefs.bodies w)) ->
  WorldRefs.removeBody body w = w.
Proof.
  intros Hs Hd. unfold WorldRefs.removeBody.
  destruct (Body.isStatic (WorldRefs.object w body)).
  - rewrite indexOf_absent by (apply Hs; reflexivity). reflexivity.
  - rewrite indexOf_absent by (apply Hd; reflexivity). reflexivity.
Qed.

(** X12.  [removeBody] takes out the first occurrence of the body in the
    array that its [isStatic] names, and nothing else: the bodies before and
    after it stay in their order, and a body that was added twice is still
    there once. *)
Theorem removeBody_first_occurrence (body : WorldRefs.Ref) (w : WorldRefs.t) :
  (Body.isStatic (WorldRefs.object w body) = false ->
   In body (WorldRefs.bodies w) ->
   exists pre post,
     WorldRefs.bodies w = pre ++ body :: post
     /\ ~ In body pre
     /\ WorldRefs.bodies (WorldRefs.removeBody body w) = pre ++ post
     /\ WorldRefs.staticBodies (WorldRefs.removeBody body w)
        = WorldRefs.staticBodies w)
  /\ (Body.isStatic (WorldRefs.object w body) = true ->
      In body (WorldRefs.staticBodies w) ->
      exists pre post,
        WorldRefs.staticBodies w = pre ++ body :: post
        /\ ~ In body pre
        /\ WorldRefs.staticBodies (WorldRefs.removeBody body w) = pre ++ post
        /\ WorldRefs.bodies (WorldRefs.removeBody body w)
           = WorldRefs.bodies w).
Proof.
  split; intros Hflag Hin; unfold WorldRefs.removeBody; rewrite Hflag.
  - pose proof (indexOf_spec body (WorldRefs.bodies w)) as Hs.
    destruct (WorldRefs.indexOf body (WorldRefs.bodies w)) as [i |];
      [| contradiction].
    destruct Hs as (pre & post & Hl & Hpre & _ & Hsp).
    exists pre, post. simpl. repeat split; assumption.
  - pose proof (indexOf_spec body (WorldRefs.staticBodies w)) as Hs.
    destruct (WorldRefs.indexOf body (WorldRefs.staticBodies w)) as [i |];
      [| contradiction].
    destruct Hs as (pre & post & Hl & Hpre & _ & Hsp).
    exists pre, post. simpl. repeat split; assumption.
Qed.

(** X10 at a zombie's body that enters and leaves the small game. *)
Lemma removeBody_addBody_witness :
  WorldRefs.removeBody 2%nat (WorldRefs.addBody 2%nat Sample.refs) = Sample.refs.
Proof.
  apply removeBody_addBody; simpl; intros [H | []]; discriminate H.
Defined.

(** X11 at a zombie's body that is added as a dynamic body and then marked
    static: [removeBody] leaves it among the dynamic bodies. *)
Lemma removeBody_other_array_witness :
  let w := WorldRefs.setStatic 2%nat true (WorldRefs.addBody 2%nat Sample.refs) in
  WorldRefs.removeBody 2%nat w = w /\ In 2%nat (WorldRefs.bodies w).
Proof.
  intros w. split.
  - apply removeBody_other_array.
    + intros _. simpl. intros [H | []]. discriminate H.
    + intros H. discriminate H.
  - simpl. right. left. reflexivity.
Defined.

(** X12 at a zombie's body added twice and removed once. *)
Lemma removeBody_first_occurrence_witness :
  let w := WorldRefs.addBody 2%nat (WorldRefs.addBody 2%nat Sample.refs) in
  exists pre post,
    WorldRefs.bodies w = pre ++ 2%nat :: post
    /\ ~ In 2%nat pre
    /\ WorldRefs.bodies (WorldRefs.removeBody 2%nat w) = pre ++ post
    /\ WorldRefs.staticBodies (WorldRefs.removeBody 2%nat w) = [0%nat].
Proof.
  intros w.
  apply (proj1 (removeBody_first_occurrence 2%nat w)).
  - reflexivity.
  - simpl. right. left. reflexivity.
Defined.

(** ** The direction of movement *)

Lemma setFromEuler_yaw (yaw : R) :
  Quaternion.setFromEuler (Euler.mk 0 yaw 0)
  = Quaternion.mk 0 (sin (yaw / 2)) 0 (cos (yaw / 2)).
Proof.
  unfold Quaternion.setFromEuler. cbn [Euler.x Euler.y Euler.z].
  replace (0 / 2) with 0 by lra. rewrite cos_0, sin_0.
  f_equal; ring.
Qed.

Lemma sin_cos_square (a : R) : sin a * sin a + cos a * cos a = 1.
Proof. pose proof (sin2_cos2 a) as H. unfold Rsqr in H. exact H. Qed.

(** The axes of the view: forward and right for the yaw [yaw]. *)
Lemma view_axes (yaw : R) :
  Quaternion.applyQuaternion (Vector3.mk 0 0 (-1))
    (Quaternion.setFromEuler (Euler.mk 0 yaw 0))
  = Vector3.mk (- sin yaw) 0 (- cos yaw)
  /\ Quaternion.applyQuaternion (Vector3.mk 1 0 0)
       (Quaternion.setFromEuler (Euler.mk 0 yaw 0))
     = Vector3.mk (cos yaw) 0 (- sin yaw).
Proof.
  rewrite setFromEuler_yaw.
  assert (Hs : sin yaw = 2 * sin (yaw / 2) * cos (yaw / 2))
    by (rewrite <- sin_2a; f_equal; field).
  assert (Hc : cos yaw = 1 - 2 * sin (yaw / 2) * sin (yaw / 2))
    by (rewrite <- cos_2a_sin; f_equal; field).
  unfold Quaternion.applyQuaternion. simpl. rewrite Hs, Hc.
  split; f_equal; ring.
Qed.

Lemma normalize_scaled (v : Vector3.t) :
  Vector3.lengthSq v <> 0 ->
  Vector3.normalize v = Vector3.multiplyScalar v (1 / Vector3.length v).
Proof.
  intros H. pose proof (lengthSq_nonneg v) as Hpos.
  assert (Hl : 0 < Vector3.length v).
  { unfold Vector3.length. apply sqrt_lt_R0. lra. }
  unfold Vector3.normalize, Vector3.divideScalar, orDefault.
  replace (Vector3.length v =? 0) with false
    by (symmetry; apply Reqb_false; lra).
  reflexivity.
Qed.

(** X13.  For an input with a horizontal part, [calculateMoveDirection]
    leaves in [moveDirection] the horizontal input turned by the yaw of the
    view and scaled to length 1: pitch, roll and the vertical component of
    the input play no part, and the direction has no vertical component. *)
Theorem moveDirection_rotated_input (input : Vector3.t) (p : State.Player) :
  Vector3.x input <> 0 \/ Vector3.z input <> 0 ->
  let yaw := Euler.y (State.viewRotation p) in
  let h := sqrt (Vector3.x input * Vector3.x input
                 + Vector3.z input * Vector3.z input) in
  let d := State.moveDirection
             (State.movement (Movement.calculateMoveDirection input p)) in
  d = Vector3.mk
        ((Vector3.x input * cos yaw + Vector3.z input * sin yaw) / h)
        0
        ((Vector3.z input * cos yaw - Vector3.x input * sin yaw) / h)
  /\ Vector3.lengthSq d = 1.
Proof.
  intros Hin yaw h d. subst d.
  destruct input as [ix iy iz]. simpl in Hin, h.
  assert (Hsq : 0 < ix * ix + iz * iz) by (destruct Hin; nra).
  assert (Hh : 0 < h) by (apply sqrt_lt_R0; exact Hsq).
  unfold Movement.calculateMoveDirection.
  cbn [State.movement State.with_movement State.moveDirection
       State.with_moveDirection]. fold yaw.
  destruct (view_axes yaw) as [Hf Hr]. rewrite Hf, Hr.
  unfold Vector3.set_y. cbn [Vector3.x Vector3.y Vector3.z].
  pose proof (sin_cos_square yaw) as Hsc.
  assert (Hfl : Vector3.lengthSq (Vector3.mk (- sin yaw) 0 (- cos yaw)) = 1)
    by (unfold Vector3.lengthSq; simpl; nra).
  assert (Hrl : Vector3.lengthSq (Vector3.mk (cos yaw) 0 (- sin yaw)) = 1)
    by (unfold Vector3.lengthSq; simpl; nra).
  rewrite Hfl, Hrl, Rltb_0_1, !normalize_unit by assumption.
  set (raw := Vector3.addScaledVector _ _ _).
  assert (Hraw : Vector3.lengthSq raw = ix * ix + iz * iz).
  { subst raw. unfold Vector3.lengthSq, Vector3.addScaledVector. simpl.
    transitivity ((ix * ix + iz * iz)
                  * (sin yaw * sin yaw + cos yaw * cos yaw)); [ring |].
    rewrite Hsc. ring. }
  replace (0 <? Vector3.lengthSq raw) with true
    by (symmetry; apply Rltb_true; lra).
  split.
  - rewrite normalize_scaled by lra.
    unfold Vector3.length. rewrite Hraw. fold h.
    subst raw. unfold Vector3.addScaledVector, Vector3.multiplyScalar. simpl.
    f_equal; field; lra.
  - apply normalize_lengthSq. lra.
Qed.

(** X13 at a player who looks along -z and holds W: the direction is -z. *)
Lemma moveDirection_rotated_input_witness :
  State.moveDirection
    (State.movement
       (Movement.calculateMoveDirection (Vector3.mk 0 0 (-1))
          Sample.turningPlayer))
  = Vector3.mk 0 0 (-1).
Proof.
  destruct (moveDirection_rotated_input (Vector3.mk 0 0 (-1))
              Sample.turningPlayer) as [H _].
  - right. simpl. lra.
  - rewrite H. cbn. rewrite cos_0, sin_0.
    replace (0 * 0 + -1 * -1) with 1 by lra. rewrite sqrt_1.
    f_equal; lra.
Defined.

(** ** Stopping and accelerating *)

(** What the stop force leaves of the horizontal velocity: the factor [k]. *)
Lemma applyStopForce_factor (deltaTime : R) (p : State.Player) :
  let v := Body.velocity (State.physicsBody p) in
  let speed := Movement.currentSpeed p in
  let stopAccel :=
    if State.onGround p then Movement.stopAcceleration
    else Movement.stopAcceleration * 0.2 in
  let k := if speed <? 0.1 then 0
           else 1 - Rmin speed (stopAccel * deltaTime) / speed in
  0 <= k
  /\ State.physicsBody (Movement.applyStopForce deltaTime p)
     = Body.with_velocity (State.physicsBody p)
         (Vector3.mk (Vector3.x v * k) (Vector3.y v) (Vector3.z v * k)).
Proof.
  intros v speed stopAccel k.
  unfold Movement.applyStopForce. fold v.
  change (Vector3.length (Vector3.mk (Vector3.x v) 0 (Vector3.z v)))
    with speed.
  subst k. destruct (speed <? 0.1) eqn:E.
  - split; [lra |]. unfold State.with_bodyVelocity. cbn. f_equal.
    unfold Vector3.set_x, Vector3.set_z. cbn. f_equal; ring.
  - apply Rltb_false in E. fold stopAccel.
    set (dec := Rmin speed (stopAccel * deltaTime)).
    assert (Hdec : dec <= speed) by apply Rmin_l.
    assert (Hsq : Vector3.lengthSq
                    (Vector3.mk (Vector3.x v) 0 (Vector3.z v)) <> 0).
    { intros H0. unfold speed, Movement.currentSpeed, Vector3.length in E.
      fold v in E. unfold Movement.currentVelocity in E. fold v in E.
      rewrite H0, sqrt_0 in E. lra. }
    split.
    + apply Rmult_le_reg_r with speed; [lra |].
      replace ((1 - dec / speed) * speed) with (speed - dec) by (field; lra).
      lra.
    + rewrite normalize_scaled by exact Hsq.
      change (Vector3.length (Vector3.mk (Vector3.x v) 0 (Vector3.z v)))
        with speed.
      unfold State.with_bodyVelocity. cbn. f_equal.
      unfold Vector3.set_x, Vector3.set_z, Vector3.multiplyScalar. cbn.
      f_equal; field; lra.
Qed.

(** X14.  Without move input, [update] brakes in a straight line: the
    vertical velocity stays, the horizontal velocity keeps its direction,
    and the horizontal speed becomes 0 if it was under 0.1 and
    [speed - min(speed, stopAccel * deltaTime)] otherwise, with [stopAccel]
    200 on the ground and a fifth of it in the air; the player never starts
    to move backwards, and for a frame time that is not negative the speed
    does not grow. *)
Theorem update_without_input_brakes (deltaTime now : R) (p : State.Player) :
  Movement.hasInput p = false ->
  let v := Body.velocity (State.physicsBody p) in
  let p' := Movement.update deltaTime now p in
  let v' := Body.velocity (State.physicsBody p') in
  let speed := Movement.currentSpeed p in
  let stopAccel :=
    if State.onGround p then Movement.stopAcceleration
    else Movement.stopAcceleration * 0.2 in
  Movement.currentSpeed p'
  = (if speed <? 0.1 then 0
     else speed - Rmin speed (stopAccel * deltaTime))
  /\ (exists k, 0 <= k /\ Vector3.x v' = Vector3.x v * k
                /\ Vector3.z v' = Vector3.z v * k)
  /\ Vector3.y v' = Vector3.y v
  /\ (0 <= deltaTime -> Movement.currentSpeed p' <= speed).
Proof.
  intros Hin v p' v' speed stopAccel.
  destruct (applyStopForce_factor deltaTime p) as [Hk Hbody].
  fold v speed stopAccel in Hk, Hbody.
  set (k := if speed <? 0.1 then 0
            else 1 - Rmin speed (stopAccel * deltaTime) / speed) in *.
  assert (Hb : State.physicsBody p'
               = Body.with_velocity (State.physicsBody p)
                   (Vector3.mk (Vector3.x v * k) (Vector3.y v)
                      (Vector3.z v * k))).
  { subst p'. unfold Movement.update. rewrite Hin.
    rewrite saveLast_physicsBody. exact Hbody. }
  assert (Hs : Movement.currentSpeed p' = speed * k).
  { unfold Movement.currentSpeed at 1, Movement.currentVelocity.
    rewrite Hb. cbn.
    replace (Vector3.mk (Vector3.x v * k) 0 (Vector3.z v * k))
      with (Vector3.multiplyScalar (Movement.currentVelocity p) k).
    - apply length_scaled. exact Hk.
    - unfold Vector3.multiplyScalar, Movement.currentVelocity. cbn.
      fold v. f_equal. ring. }
  assert (Hsp : 0 <= speed) by apply sqrt_pos.
  assert (Hval : speed * k
                 = if speed <? 0.1 then 0
                   else speed - Rmin speed (stopAccel * deltaTime)).
  { subst k. destruct (speed <? 0.1) eqn:E; [ring |].
    apply Rltb_false in E. field. lra. }
  split; [rewrite Hs; exact Hval |].
  split; [exists k; subst v'; rewrite Hb; cbn; auto |].
  split; [subst v'; rewrite Hb; reflexivity |].
  intros Hdt. rewrite Hs, Hval.
  destruct (speed <? 0.1); [exact Hsp |].
  assert (Hacc : 0 <= stopAccel * deltaTime).
  { subst stopAccel. unfold Movement.stopAcceleration.
    destruct (State.onGround p); nra. }
  apply Rmin_case_strong; intros; lra.
Qed.

(** X14 at a player who slides on the ground at 6 units per second and has
    let go of the keys: one update at 60 frames per second takes
    [200 / 60] off the speed. *)
Lemma update_without_input_brakes_witness :
  Movement.currentSpeed (Movement.update (1 / 60) 0 Sample.slidingPlayer)
  = 8 / 3.
Proof.
  assert (Hin : Movement.hasInput Sample.slidingPlayer = false).
  { unfold Movement.hasInput. apply Rltb_false. vec. lra. }
  destruct (update_without_input_brakes (1 / 60) 0 Sample.slidingPlayer Hin)
    as (H & _).
  rewrite H.
  assert (Hs : Movement.currentSpeed Sample.slidingPlayer = 6).
  { unfold Movement.currentSpeed. apply length_of_sq; [lra |]. vec. lra. }
  rewrite Hs. unfold Movement.stopAcceleration. cbn.
  decide_tests. rewrite Rmin_right by lra. lra.
Defined.

(** The direction of movement is a unit vector or the zero vector. *)
Lemma calculateMoveDirection_lengthSq (input : Vector3.t) (p : State.Player) :
  Vector3.lengthSq
    (State.moveDirection
       (State.movement (Movement.calculateMoveDirection input p))) <= 1.
Proof.
  unfold Movement.calculateMoveDirection.
  cbn [State.movement State.with_movement State.moveDirection
       State.with_moveDirection].
  match goal with
  | |- context [if 0 <? Vector3.lengthSq ?d then Vector3.normalize ?d else ?d] =>
      destruct (0 <? Vector3.lengthSq d) eqn:E
  end.
  - apply Rltb_true in E. rewrite normalize_lengthSq by lra. lra.
  - apply Rltb_false in E. lra.
Qed.

Lemma detectDirectionChange_moveDirection (now : R) (p : State.Player) :
  State.moveDirection (State.movement (Movement.detectDirectionChange now p))
  = State.moveDirection (State.movement p).
Proof.
  unfold Movement.detectDirectionChange.
  repeat match goal with
         | |- context [if ?c then _ else _] => destruct c
         end; reflexivity.
Qed.

Lemma steer_moveDirection (now : R) (p : State.Player) :
  State.moveDirection (State.movement (Movement.steer now p))
  = State.moveDirection
      (State.movement
         (Movement.calculateMoveDirection (Movement.clampedInput p) p)).
Proof.
  unfold Movement.steer.
  cbn [State.movement State.with_movement State.moveDirection
       State.with_targetVelocity].
  apply detectDirectionChange_moveDirection.
Qed.

Lemma steer_moveDirection_lengthSq (now : R) (p : State.Player) :
  Vector3.lengthSq (State.moveDirection (State.movement (Movement.steer now p)))
  <= 1.
Proof. rewrite steer_moveDirection. apply calculateMoveDirection_lengthSq. Qed.

Lemma steer_onGround (now : R) (p : State.Player) :
  State.onGround (Movement.steer now p) = State.onGround p.
Proof. rewrite steer_frame. reflexivity. Qed.

(** The triangle inequality on the horizontal plane. *)
Lemma horizontal_triangle (a b c d : R) :
  sqrt ((a + b) * (a + b) + (c + d) * (c + d))
  <= sqrt (a * a + c * c) + sqrt (b * b + d * d).
Proof.
  assert (H1 : 0 <= a * a + c * c) by nra.
  assert (H2 : 0 <= b * b + d * d) by nra.
  pose proof (sqrt_pos (a * a + c * c)) as P1.
  pose proof (sqrt_pos (b * b + d * d)) as P2.
  pose proof (sqrt_sqrt _ H1) as S1.
  pose proof (sqrt_sqrt _ H2) as S2.
  set (s1 := sqrt (a * a + c * c)) in *.
  set (s2 := sqrt (b * b + d * d)) in *.
  rewrite <- (sqrt_square (s1 + s2)) by lra.
  pose proof (Rle_0_sqr (a + b)) as Q1. pose proof (Rle_0_sqr (c + d)) as Q2.
  pose proof (Rle_0_sqr (s1 + s2)) as Q3. unfold Rsqr in Q1, Q2, Q3.
  apply sqrt_le_1; [lra | lra |].
  assert (Hcs : a * b + c * d <= s1 * s2).
  { destruct (Rle_dec (a * b + c * d) 0) as [Hneg | Hpos]; [nra |].
    assert (Hsq : (a * b + c * d) * (a * b + c * d) <= (s1 * s2) * (s1 * s2)).
    { replace (s1 * s2 * (s1 * s2)) with ((s1 * s1) * (s2 * s2)) by ring.
      rewrite S1, S2.
      pose proof (Rle_0_sqr (a * d - b * c)) as Q4. unfold Rsqr in Q4.
      replace ((a * a + c * c) * (b * b + d * d))
        with ((a * b + c * d) * (a * b + c * d)
              + (a * d - b * c) * (a * d - b * c)) by ring.
      lra. }
    assert (0 <= s1 * s2) by nra. nra. }
  nra.
Qed.

(** X15.  With move input, whatever the state, the horizontal speed after
    [update] is at most [maxSpeed + jumpBoostForward * walkSpeed]: the boost
    of the first jump, added after the speed limit, is along a direction of
    length at most 1. *)
Theorem movement_speed_bound_with_boost (deltaTime now : R)
    (p : State.Player) :
  Movement.hasInput p = true ->
  let v' :=
    Body.velocity (State.physicsBody (Movement.update deltaTime now p)) in
  sqrt (Vector3.x v' * Vector3.x v' + Vector3.z v' * Vector3.z v')
  <= Movement.maxSpeed + Movement.jumpBoostForward * Movement.walkSpeed.
Proof.
  intros Hin v'. subst v'. unfold Movement.update. rewrite Hin.
  rewrite saveLast_physicsBody.
  unfold Movement.applyAccelerationWithMomentum.
  rewrite writeVelocity_body.
  rewrite steer_physicsBody, steer_isJumping, steer_jumpCount.
  set (nv := Movement.limitSpeed _).
  set (d := State.moveDirection _).
  assert (Hnv : sqrt (Vector3.x nv * Vector3.x nv + Vector3.z nv * Vector3.z nv)
                <= Movement.maxSpeed).
  { apply Rle_trans with (Vector3.length nv); [| apply limitSpeed_length].
    pose proof (horizontal_length nv) as H.
    unfold Vector3.length at 1 in H. unfold Vector3.lengthSq at 1 in H.
    cbn in H.
    replace (Vector3.x nv * Vector3.x nv + Vector3.z nv * Vector3.z nv)
      with (Vector3.x nv * Vector3.x nv + 0 * 0
            + Vector3.z nv * Vector3.z nv) by ring.
    exact H. }
  assert (Hb : 0 <= Movement.jumpBoostForward * Movement.walkSpeed)
    by (unfold Movement.jumpBoostForward, Movement.walkSpeed; lra).
  destruct (State.isJumping p && Nat.eqb (State.jumpCount p) 1);
    cbn [Vector3.x Vector3.y Vector3.z Body.velocity Body.with_velocity].
  - set (b := Movement.jumpBoostForward * Movement.walkSpeed) in *.
    pose proof (steer_moveDirection_lengthSq now p) as Hd. fold d in Hd.
    unfold Vector3.lengthSq in Hd. clearbody b nv d.
    eapply Rle_trans; [apply horizontal_triangle |].
    apply Rplus_le_compat; [exact Hnv |].
    pose proof (Rle_0_sqr (Vector3.y d)) as Qy. unfold Rsqr in Qy.
    pose proof (Rle_0_sqr (Vector3.x d * b)) as Qx. unfold Rsqr in Qx.
    pose proof (Rle_0_sqr (Vector3.z d * b)) as Qz. unfold Rsqr in Qz.
    pose proof (Rle_0_sqr b) as H0. unfold Rsqr in H0.
    assert (H : Vector3.x d * Vector3.x d + Vector3.z d * Vector3.z d <= 1)
      by lra.
    apply Rle_trans with (sqrt (b * b));
      [| rewrite sqrt_square by exact Hb; lra].
    apply sqrt_le_1; [lra | lra |].
    replace (Vector3.x d * b * (Vector3.x d * b)
             + Vector3.z d * b * (Vector3.z d * b))
      with ((Vector3.x d * Vector3.x d + Vector3.z d * Vector3.z d) * (b * b))
      by ring.
    apply Rle_trans with (1 * (b * b));
      [apply Rmult_le_compat_r; assumption | lra].
  - apply Rle_trans with Movement.maxSpeed; [exact Hnv | lra].
Qed.

(** X15 at the sprinting player who receives the boost at full speed. *)
Lemma movement_speed_bound_with_boost_witness :
  let v' := Body.velocity
              (State.physicsBody
                 (Movement.update (1 / 60) 0 Sample.boostedPlayer)) in
  sqrt (Vector3.x v' * Vector3.x v' + Vector3.z v' * Vector3.z v')
  <= Movement.maxSpeed + Movement.jumpBoostForward * Movement.walkSpeed.
Proof.
  apply (movement_speed_bound_with_boost (1 / 60) 0 Sample.boostedPlayer).
  apply (clampedInput_D Sample.boostedPlayer). reflexivity.
Defined.

Lemma steer_standingPlayer (now : R) :
  State.movement (Movement.steer now Sample.standingPlayer)
  = State.mkMovement (Vector3.mk 1 0 0)
      (Vector3.multiplyScalar (Vector3.mk 1 0 0) Movement.walkSpeed)
      Vector3.zero Vector3.zero 0 0 false.
Proof.
  unfold Movement.steer.
  rewrite (proj2 (clampedInput_D Sample.standingPlayer eq_refl)).
  rewrite calculateMoveDirection_D_eq by reflexivity.
  unfold Movement.detectDirectionChange, Movement.directionChangeThreshold.
  cbn. vec. decide_tests. reflexivity.
Qed.

(** X16.  On the ground, with move input, a frame of at least 1/150 s and no
    momentum blend (the direction-change flag clear or the speed at most
    2.0), [update] replaces the horizontal velocity by the target: the
    direction of movement times the walk or run speed, plus the boost of the
    first jump when it is due.  The velocity before the update plays no
    part. *)
Theorem ground_velocity_is_target (deltaTime now : R) (p : State.Player) :
  Movement.hasInput p = true ->
  State.onGround p = true ->
  1 / 150 <= deltaTime ->
  State.hasChangedDirection (State.movement (Movement.steer now p))
  && (2.0 <? Movement.currentSpeed p) = false ->
  let d := State.moveDirection (State.movement (Movement.steer now p)) in
  let speed :=
    if State.isSprinting p then Movement.runSpeed else Movement.walkSpeed in
  let boost :=
    if State.isJumping p && Nat.eqb (State.jumpCount p) 1
    then Movement.jumpBoostForward * Movement.walkSpeed else 0 in
  let v' :=
    Body.velocity (State.physicsBody (Movement.update deltaTime now p)) in
  Vector3.x v' = Vector3.x d * (speed + boost)
  /\ Vector3.z v' = Vector3.z d * (speed + boost).
Proof.
  intros Hin Hg Hdt Hflag d speed boost v'.
  set (q := Movement.steer now p) in *.
  assert (Hcv : Movement.currentVelocity q = Movement.currentVelocity p).
  { unfold Movement.currentVelocity. subst q. rewrite steer_physicsBody.
    reflexivity. }
  assert (Ht : State.targetVelocity (State.movement q)
               = Vector3.multiplyScalar d speed)
    by apply steer_targetVelocity.
  assert (Hspeed : 0 < speed <= 10).
  { subst speed. unfold Movement.runSpeed, Movement.walkSpeed.
    destruct (State.isSprinting p); lra. }
  assert (Hb : Vector3.x (Movement.blendedVelocity deltaTime q)
               = Vector3.x d * speed
               /\ Vector3.z (Movement.blendedVelocity deltaTime q)
                  = Vector3.z d * speed
               /\ Vector3.length (Movement.blendedVelocity deltaTime q)
                  <= 10).
  { unfold Movement.blendedVelocity, Movement.currentSpeed.
    rewrite Hcv, Ht. fold (Movement.currentSpeed p). rewrite Hflag.
    subst q. rewrite steer_onGround, Hg. cbn [negb].
    set (accel := if _ || _ then _ else _).
    assert (Hacc : 150 <= accel).
    { subst accel.
      unfold Movement.groundAcceleration, Movement.dirChangeBoostMultiplier.
      destruct (_ || _); lra. }
    rewrite Rmin_right by nra.
    set (t := Vector3.multiplyScalar d speed).
    assert (Heq : Vector3.add (Movement.currentVelocity p)
                    (Vector3.multiplyScalar
                       (Vector3.sub t (Movement.currentVelocity p)) 1.0)
                  = t).
    { unfold Vector3.add, Vector3.sub, Vector3.multiplyScalar,
        Movement.currentVelocity. destruct t as [tx ty tz]. cbn.
      f_equal; lra. }
    rewrite Heq. subst t. split; [reflexivity | split; [reflexivity |]].
    rewrite length_scaled by lra.
    pose proof (steer_moveDirection_lengthSq now p) as Hd. fold d in Hd.
    assert (Hl : Vector3.length d <= 1) by (apply length_le_of_sq; lra).
    pose proof (sqrt_pos (Vector3.lengthSq d)) as Hp.
    fold (Vector3.length d) in Hp. nra. }
  destruct Hb as (Hx & Hz & Hlen).
  subst v'. unfold Movement.update. rewrite Hin.
  rewrite saveLast_physicsBody.
  unfold Movement.applyAccelerationWithMomentum. fold q.
  rewrite writeVelocity_body.
  subst q. rewrite steer_physicsBody, steer_isJumping, steer_jumpCount.
  unfold Movement.limitSpeed.
  replace (Movement.maxSpeed <? _) with false
    by (symmetry; apply Rltb_false; unfold Movement.maxSpeed; lra).
  fold d. subst boost.
  destruct (State.isJumping p && Nat.eqb (State.jumpCount p) 1);
    cbn [Vector3.x Vector3.y Vector3.z Body.velocity Body.with_velocity];
    rewrite Hx, Hz; split; ring.
Qed.

(** X16 at a player who stands on the ground when the key D goes down: after
    one update at 60 frames per second the body moves at the walk speed. *)
Lemma ground_velocity_is_target_witness :
  Vector3.x
    (Body.velocity
       (State.physicsBody (Movement.update (1 / 60) 0 Sample.standingPlayer)))
  = 6.
Proof.
  destruct (ground_velocity_is_target (1 / 60) 0 Sample.standingPlayer)
    as [H _].
  - apply (clampedInput_D Sample.standingPlayer). reflexivity.
  - reflexivity.
  - lra.
  - rewrite steer_standingPlayer. reflexivity.
  - rewrite H, steer_standingPlayer. unfold Movement.walkSpeed. cbn. lra.
Defined.

(** X17.  [applyFriction], which nothing calls, damps the horizontal
    velocity for a frame time that is not negative: both components are
    multiplied by one factor between 0 and 1, which is 0 under a speed of 0.1
    and [max(0, 1 - friction * deltaTime)] otherwise, with a friction of
    [8.0 * 0.3] on the ground and 0.1 in the air; the vertical velocity
    stays. *)
Theorem applyFriction_damps (deltaTime : R) (p : State.Player) :
  0 <= deltaTime ->
  let v := Body.velocity (State.physicsBody p) in
  let v' := Body.velocity (State.physicsBody
                             (Movement.applyFriction deltaTime p)) in
  let friction :=
    if State.onGround p then Movement.groundFriction * 0.3
    else Movement.airFriction in
  let k := if Movement.currentSpeed p <? 0.1 then 0
           else Rmax 0 (1 - friction * deltaTime) in
  0 <= k <= 1
  /\ v' = Vector3.mk (Vector3.x v * k) (Vector3.y v) (Vector3.z v * k).
Proof.
  intros Hdt v v' friction k. subst v'.
  unfold Movement.applyFriction. fold v.
  change (Vector3.length (Vector3.mk (Vector3.x v) 0 (Vector3.z v)))
    with (Movement.currentSpeed p).
  subst k. destruct (Movement.currentSpeed p <? 0.1).
  - split; [lra |]. cbn. unfold Vector3.set_x, Vector3.set_z. cbn.
    f_equal; ring.
  - fold friction.
    assert (Hf : 0 <= friction * deltaTime).
    { subst friction. unfold Movement.groundFriction, Movement.airFriction.
      destruct (State.onGround p); nra. }
    split.
    + split; [apply Rmax_l |]. apply Rmax_lub; lra.
    + reflexivity.
Qed.

(** X17 on the ground over half a second: the friction of 2.4 would take
    more than everything, and the body stops. *)
Lemma applyFriction_damps_witness :
  Body.velocity
    (State.physicsBody (Movement.applyFriction 0.5 Sample.slidingPlayer))
  = Vector3.mk 0 0 0.
Proof.
  destruct (applyFriction_damps 0.5 Sample.slidingPlayer) as [_ H]; [lra |].
  rewrite H.
  assert (Hs : Movement.currentSpeed Sample.slidingPlayer = 6).
  { unfold Movement.currentSpeed. apply length_of_sq; [lra |]. vec. lra. }
  rewrite Hs. unfold Movement.groundFriction. cbn.
  decide_tests. rewrite Rmax_left by lra. f_equal; lra.
Defined.

(** ** [Player]: the view and the health *)

(** X18.  [rotate] keeps the pitch between [-PI/2 + 0.01] and
    [PI/2 - 0.01] whatever the mouse does and whatever the pitch was, takes
    [dx * mouseSensitivity] off the yaw without any limit, and leaves the
    roll and the rest of the player alone; a pitch that stays inside the
    limits changes by [- dy * mouseSensitivity]. *)
Theorem rotate_clamps_pitch (mouseSensitivity dx dy : R) (p : State.Player) :
  let r := State.viewRotation p in
  let p' := Player.rotate mouseSensitivity dx dy p in
  let r' := State.viewRotation p' in
  - PI / 2 + 0.01 <= Euler.x r' <= PI / 2 - 0.01
  /\ Euler.y r' = Euler.y r - dx * mouseSensitivity
  /\ Euler.z r' = Euler.z r
  /\ p' = State.with_viewRotation p r'
  /\ (- PI / 2 + 0.01 <= Euler.x r - dy * mouseSensitivity <= PI / 2 - 0.01 ->
      Euler.x r' = Euler.x r - dy * mouseSensitivity).
Proof.
  intros r p' r'. subst r' p'. unfold Player.rotate. fold r.
  cbn [State.viewRotation State.with_viewRotation Euler.x Euler.y Euler.z].
  pose proof PI2_1 as Hpi.
  split; [| split; [reflexivity | split; [reflexivity | split;
                                           [reflexivity |]]]].
  - split; [apply Rmax_l |]. apply Rmax_lub; [lra | apply Rmin_l].
  - intros [Hlo Hhi]. rewrite Rmin_right by exact Hhi.
    apply Rmax_right. exact Hlo.
Qed.

(** X18 when the mouse is pulled down hard: the pitch stops at the lower
    limit. *)
Lemma rotate_clamps_pitch_witness :
  Euler.x (State.viewRotation (Player.rotate 0.002 0 10000 Sample.standingPlayer))
  = - PI / 2 + 0.01.
Proof.
  pose proof (rotate_clamps_pitch 0.002 0 10000 Sample.standingPlayer)
    as (_ & _ & _ & Hp & _).
  rewrite Hp. unfold Player.rotate.
  cbn [State.viewRotation State.with_viewRotation Euler.x Euler.y Euler.z
       Sample.standingPlayer Sample.playerHoldingD].
  pose proof PI_4 as H4. pose proof PI2_1 as H1.
  rewrite Rmin_right by lra. apply Rmax_left. lra.
Defined.

(** X19.  The health stays in order: if it is positive, at most
    [maxHealth], and 0 for a dead player, then it is so after [takeDamage]
    and [heal] with an amount that is not negative and after [respawn].
    [takeDamage] starts the timer of the respawn exactly when it kills. *)
Theorem vitals_invariant (p : State.Player) (v : State.Vitals) :
  Player.vitalsOk p v ->
  (forall currentTime amount,
      0 <= amount ->
      let r := Player.takeDamage currentTime amount p v in
      Player.vitalsOk (fst (fst r)) (snd (fst r))
      /\ (snd r = Some 3000
          <-> State.isDead p = false
              /\ State.isDead (fst (fst r)) = true)
      /\ (snd r = None \/ snd r = Some 3000))
  /\ (forall amount,
         0 <= amount -> Player.vitalsOk p (Player.heal amount p v))
  /\ Player.vitalsOk (fst (Player.respawn p v)) (snd (Player.respawn p v)).
Proof.
  unfold Player.vitalsOk. intros (Hmax & Hle & Hd).
  split; [| split].
  - intros currentTime amount Ha. cbv zeta. unfold Player.takeDamage.
    destruct (currentTime - State.lastDamageTime v
              <? Player.invulnerabilityDuration).
    { cbn. split; [tauto |]. split; [| left; reflexivity].
      split; [discriminate |]. intros [H1 H2]. congruence. }
    destruct (State.isDead p) eqn:Edead.
    { cbn. rewrite Edead. split; [tauto |]. split; [| left; reflexivity].
      split; [discriminate |]. intros [H1 H2]. congruence. }
    cbn [State.health State.maxHealth State.lastDamageTime].
    destruct (State.health v - amount <=? 0) eqn:E.
    + unfold Player.die. rewrite Edead. cbn.
      split; [repeat split; lra |]. split; [| right; reflexivity].
      split; auto.
    + apply Rleb_false in E. cbn. rewrite Edead.
      split; [repeat split; lra |]. split; [| left; reflexivity].
      split; [discriminate |]. intros [_ H2]. discriminate H2.
  - intros amount Ha. unfold Player.heal.
    destruct (State.isDead p); [tauto |]. cbn.
    split; [exact Hmax | split; [apply Rmin_r |]].
    apply Rmin_glb_lt; lra.
  - cbn. repeat split; lra.
Qed.

(** X19 at a player with 80 of 100 who is hit for 100 at the time 2000: dead
    with health 0, and the timer of the respawn runs. *)
Lemma vitals_invariant_witness :
  let r := Player.takeDamage 2000 100 Sample.standingPlayer Sample.hurt in
  State.health (snd (fst r)) = 0 /\ snd r = Some 3000.
Proof.
  intros r.
  assert (Hok : Player.vitalsOk Sample.standingPlayer Sample.hurt).
  { unfold Player.vitalsOk. cbn. lra. }
  destruct (vitals_invariant Sample.standingPlayer Sample.hurt Hok)
    as [Hdmg _].
  destruct (Hdmg 2000 100) as ((_ & _ & Hdead) & Htimer & _); [lra |].
  fold r in Hdead, Htimer.
  assert (Hd : State.isDead (fst (fst r)) = true).
  { subst r. unfold Player.takeDamage, Player.invulnerabilityDuration.
    cbn. decide_tests. reflexivity. }
  rewrite Hd in Hdead. split; [exact Hdead |].
  apply Htimer. split; [reflexivity | exact Hd].
Defined.

(** X20.  After a hit that lands (the player alive and not invulnerable at
    [t1]), every [takeDamage] less than [invulnerabilityDuration] = 500 ms
    later changes nothing, whatever its amount; and a dead player takes no
    damage at any time. *)
Theorem takeDamage_invulnerability (t1 t2 a1 a2 : R) (p : State.Player)
    (v : State.Vitals) :
  State.isDead p = false ->
  500 <= t1 - State.lastDamageTime v ->
  t2 - t1 < 500 ->
  let r1 := Player.takeDamage t1 a1 p v in
  State.lastDamageTime (snd (fst r1)) = t1
  /\ Player.takeDamage t2 a2 (fst (fst r1)) (snd (fst r1))
     = (fst (fst r1), snd (fst r1), None)
  /\ (forall t a q w,
         State.isDead q = true -> Player.takeDamage t a q w = (q, w, None)).
Proof.
  intros Halive Hvul Hsoon r1.
  assert (Ht : State.lastDamageTime (snd (fst r1)) = t1).
  { subst r1. unfold Player.takeDamage, Player.invulnerabilityDuration.
    replace (t1 - State.lastDamageTime v <? 500) with false
      by (symmetry; apply Rltb_false; exact Hvul).
    rewrite Halive. cbn [State.health State.maxHealth State.lastDamageTime].
    destruct (State.health v - a1 <=? 0); reflexivity. }
  split; [exact Ht | split].
  - unfold Player.takeDamage at 1. rewrite Ht.
    unfold Player.invulnerabilityDuration.
    replace (t2 - t1 <? 500) with true
      by (symmetry; apply Rltb_true; exact Hsoon).
    reflexivity.
  - intros t a q w Hq. unfold Player.takeDamage. rewrite Hq.
    destruct (_ <? _); reflexivity.
Qed.

(** X20 at a full-health player hit for 20 at the time 1000 and for 50 at
    the time 1400: the health stays at 80. *)
Lemma takeDamage_invulnerability_witness :
  let r1 := Player.takeDamage 1000 20 Sample.standingPlayer
              Sample.fullHealth in
  State.health
    (snd (fst (Player.takeDamage 1400 50 (fst (fst r1)) (snd (fst r1)))))
  = 80.
Proof.
  intros r1.
  destruct (takeDamage_invulnerability 1000 1400 20 50 Sample.standingPlayer
              Sample.fullHealth) as (_ & H & _).
  - reflexivity.
  - cbn. lra.
  - lra.
  - fold r1 in H. rewrite H. cbn [fst snd]. subst r1.
    unfold Player.takeDamage, Player.invulnerabilityDuration. cbn.
    decide_tests. cbn. lra.
Defined.

(** ** [Player]: the cooldown and the coyote time *)

Lemma trackGround_lastGroundedTime (currentTime : R) (p : State.Player) :
  State.lastGroundedTime (Player.trackGround currentTime p)
  = (if negb (Body.onGround (State.physicsBody p)) && State.onGround p
     then currentTime else State.lastGroundedTime p).
Proof.
  unfold Player.trackGround.
  cbn [State.onGround State.with_kinematics State.with_onGround
       State.physicsBody].
  destruct (Body.onGround (State.physicsBody p)), (State.onGround p);
    reflexivity.
Qed.

Lemma processJump_body_onGround (currentTime : R) (p : State.Player) :
  Body.onGround (State.physicsBody (fst (Player.processJump currentTime p)))
  = Body.onGround (State.physicsBody p)
  /\ State.onGround (fst (Player.processJump currentTime p))
     = State.onGround p
  /\ State.lastGroundedTime (fst (Player.processJump currentTime p))
     = State.lastGroundedTime p.
Proof.
  unfold Player.processJump.
  destruct (currentTime - State.lastJumpTime p <? 100); [auto |].
  destruct (Player.canFirstJump currentTime p && Nat.eqb (State.jumpCount p) 0).
  - cbn [fst].
    match goal with
    | |- context [Movement.applyJumpBoost ?q] =>
        destruct (applyJumpBoost_fields q) as [Hj Hb]; rewrite Hb;
        unfold State.jumpState in Hj;
        injection Hj as _ _ _ _ Hg _ Ht _; rewrite Hg, Ht
    end.
    auto.
  - destruct (negb (Player.canFirstJump currentTime p)
              && Nat.ltb (State.jumpCount p) (State.maxJumps p)); auto.
Qed.

Lemma processJumpRequest_ground (now jumpTime : R) (s : State.Player) :
  let r := Player.processJumpRequest now jumpTime s in
  Body.onGround (State.physicsBody (fst r)) = Body.onGround (State.physicsBody s)
  /\ State.onGround (fst r) = State.onGround s
  /\ State.lastGroundedTime (fst r) = State.lastGroundedTime s.
Proof.
  unfold Player.processJumpRequest.
  destruct (State.jumpRequested s); [| auto].
  destruct (now - State.jumpBufferTime s <? Player.jumpBufferWindow); [| auto].
  destruct (processJump_body_onGround jumpTime s) as (H1 & H2 & H3).
  destruct (Player.processJump jumpTime s) as [p1 ok].
  cbn [fst] in H1, H2, H3. destruct ok; cbn; auto.
Qed.

(** What an [update] of a live player leaves of the ground state. *)
Lemma update_ground (deltaTime : R) (clock : Player.Clock) (p : State.Player) :
  State.isDead p = false ->
  let p' := Player.update deltaTime clock p in
  Body.onGround (State.physicsBody p') = Body.onGround (State.physicsBody p)
  /\ State.onGround p' = Body.onGround (State.physicsBody p)
  /\ State.lastGroundedTime p'
     = (if negb (Body.onGround (State.physicsBody p)) && State.onGround p
        then Player.atUpdate clock else State.lastGroundedTime p).
Proof.
  intros Hdead p'. subst p'. unfold Player.update. rewrite Hdead.
  set (s := Player.trackGround (Player.atUpdate clock) p).
  set (r := Player.processJumpRequest (Player.atUpdate clock)
              (Player.atProcessJump clock) s).
  pose proof (movement_update_jumpState deltaTime (Player.atDetect clock)
                (fst r)) as Hm.
  unfold State.jumpState in Hm. injection Hm as _ _ _ _ Hg _ Ht _.
  destruct (movement_update_body deltaTime (Player.atDetect clock) (fst r))
    as (vx & vz & Hb).
  rewrite Hb, Hg, Ht. cbn [Body.onGround Body.with_velocity].
  destruct (processJumpRequest_ground (Player.atUpdate clock)
              (Player.atProcessJump clock) s) as (H1 & H2 & H3).
  fold r in H1, H2, H3. rewrite H1, H2, H3.
  destruct (trackGround_fields (Player.atUpdate clock) p)
    as (_ & Hsg & _ & _ & _ & _ & _ & Hsb).
  fold s in Hsg, Hsb. rewrite Hsb, Hsg.
  subst s. rewrite trackGround_lastGroundedTime. auto.
Qed.

(** Under the cooldown no [update] jumps. *)
Lemma cooldown_blocks (clock : Player.Clock) (q : State.Player) :
  Player.atProcessJump clock - State.lastJumpTime q < 100 ->
  Player.jumps clock q = false.
Proof.
  intros Hcool. destruct (State.isDead q) eqn:Hdead.
  { unfold Player.jumps. rewrite Hdead. reflexivity. }
  destruct (update_request_step 0 clock q Hdead)
    as (_ & Hwait & Hexp & Hidle).
  destruct (State.jumpRequested q) eqn:Hreq; [| apply Hidle; reflexivity].
  destruct (Rlt_dec (Player.atUpdate clock - State.jumpBufferTime q) 200)
    as [Hw | Hw].
  - apply Hwait; [reflexivity | exact Hw |].
    intros [Hc _]. unfold Player.cooldownOver in Hc.
    destruct (trackGround_fields (Player.atUpdate clock) q)
      as (_ & _ & _ & _ & _ & Hl & _).
    rewrite Hl in Hc. lra.
  - apply Hexp; [reflexivity | lra].
Qed.

(** An [update] that jumps leaves its reading of the clock in
    [lastJumpTime]. *)
Lemma jump_sets_lastJumpTime (deltaTime : R) (clock : Player.Clock)
    (p : State.Player) :
  Player.jumps clock p = true ->
  State.lastJumpTime (Player.update deltaTime clock p)
  = Player.atProcessJump clock.
Proof.
  intros Hj. destruct (State.isDead p) eqn:Hdead.
  { unfold Player.jumps in Hj. rewrite Hdead in Hj. discriminate Hj. }
  destruct (update_request_step deltaTime clock p Hdead)
    as (Hjump & Hwait & Hexp & Hidle).
  destruct (State.jumpRequested p) eqn:Hreq.
  2:{ destruct (Hidle eq_refl) as [H _]. congruence. }
  destruct (Rlt_dec (Player.atUpdate clock - State.jumpBufferTime p) 200)
    as [Hw | Hw].
  2:{ destruct (Hexp eq_refl) as [H _]; [lra | congruence]. }
  destruct (snd (Player.processJump (Player.atProcessJump clock)
                   (Player.trackGround (Player.atUpdate clock) p))) eqn:E.
  - apply processJump_succeeds in E.
    destruct (Hjump eq_refl Hw E) as (_ & _ & Ht & _). exact Ht.
  - assert (Hn : ~ Player.jumpConditions (Player.atProcessJump clock)
                     (Player.trackGround (Player.atUpdate clock) p)).
    { intros Hc. apply processJump_succeeds in Hc. congruence. }
    destruct (Hwait eq_refl Hw Hn) as [H _]. congruence.
Qed.

(** X21.  Two jumps are at least 100 ms apart: after an [update] that
    jumps, an [update] whose [processJump] would read the clock less than
    100 ms after the first one's does not jump, whatever happened to the
    player in between (a new press of [Space], a landing), as long as
    [lastJumpTime] was left alone. *)
Theorem jumps_100ms_apart (dt1 : R) (c1 c2 : Player.Clock)
    (between : State.Player -> State.Player) (p : State.Player) :
  Player.jumps c1 p = true ->
  (forall q, State.lastJumpTime (between q) = State.lastJumpTime q) ->
  Player.atProcessJump c2 - Player.atProcessJump c1 < 100 ->
  Player.jumps c2 (between (Player.update dt1 c1 p)) = false.
Proof.
  intros Hj Hkeep Hsoon. apply cooldown_blocks.
  rewrite Hkeep, (jump_sets_lastJumpTime dt1 c1 p Hj). exact Hsoon.
Qed.

(** X21 at the player who lands at 1050 with a buffered request and jumps:
    a new press at 1060 and an update at 1066 give no second jump. *)
Lemma jumps_100ms_apart_witness :
  Player.jumps (Sample.clockAt 1066)
    (Player.pressJump 1060
       (Player.update (1 / 60) (Sample.clockAt 1050)
          (Sample.landing Sample.fallingPlayer)))
  = false.
Proof.
  apply (jumps_100ms_apart (1 / 60) (Sample.clockAt 1050)
           (Sample.clockAt 1066) (Player.pressJump 1060)
           (Sample.landing Sample.fallingPlayer)).
  - unfold Player.jumps, Player.processJumpRequest, Player.processJump,
      Player.canFirstJump, Player.jumpBufferWindow, Player.coyoteTime.
    cbn. decide_tests. reflexivity.
  - intros q. reflexivity.
  - cbn. lra.
Defined.

(** X22.  Coyote time.  A live player with no jump made walks off a ledge:
    the first [update] that finds the body off the ground records its
    reading of the clock.  If [Space] is then pressed and the next [update]
    comes within the buffer window and outside the cooldown, with the body
    still in the air, that update jumps; the jump has the full [jumpForce]
    when [processJump] reads the clock less than 150 ms after the recorded
    time and 0.9 of it otherwise, and in both cases [jumpCount] becomes 1. *)
Theorem coyote_time_jump (dt1 dt2 t : R) (c1 c2 : Player.Clock)
    (p : State.Player) :
  State.isDead p = false ->
  State.onGround p = true ->
  Body.onGround (State.physicsBody p) = false ->
  State.jumpCount p = 0%nat ->
  State.jumpRequested p = false ->
  (1 <= State.maxJumps p)%nat ->
  Player.atUpdate c2 - t < 200 ->
  100 <= Player.atProcessJump c2 - State.lastJumpTime p ->
  let p1 := Player.update dt1 c1 p in
  let q := Player.pressJump t p1 in
  let p2 := Player.update dt2 c2 q in
  State.lastGroundedTime p1 = Player.atUpdate c1
  /\ Player.jumps c2 q = true
  /\ State.jumpCount p2 = 1%nat
  /\ Vector3.y (Body.velocity (State.physicsBody p2))
     = (if Player.atProcessJump c2 - Player.atUpdate c1 <? 150
        then Movement.jumpForce else Movement.jumpForce * 0.9).
Proof.
  intros Hdead Hg Hbg Hcount Hreq Hmax Hwin Hcool p1 q p2.
  (* the first update *)
  destruct (update_ground dt1 c1 p Hdead) as (Hb1 & Hg1 & Ht1).
  fold p1 in Hb1, Hg1, Ht1. rewrite Hbg, Hg in Ht1. cbn in Ht1.
  rewrite Hbg in Hb1, Hg1.
  assert (Hd1 : State.isDead p1 = false)
    by (subst p1; rewrite update_isDead; exact Hdead).
  assert (Hs1 : State.jumpCount p1 = 0%nat
                /\ State.maxJumps p1 = State.maxJumps p
                /\ State.lastJumpTime p1 = State.lastJumpTime p).
  { subst p1. unfold Player.update. rewrite Hdead.
    set (s := Player.trackGround (Player.atUpdate c1) p).
    destruct (trackGround_fields (Player.atUpdate c1) p)
      as (Hsc & _ & Hsr & _ & Hsm & Hsl & _).
    fold s in Hsc, Hsr, Hsm, Hsl. rewrite Hbg in Hsc. cbn in Hsc.
    rewrite (processJumpRequest_idle _ _ s) by (rewrite Hsr; exact Hreq).
    cbn [fst].
    pose proof (movement_update_jumpState dt1 (Player.atDetect c1) s) as Hm.
    unfold State.jumpState in Hm. injection Hm as _ _ Hc Hx _ Hl _ _.
    rewrite Hc, Hx, Hl, Hsc, Hsm, Hsl. auto. }
  destruct Hs1 as (Hc1 & Hm1 & Hl1).
  (* the second update *)
  assert (Hdq : State.isDead q = false) by exact Hd1.
  set (s := Player.trackGround (Player.atUpdate c2) q).
  destruct (trackGround_fields (Player.atUpdate c2) q)
    as (Hsc & Hsg & _ & _ & Hsm & Hsl & _).
  fold s in Hsc, Hsg, Hsm, Hsl.
  change (State.physicsBody q) with (State.physicsBody p1) in Hsc, Hsg.
  change (State.jumpCount q) with (State.jumpCount p1) in Hsc.
  change (State.maxJumps q) with (State.maxJumps p1) in Hsm.
  change (State.lastJumpTime q) with (State.lastJumpTime p1) in Hsl.
  rewrite Hb1 in Hsc, Hsg. cbn in Hsc. rewrite Hc1 in Hsc.
  assert (Hst : State.lastGroundedTime s = Player.atUpdate c1).
  { subst s. rewrite trackGround_lastGroundedTime.
    change (State.physicsBody q) with (State.physicsBody p1).
    change (State.onGround q) with (State.onGround p1).
    change (State.lastGroundedTime q) with (State.lastGroundedTime p1).
    rewrite Hb1, Hg1. exact Ht1. }
  assert (Hfirst : Player.canFirstJump (Player.atProcessJump c2) s
                   = (Player.atProcessJump c2 - Player.atUpdate c1 <? 150)).
  { unfold Player.canFirstJump, Player.coyoteTime. rewrite Hsg, Hst.
    reflexivity. }
  assert (Hcond : Player.jumpConditions (Player.atProcessJump c2) s).
  { split.
    - unfold Player.cooldownOver. rewrite Hsl, Hl1. exact Hcool.
    - destruct (Player.canFirstJump (Player.atProcessJump c2) s) eqn:E.
      + left. split; [apply canFirstJump_true; exact E | exact Hsc].
      + right. split.
        * intros H. apply canFirstJump_true in H. congruence.
        * rewrite Hsc, Hsm, Hm1. lia. }
  destruct (update_request_step dt2 c2 q Hdq) as (Hjump & _).
  destruct (Hjump eq_refl Hwin Hcond) as (Hj & _ & _ & Hv).
  fold s in Hv. fold p2 in Hv. rewrite Hfirst in Hv.
  split; [exact Ht1 | split; [exact Hj | split; [| exact Hv]]].
  subst p2. unfold Player.update. rewrite Hdq. fold s.
  pose proof (movement_update_jumpState dt2 (Player.atDetect c2)
                (fst (Player.processJumpRequest (Player.atUpdate c2)
                        (Player.atProcessJump c2) s))) as Hm.
  unfold State.jumpState in Hm. injection Hm as _ _ Hc _ _ _ _ _.
  rewrite Hc.
  destruct (processJumpRequest_fields (Player.atUpdate c2)
              (Player.atProcessJump c2) s) as (Hcnt & _).
  rewrite Hcnt, Hsc.
  unfold Player.jumps in Hj. rewrite Hdq in Hj. cbn [negb andb] in Hj.
  fold s in Hj. rewrite Hj. reflexivity.
Qed.

(** X22 at a player who steps off a ledge at the time 1000, presses [Space]
    at 1100 and is updated at 1116: a first jump at full force. *)
Lemma coyote_time_jump_witness :
  Vector3.y
    (Body.velocity
       (State.physicsBody
          (Player.update (1 / 60) (Sample.clockAt 1116)
             (Player.pressJump 1100
                (Player.update (1 / 60) (Sample.clockAt 1000)
                   Sample.ledgePlayer)))))
  = 7.5.
Proof.
  destruct (coyote_time_jump (1 / 60) (1 / 60) 1100 (Sample.clockAt 1000)
              (Sample.clockAt 1116) Sample.ledgePlayer)
    as (_ & _ & _ & H); try reflexivity.
  - cbn. lia.
  - cbn. lra.
  - cbn. lra.
  - rewrite H. cbn [Sample.clockAt Player.atProcessJump Player.atUpdate].
    decide_tests. unfold Movement.jumpForce. lra.
Defined.

(** ** [PhysicsWorld.clear] *)

(** X23.  [clear] leaves a world that holds the player's body, when there is
    a player, exactly once and nothing else: it is the empty world with the
    player's body added, also when the body was not in the world or was in
    it several times; removing that body then gives the empty world. *)
Theorem clear_keeps_player_only (playerBody : WorldRefs.Ref)
    (w : WorldRefs.t) :
  let w' := WorldRefs.clear (Some playerBody) w in
  w' = WorldRefs.addBody playerBody (WorldRefs.clear None w)
  /\ WorldRefs.dynamicObjects w' ++ WorldRefs.staticObjects w'
     = [WorldRefs.object w playerBody]
  /\ WorldRefs.removeBody playerBody w' = WorldRefs.clear None w
  /\ WorldRefs.dynamicObjects (WorldRefs.clear None w) = []
  /\ WorldRefs.staticObjects (WorldRefs.clear None w) = [].
Proof.
  unfold WorldRefs.clear, WorldRefs.addBody, WorldRefs.removeBody,
    WorldRefs.dynamicObjects, WorldRefs.staticObjects.
  cbn [WorldRefs.object WorldRefs.bodies WorldRefs.staticBodies].
  destruct (Body.isStatic (WorldRefs.object w playerBody));
    cbn [WorldRefs.indexOf WorldRefs.splice1 app map WorldRefs.object
         WorldRefs.bodies WorldRefs.staticBodies];
    rewrite Nat.eqb_refl; repeat split; reflexivity.
Qed.

(** ** [Zombie] *)

Lemma sqrt_ratio_pos (y x : R) :
  0 < x -> sqrt (1 + (y / x)²) = sqrt (x * x + y * y) / x.
Proof.
  intros Hx.
  assert (Hh : 0 < x * x + y * y) by nra.
  pose proof (sqrt_lt_R0 _ Hh) as Hs.
  rewrite <- (sqrt_square (sqrt (x * x + y * y) / x)).
  - f_equal. unfold Rsqr.
    replace (sqrt (x * x + y * y) / x * (sqrt (x * x + y * y) / x))
      with (sqrt (x * x + y * y) * sqrt (x * x + y * y) / (x * x))
      by (field; lra).
    rewrite sqrt_sqrt by lra. field. lra.
  - apply Rlt_le. apply Rdiv_lt_0_compat; assumption.
Qed.

Lemma sqrt_ratio_neg (y x : R) :
  x < 0 -> sqrt (1 + (y / x)²) = sqrt (x * x + y * y) / - x.
Proof.
  intros Hx.
  replace (y / x) with (- y / - x) by (field; lra).
  replace (x * x + y * y) with (- x * - x + - y * - y) by ring.
  apply sqrt_ratio_pos. lra.
Qed.

(** [Math.atan2(y, x)] is the angle of the point [(x, y)]. *)
Lemma atan2_sin_cos (y x : R) :
  x <> 0 \/ y <> 0 ->
  sin (JsMath.atan2 y x) = y / sqrt (x * x + y * y)
  /\ cos (JsMath.atan2 y x) = x / sqrt (x * x + y * y).
Proof.
  intros Hxy.
  assert (Hh : 0 < x * x + y * y) by (destruct Hxy; nra).
  pose proof (sqrt_lt_R0 _ Hh) as Hs.
  unfold JsMath.atan2.
  destruct (0 <? x) eqn:E1.
  { apply Rltb_true in E1.
    rewrite sin_atan, cos_atan, sqrt_ratio_pos by exact E1.
    split; field; lra. }
  apply Rltb_false in E1.
  destruct (x <? 0) eqn:E2.
  { apply Rltb_true in E2.
    destruct (0 <=? y).
    - rewrite neg_sin, neg_cos, sin_atan, cos_atan, sqrt_ratio_neg
        by exact E2.
      split; field; lra.
    - rewrite sin_minus, cos_minus, sin_PI, cos_PI, sin_atan, cos_atan,
        sqrt_ratio_neg by exact E2.
      split; field; lra. }
  apply Rltb_false in E2.
  assert (Hx : x = 0) by lra. subst x.
  replace (0 * 0 + y * y) with (y * y) in * by ring.
  destruct (0 <? y) eqn:E3.
  { apply Rltb_true in E3. rewrite sin_PI2, cos_PI2, sqrt_square by lra.
    split; field; lra. }
  apply Rltb_false in E3.
  destruct (y <? 0) eqn:E4.
  { apply Rltb_true in E4. rewrite sin_neg, cos_neg, sin_PI2, cos_PI2.
    replace (y * y) with (- y * - y) by ring. rewrite sqrt_square by lra.
    split; field; lra. }
  apply Rltb_false in E4. destruct Hxy; lra.
Qed.

(** The angle does not depend on the length of the vector. *)
Lemma atan2_scaled (y x k : R) :
  0 < k ->
  x <> 0 \/ y <> 0 ->
  sin (JsMath.atan2 (y * k) (x * k)) = y / sqrt (x * x + y * y)
  /\ cos (JsMath.atan2 (y * k) (x * k)) = x / sqrt (x * x + y * y).
Proof.
  intros Hk Hxy.
  assert (Hh : 0 < x * x + y * y) by (destruct Hxy; nra).
  pose proof (sqrt_lt_R0 _ Hh) as Hs.
  destruct (atan2_sin_cos (y * k) (x * k)) as [Hsin Hcos].
  { destruct Hxy; [left | right]; nra. }
  replace (x * k * (x * k) + y * k * (y * k))
    with ((x * x + y * y) * (k * k)) in Hsin, Hcos by ring.
  rewrite sqrt_mult, (sqrt_square k) in Hsin, Hcos by nra.
  rewrite Hsin, Hcos. split; field; lra.
Qed.

(** X24.  [lookAt(target)], for a zombie with a model and a target that is
    not straight above or below it, turns the zombie and its model to the
    angle [a] about y with [sin a = dx / h] and [cos a = dz / h], where
    [(dx, dz)] is the horizontal offset of the target and [h] its length:
    the zombie faces the target on the horizontal plane, whatever the
    difference in height.  Nothing else changes. *)
Theorem lookAt_faces_target (target : Vector3.t) (g : Zombie.Game)
    (m : Zombie.Model) :
  Zombie.object (Zombie.zombie g) = Some m ->
  let z := Zombie.zombie g in
  let dx := Vector3.x target - Vector3.x (Zombie.position z) in
  let dz := Vector3.z target - Vector3.z (Zombie.position z) in
  let h := sqrt (dx * dx + dz * dz) in
  dx <> 0 \/ dz <> 0 ->
  exists a,
    sin a = dx / h /\ cos a = dz / h
    /\ Zombie.exec (Zombie.lookAt target) g
       = Some (Zombie.mkGame
                 (Zombie.with_object (Zombie.with_rotationY z a)
                    (Some (Zombie.mkModel (Zombie.modelPosition m) a)))
                 (Zombie.player g) (Zombie.draws g) (Zombie.timers g)).
Proof.
  intros Hobj z dx dz h Hoff.
  set (d := Vector3.sub target (Zombie.position z)).
  assert (Hd : Vector3.lengthSq d <> 0).
  { unfold Vector3.lengthSq, d, Vector3.sub. cbn. fold dx dz.
    pose proof (Rle_0_sqr (Vector3.y target - Vector3.y (Zombie.position z)))
      as Q. unfold Rsqr in Q.
    destruct Hoff; nra. }
  assert (Hl : 0 < Vector3.length d).
  { unfold Vector3.length. apply sqrt_lt_R0.
    pose proof (lengthSq_nonneg d). lra. }
  exists (JsMath.atan2 (Vector3.x (Vector3.normalize d))
                       (Vector3.z (Vector3.normalize d))).
  rewrite normalize_scaled by exact Hd.
  unfold Vector3.multiplyScalar.
  cbn [Vector3.x Vector3.y Vector3.z].
  assert (Hk : 0 < 1 / Vector3.length d)
    by (apply Rdiv_lt_0_compat; lra).
  destruct (atan2_scaled (Vector3.x d) (Vector3.z d) (1 / Vector3.length d)
              Hk) as [Hsin Hcos].
  { unfold d, Vector3.sub. cbn. fold dx dz. tauto. }
  assert (Hh : sqrt (Vector3.z d * Vector3.z d + Vector3.x d * Vector3.x d)
               = h).
  { unfold h, d, Vector3.sub. cbn. fold dx dz. f_equal. ring. }
  rewrite Hh in Hsin, Hcos.
  split; [exact Hsin | split; [exact Hcos |]].
  unfold Zombie.exec, Zombie.lookAt, Zombie.bind, Zombie.getZ. fold z.
  cbn [Zombie.object Zombie.with_rotationY]. fold z in Hobj. rewrite Hobj.
  fold d. rewrite normalize_scaled by exact Hd.
  reflexivity.
Qed.

(** X24 at a zombie in [(5, 0, -5)] and a target in [(5, 2, 0)], straight
    along +z and higher up: the angle has sine 0 and cosine 1. *)
Lemma lookAt_faces_target_witness :
  exists a,
    sin a = 0 /\ cos a = 1
    /\ option_map (fun g => Zombie.rotationY (Zombie.zombie g))
         (Zombie.exec (Zombie.lookAt (Vector3.mk 5 2 0))
            (Sample.game Zombie.Chase (Vector3.mk 5 0 (-5))
               (Vector3.mk 5 2 0)))
       = Some a.
Proof.
  destruct (lookAt_faces_target (Vector3.mk 5 2 0)
              (Sample.game Zombie.Chase (Vector3.mk 5 0 (-5))
                 (Vector3.mk 5 2 0))
              (Zombie.mkModel (Vector3.mk 5 0 (-5)) 0) eq_refl)
    as (a & Hs & Hc & He).
  - right. cbn. lra.
  - exists a. rewrite He. cbn in Hs, Hc.
    replace ((5 - 5) * (5 - 5) + (0 - -5) * (0 - -5)) with (5 * 5) in Hs, Hc
      by lra.
    rewrite sqrt_square in Hs, Hc by lra.
    split; [rewrite Hs; lra | split; [rewrite Hc; lra | reflexivity]].
Defined.

(** Unfold the methods of [Zombie] and the monad. *)
Ltac zunfold :=
  unfold Zombie.exec, Zombie.update, Zombie.processIdleState,
    Zombie.processChaseState, Zombie.processAttackState,
    Zombie.processDeathState, Zombie.takeDamage, Zombie.changeState,
    Zombie.playAnimation, Zombie.lookAt, Zombie.attack, Zombie.bind,
    Zombie.ret, Zombie.throw, Zombie.getZ, Zombie.setZ, Zombie.getGame,
    Zombie.setPlayer, Zombie.startTimer, Zombie.mathRandom.

(** Read the fields of the records built so far. *)
Ltac zstep :=
  cbn [Zombie.zombie Zombie.player Zombie.draws Zombie.timers
       Zombie.position Zombie.rotationY Zombie.enabled Zombie.state
       Zombie.health Zombie.lastAttackTime Zombie.timeSinceLastStateChange
       Zombie.isAlive Zombie.physicsBody Zombie.object Zombie.hasMixer
       Zombie.animations Zombie.currentAnimation
       Zombie.with_position Zombie.with_rotationY Zombie.with_state
       Zombie.with_health Zombie.with_lastAttackTime Zombie.with_isAlive
       Zombie.with_physicsBody Zombie.with_object
       Zombie.with_currentAnimation Zombie.StateName_eqb negb andb orb
       fst snd].

(** Follow the method along every test that is still open. *)
Ltac zcases :=
  repeat (match goal with
          | |- context [if ?c then _ else _] =>
              lazymatch c with
              | context [if _ then _ else _] => fail
              | _ => destruct c eqn:?
              end
          | |- context [match Player.takeDamage ?a ?b ?c ?d with _ => _ end] =>
              destruct (Player.takeDamage a b c d) as [[? ?] [? |]] eqn:?
          end; zstep).

(** X26.  The states of a zombie with a model, enabled, when there is a
    player at the distance [d] from the zombie's body: one [update] returns
    and leaves the state [death] if the health is 0 or less; otherwise
    [idle] becomes [chase] under the detection range of 15, [chase] becomes
    [idle] beyond 1.5 times that range and [attack] under the attack range
    of 1.8, and [attack] becomes [chase] beyond 1.2 times the attack range;
    in all other cases the state stays. *)
Theorem update_transitions (random : nat -> R) (deltaTime : R)
    (clock : Zombie.Clock) (g : Zombie.Game) (m : Zombie.Model)
    (p : State.Player) (v : State.Vitals) :
  Zombie.object (Zombie.zombie g) = Some m ->
  Zombie.enabled (Zombie.zombie g) = true ->
  Zombie.player g = Some (p, v) ->
  let z := Zombie.zombie g in
  let d := Vector3.distanceTo (Body.position (Zombie.physicsBody z))
             (State.position p) in
  exists g',
    Zombie.exec (Zombie.update random deltaTime clock) g = Some g'
    /\ Zombie.state (Zombie.zombie g')
       = if Zombie.health z <=? 0 then Zombie.Death
         else match Zombie.state z with
              | Zombie.Idle =>
                  if d <? Zombie.detectionRange then Zombie.Chase
                  else Zombie.Idle
              | Zombie.Chase =>
                  if Zombie.detectionRange * 1.5 <? d then Zombie.Idle
                  else if d <? Zombie.attackRange then Zombie.Attack
                  else Zombie.Chase
              | Zombie.Attack =>
                  if Zombie.attackRange * 1.2 <? d then Zombie.Chase
                  else Zombie.Attack
              | Zombie.Death => Zombie.Death
              end.
Proof.
  intros Ho He Hp z d. subst z d.
  destruct g as [z pl dr tm].
  destruct z as [pos rot en st h la ts al body obj mix anims cur].
  cbn in Ho, He, Hp. subst obj en pl. zstep.
  destruct (h <=? 0) eqn:Eh;
    destruct st; zunfold; zstep; rewrite ?Eh; zstep;
    repeat (match goal with
            | |- context [if ?c then _ else _] =>
                lazymatch c with
                | context [if _ then _ else _] => fail
                | _ => destruct c eqn:?
                end
            | |- context [match Player.takeDamage ?a ?b ?c ?d with _ => _ end] =>
                destruct (Player.takeDamage a b c d) as [[? ?] [? |]]
            end; zstep; rewrite ?Eh; zstep);
    first [ eexists; split; reflexivity
          | exfalso; cbn in *; congruence ].
Qed.

(** X26 at a chasing zombie 10 units from the player: it goes on chasing. *)
Lemma update_transitions_witness :
  exists g',
    Zombie.exec (Zombie.update Sample.random (1 / 60) (Zombie.mkClock 0 0))
      (Sample.game Zombie.Chase (Vector3.mk 10 0 0) (Vector3.mk 0 0 0))
    = Some g'
    /\ Zombie.state (Zombie.zombie g') = Zombie.Chase.
Proof.
  destruct (update_transitions Sample.random (1 / 60) (Zombie.mkClock 0 0)
              (Sample.game Zombie.Chase (Vector3.mk 10 0 0)
                 (Vector3.mk 0 0 0))
              (Zombie.mkModel (Vector3.mk 10 0 0) 0)
              (State.with_playerPosition Sample.standingPlayer
                 (Vector3.mk 0 0 0))
              (State.mkVitals 100 100 0) eq_refl eq_refl eq_refl)
    as (g' & He & Hs).
  exists g'. split; [exact He |]. rewrite Hs.
  assert (Hd : Vector3.distanceTo (Vector3.mk 10 0 0) (Vector3.mk 0 0 0) = 10).
  { rewrite distanceTo_length. apply length_of_sq; [lra |]. vec. lra. }
  cbn [Sample.game Sample.zombieAt Sample.zombieBody Zombie.zombie
       Zombie.health Zombie.state Zombie.physicsBody Body.position
       State.position State.with_playerPosition].
  rewrite Hd. unfold Zombie.detectionRange, Zombie.attackRange.
  decide_tests. reflexivity.
Defined.

(** The same, with the equation [E] used wherever its test comes up. *)
Ltac zcases_with E :=
  repeat first
    [ rewrite E; zstep
    | match goal with
      | |- context [if ?c then _ else _] =>
          lazymatch c with
          | context [if _ then _ else _] => fail
          | _ => destruct c eqn:?
          end
      | |- context [match Player.takeDamage ?a ?b ?c ?d with _ => _ end] =>
          destruct (Player.takeDamage a b c d) as [[? ?] [? |]] eqn:?
      end; zstep ].

Lemma distance_direction (a b : Vector3.t) :
  0 < Vector3.distanceTo a b ->
  Vector3.normalize (Vector3.sub b a)
  = Vector3.multiplyScalar (Vector3.sub b a) (1 / Vector3.distanceTo a b).
Proof.
  intros Hd. rewrite distanceTo_sym in *. rewrite distanceTo_length in *.
  apply normalize_scaled. intros H0. unfold Vector3.length in Hd.
  rewrite H0, sqrt_0 in Hd. lra.
Qed.

(** X25.  A chasing zombie with positive health, between the attack range
    and 1.5 times the detection range from the player, sets the horizontal
    velocity of its body to the x and z of [direction * speed * 60 *
    deltaTime], where [direction] is the unit vector from its body to the
    player in space and [speed] is 4.5 under half the detection range and
    2.0 otherwise; for a frame time that is not negative the horizontal
    speed is therefore at most [speed * 60 * deltaTime], which is [speed]
    at 60 frames per second.  The vertical velocity, the state and the
    player are left alone. *)
Theorem update_chase_velocity (random : nat -> R) (deltaTime : R)
    (clock : Zombie.Clock) (g : Zombie.Game) (m : Zombie.Model)
    (p : State.Player) (v : State.Vitals) :
  Zombie.object (Zombie.zombie g) = Some m ->
  Zombie.enabled (Zombie.zombie g) = true ->
  Zombie.state (Zombie.zombie g) = Zombie.Chase ->
  Zombie.player g = Some (p, v) ->
  0 < Zombie.health (Zombie.zombie g) ->
  let body := Zombie.physicsBody (Zombie.zombie g) in
  let d := Vector3.distanceTo (Body.position body) (State.position p) in
  Zombie.attackRange <= d <= Zombie.detectionRange * 1.5 ->
  let speed := if d <? Zombie.detectionRange * 0.5 then Zombie.runSpeed
               else Zombie.walkSpeed in
  exists g',
    Zombie.exec (Zombie.update random deltaTime clock) g = Some g'
    /\ (let v' := Body.velocity (Zombie.physicsBody (Zombie.zombie g')) in
        Vector3.x v'
        = (Vector3.x (State.position p) - Vector3.x (Body.position body)) / d
          * (speed * 60 * deltaTime)
        /\ Vector3.z v'
           = (Vector3.z (State.position p) - Vector3.z (Body.position body))
             / d * (speed * 60 * deltaTime)
        /\ Vector3.y v' = Vector3.y (Body.velocity body)
        /\ (0 <= deltaTime ->
            sqrt (Vector3.x v' * Vector3.x v' + Vector3.z v' * Vector3.z v')
            <= speed * 60 * deltaTime))
    /\ Zombie.state (Zombie.zombie g') = Zombie.Chase
    /\ Zombie.player g' = Zombie.player g.
Proof.
  intros Ho He Hs Hp Hh body d Hd speed.
  destruct g as [z pl dr tm].
  destruct z as [pos rot en st h la ts al bd obj mix anims cur].
  cbn in Ho, He, Hs, Hp, Hh, body. subst obj en st pl body.
  assert (Hdpos : 0 < d) by (unfold Zombie.attackRange in Hd; lra).
  pose proof (distance_direction (Body.position bd) (State.position p) Hdpos)
    as Hdir. fold d in Hdir.
  assert (Hspeed : 0 < speed).
  { subst speed. unfold Zombie.runSpeed, Zombie.walkSpeed.
    destruct (_ <? _); lra. }
  zunfold; zstep. fold d.
  replace (Zombie.detectionRange * 1.5 <? d) with false
    by (symmetry; apply Rltb_false; lra).
  replace (d <? Zombie.attackRange) with false
    by (symmetry; apply Rltb_false; lra).
  zstep. fold speed. rewrite Hdir.
  assert (Eh : (h <=? 0) = false) by (apply Rleb_false; lra).
  assert (Hfin : forall z0 : Zombie.t,
             Zombie.state z0 = Zombie.Chase ->
             (let v' := Body.velocity (Zombie.physicsBody z0) in
              Vector3.x v'
              = (Vector3.x (State.position p) - Vector3.x (Body.position bd))
                / d * (speed * 60 * deltaTime)
              /\ Vector3.z v'
                 = (Vector3.z (State.position p)
                    - Vector3.z (Body.position bd))
                   / d * (speed * 60 * deltaTime)
              /\ Vector3.y v' = Vector3.y (Body.velocity bd)) ->
             forall dr0 : nat,
             exists g',
               Some (Zombie.mkGame z0 (Some (p, v)) dr0 tm) = Some g'
               /\ (let v' := Body.velocity
                               (Zombie.physicsBody (Zombie.zombie g')) in
                   Vector3.x v'
                   = (Vector3.x (State.position p)
                      - Vector3.x (Body.position bd))
                     / d * (speed * 60 * deltaTime)
                   /\ Vector3.z v'
                      = (Vector3.z (State.position p)
                         - Vector3.z (Body.position bd))
                        / d * (speed * 60 * deltaTime)
                   /\ Vector3.y v' = Vector3.y (Body.velocity bd)
                   /\ (0 <= deltaTime ->
                       sqrt (Vector3.x v' * Vector3.x v'
                             + Vector3.z v' * Vector3.z v')
                       <= speed * 60 * deltaTime))
               /\ Zombie.state (Zombie.zombie g') = Zombie.Chase
               /\ Zombie.player g' = Some (p, v)).
  { intros z0 Hst (Hx & Hz & Hy) dr0. eexists. split; [reflexivity |].
    zstep. split; [| split; [exact Hst | reflexivity]].
    split; [exact Hx | split; [exact Hz | split; [exact Hy |]]].
    intros Hdt. rewrite Hx, Hz.
    set (dx := Vector3.x (State.position p) - Vector3.x (Body.position bd)).
    set (dz := Vector3.z (State.position p) - Vector3.z (Body.position bd)).
    set (k := speed * 60 * deltaTime).
    assert (Hk : 0 <= k) by (subst k; nra).
    assert (Hdd : dx * dx + dz * dz <= d * d).
    { pose proof (Rle_0_sqr (Vector3.x (Body.position bd)
                             - Vector3.x (State.position p))) as Qx.
      pose proof (Rle_0_sqr (Vector3.y (Body.position bd)
                             - Vector3.y (State.position p))) as Qy.
      pose proof (Rle_0_sqr (Vector3.z (Body.position bd)
                             - Vector3.z (State.position p))) as Qz.
      unfold Rsqr in Qx, Qy, Qz.
      unfold d, Vector3.distanceTo. rewrite sqrt_sqrt by lra.
      unfold dx, dz. lra. }
    pose proof (Rle_0_sqr (dx / d * k)) as Q1. unfold Rsqr in Q1.
    pose proof (Rle_0_sqr (dz / d * k)) as Q2. unfold Rsqr in Q2.
    pose proof (Rle_0_sqr k) as Q3. unfold Rsqr in Q3.
    apply Rle_trans with (sqrt (k * k));
      [| rewrite sqrt_square by exact Hk; lra].
    apply sqrt_le_1; [lra | lra |].
    replace (dx / d * k * (dx / d * k) + dz / d * k * (dz / d * k))
      with ((dx * dx + dz * dz) / (d * d) * (k * k)) by (field; lra).
    apply Rle_trans with (1 * (k * k)); [| lra].
    apply Rmult_le_compat_r; [exact Q3 |].
    apply Rmult_le_reg_r with (d * d); [nra |].
    replace ((dx * dx + dz * dz) / (d * d) * (d * d))
      with (dx * dx + dz * dz) by (field; lra).
    lra. }
  zcases_with Eh; apply Hfin; zstep;
    first [ reflexivity
          | split; [| split];
            unfold Vector3.multiplyScalar, Vector3.sub, Vector3.set_x,
              Vector3.set_z;
            cbn [Vector3.x Vector3.y Vector3.z Body.velocity
                 Body.with_velocity];
            first [ reflexivity | field; lra ] ].
Qed.

Lemma distance_sample_10 :
  Vector3.distanceTo (Vector3.mk 10 0 0) (Vector3.mk 0 0 0) = 10.
Proof. rewrite distanceTo_length. apply length_of_sq; [lra |]. vec. lra. Qed.

(** X25 at a zombie 10 units from the player along x, at 60 frames per
    second: it walks towards the player at 2 units per second. *)
Lemma update_chase_velocity_witness :
  exists g',
    Zombie.exec (Zombie.update Sample.random (1 / 60) (Zombie.mkClock 0 0))
      (Sample.game Zombie.Chase (Vector3.mk 10 0 0) (Vector3.mk 0 0 0))
    = Some g'
    /\ Vector3.x (Body.velocity (Zombie.physicsBody (Zombie.zombie g')))
       = -2.
Proof.
  destruct (update_chase_velocity Sample.random (1 / 60)
              (Zombie.mkClock 0 0)
              (Sample.game Zombie.Chase (Vector3.mk 10 0 0)
                 (Vector3.mk 0 0 0))
              (Zombie.mkModel (Vector3.mk 10 0 0) 0)
              (State.with_playerPosition Sample.standingPlayer
                 (Vector3.mk 0 0 0))
              (State.mkVitals 100 100 0) eq_refl eq_refl eq_refl eq_refl)
    as (g' & He & (Hx & _) & _).
  - cbn. lra.
  - cbn [Sample.game Sample.zombieAt Sample.zombieBody Zombie.zombie
         Zombie.physicsBody Body.position State.position
         State.with_playerPosition].
    rewrite distance_sample_10.
    unfold Zombie.attackRange, Zombie.detectionRange. lra.
  - exists g'. split; [exact He |]. rewrite Hx.
    cbn [Sample.game Sample.zombieAt Sample.zombieBody Zombie.zombie
         Zombie.physicsBody Body.position State.position
         State.with_playerPosition Vector3.x].
    rewrite distance_sample_10.
    unfold Zombie.detectionRange, Zombie.walkSpeed. decide_tests. lra.
Defined.

(** X27.  A zombie in the state [attack] with positive health, within 1.2
    times the attack range of the player and more than [attackCooldown]
    = 1.2 s after its last attack, attacks in this [update]: it records the
    time in seconds and calls the player's [takeDamage] with 20.  A live
    player whose last damage is at least 500 ms old loses 20 of health, or
    dies with health 0 if 20 or less was left, in which case the timer of
    the respawn is started.  The zombie stays in [attack]. *)
Theorem update_attack_hits (random : nat -> R) (deltaTime : R)
    (clock : Zombie.Clock) (g : Zombie.Game) (m : Zombie.Model)
    (p : State.Player) (v : State.Vitals) :
  Zombie.object (Zombie.zombie g) = Some m ->
  Zombie.enabled (Zombie.zombie g) = true ->
  Zombie.state (Zombie.zombie g) = Zombie.Attack ->
  Zombie.player g = Some (p, v) ->
  0 < Zombie.health (Zombie.zombie g) ->
  Vector3.distanceTo (Body.position (Zombie.physicsBody (Zombie.zombie g)))
    (State.position p) <= Zombie.attackRange * 1.2 ->
  Zombie.attackCooldown
  < Zombie.atAttack clock / 1000 - Zombie.lastAttackTime (Zombie.zombie g) ->
  let r := Player.takeDamage (Zombie.atDamage clock) Zombie.damage p v in
  exists g',
    Zombie.exec (Zombie.update random deltaTime clock) g = Some g'
    /\ Zombie.lastAttackTime (Zombie.zombie g') = Zombie.atAttack clock / 1000
    /\ Zombie.state (Zombie.zombie g') = Zombie.Attack
    /\ Zombie.player g' = Some (fst (fst r), snd (fst r))
    /\ Zombie.timers g'
       = Zombie.timers g
         ++ match snd r with
            | Some delay => [(Zombie.respawnPlayer, delay)]
            | None => []
            end
    /\ (State.isDead p = false ->
        500 <= Zombie.atDamage clock - State.lastDamageTime v ->
        State.health (snd (fst r))
        = (if State.health v - 20 <=? 0 then 0 else State.health v - 20)
        /\ State.isDead (fst (fst r)) = (State.health v - 20 <=? 0)).
Proof.
  intros Ho He Hs Hp Hh Hd Hcool r.
  destruct g as [z pl dr tm].
  destruct z as [pos rot en st h la ts al bd obj mix anims cur].
  cbn in Ho, He, Hs, Hp, Hh, Hd, Hcool. subst obj en st pl.
  assert (Eh : (h <=? 0) = false) by (apply Rleb_false; lra).
  zunfold; zstep.
  replace (Zombie.attackRange * 1.2
           <? Vector3.distanceTo (Body.position bd) (State.position p))
    with false by (symmetry; apply Rltb_false; exact Hd).
  zstep.
  replace (Zombie.attackCooldown <? Zombie.atAttack clock / 1000 - la)
    with true by (symmetry; apply Rltb_true; exact Hcool).
  zstep. fold r.
  assert (Hlast : State.isDead p = false ->
                  500 <= Zombie.atDamage clock - State.lastDamageTime v ->
                  State.health (snd (fst r))
                  = (if State.health v - 20 <=? 0 then 0
                     else State.health v - 20)
                  /\ State.isDead (fst (fst r)) = (State.health v - 20 <=? 0)).
  { intros Halive Hvul. subst r.
    unfold Player.takeDamage, Player.invulnerabilityDuration, Zombie.damage.
    replace (Zombie.atDamage clock - State.lastDamageTime v <? 500)
      with false by (symmetry; apply Rltb_false; exact Hvul).
    rewrite Halive. cbn [State.health State.maxHealth State.lastDamageTime].
    destruct (State.health v - 20 <=? 0).
    - unfold Player.die. rewrite Halive. split; reflexivity.
    - cbn [fst snd]. split; [reflexivity | exact Halive]. }
  destruct r as [[p1 v1] [delay |]]; zstep;
    zcases_with Eh;
    (eexists; split; [reflexivity |]; zstep;
     repeat split; try reflexivity; try exact Hlast;
     try (symmetry; apply app_nil_r); apply Hlast; assumption).
Qed.

(** X27 at a zombie next to a full-health player, at the time 5 s: the
    player is left with 80. *)
Lemma update_attack_hits_witness :
  exists g',
    Zombie.exec
      (Zombie.update Sample.random (1 / 60) (Zombie.mkClock 5000 5000))
      (Sample.game Zombie.Attack (Vector3.mk 1 0 0) (Vector3.mk 0 0 0))
    = Some g'
    /\ option_map (fun pv => State.health (snd pv)) (Zombie.player g')
       = Some 80.
Proof.
  assert (Hd : Vector3.distanceTo (Vector3.mk 1 0 0) (Vector3.mk 0 0 0) = 1).
  { rewrite distanceTo_length. apply length_of_sq; [lra |]. vec. lra. }
  destruct (update_attack_hits Sample.random (1 / 60)
              (Zombie.mkClock 5000 5000)
              (Sample.game Zombie.Attack (Vector3.mk 1 0 0)
                 (Vector3.mk 0 0 0))
              (Zombie.mkModel (Vector3.mk 1 0 0) 0)
              (State.with_playerPosition Sample.standingPlayer
                 (Vector3.mk 0 0 0))
              (State.mkVitals 100 100 0) eq_refl eq_refl eq_refl eq_refl)
    as (g' & He & _ & _ & Hp & _ & Hh).
  - cbn. lra.
  - cbn [Sample.game Sample.zombieAt Sample.zombieBody Zombie.zombie
         Zombie.physicsBody Body.position State.position
         State.with_playerPosition].
    rewrite Hd. unfold Zombie.attackRange. lra.
  - unfold Zombie.attackCooldown. cbn. lra.
  - exists g'. split; [exact He |]. rewrite Hp. cbn [option_map snd].
    destruct Hh as [Hh _]; [reflexivity | cbn; lra |].
    rewrite Hh. cbn [State.health]. decide_tests. f_equal. lra.
Defined.

(** An [update] returns, and either leaves the player and the time of the
    last attack alone or attacks, which it only does outside the
    cooldown. *)
Lemma update_attack_frame (random : nat -> R) (deltaTime : R)
    (clock : Zombie.Clock) (g : Zombie.Game) :
  exists g',
    Zombie.exec (Zombie.update random deltaTime clock) g = Some g'
    /\ (Zombie.player g' = Zombie.player g
        /\ (Zombie.timers g' = Zombie.timers g
            \/ Zombie.timers g'
               = Zombie.timers g ++ [(Zombie.removeEntity, 3000)])
        /\ Zombie.lastAttackTime (Zombie.zombie g')
           = Zombie.lastAttackTime (Zombie.zombie g)
        \/ Zombie.attackCooldown
           < Zombie.atAttack clock / 1000
             - Zombie.lastAttackTime (Zombie.zombie g)
           /\ Zombie.lastAttackTime (Zombie.zombie g')
              = Zombie.atAttack clock / 1000).
Proof.
  destruct g as [z pl dr tm].
  destruct z as [pos rot en st h la ts al bd obj mix anims cur].
  destruct obj as [m |];
    [| eexists; split; [reflexivity |]; left; zstep; auto].
  destruct en; [| eexists; split; [reflexivity |]; left; zstep; auto].
  destruct pl as [[p v] |];
    destruct st; zunfold; zstep;
    repeat (match goal with
            | |- context [if ?c then _ else _] =>
                lazymatch c with
                | context [if _ then _ else _] => fail
                | _ => destruct c eqn:?
                end
            | |- context [match Player.takeDamage ?a ?b ?c ?d with _ => _ end] =>
                destruct (Player.takeDamage a b c d) as [[? ?] [? |]]
            end; zstep);
    (eexists; split; [reflexivity |]; zstep;
     first [ left; split; [reflexivity | split; [left; reflexivity
                                                | reflexivity]]
           | left; split; [reflexivity | split; [right; reflexivity
                                                | reflexivity]]
           | right; split; [apply Rltb_true; assumption | reflexivity] ]).
Qed.

(** X28.  The attacks of a zombie are more than [attackCooldown] = 1.2 s
    apart: after an [update] that changed the player, an [update] whose
    reading of the clock is at most 1.2 s later returns and leaves the
    player alone, whatever happened in between, as long as
    [lastAttackTime] was not written. *)
Theorem zombie_attacks_spaced (random : nat -> R) (dt1 dt2 : R)
    (c1 c2 : Zombie.Clock) (between : Zombie.Game -> Zombie.Game)
    (g g1 : Zombie.Game) :
  Zombie.exec (Zombie.update random dt1 c1) g = Some g1 ->
  Zombie.player g1 <> Zombie.player g ->
  (forall x, Zombie.lastAttackTime (Zombie.zombie (between x))
             = Zombie.lastAttackTime (Zombie.zombie x)) ->
  Zombie.atAttack c2 / 1000 - Zombie.atAttack c1 / 1000
  <= Zombie.attackCooldown ->
  exists g2,
    Zombie.exec (Zombie.update random dt2 c2) (between g1) = Some g2
    /\ Zombie.player g2 = Zombie.player (between g1)
    /\ Zombie.lastAttackTime (Zombie.zombie g2) = Zombie.atAttack c1 / 1000.
Proof.
  intros He Hhit Hkeep Hsoon.
  destruct (update_attack_frame random dt1 c1 g) as (g1' & He' & Hf).
  rewrite He in He'. injection He' as <-.
  destruct Hf as [(Hsame & _) | (_ & Hlast)]; [contradiction |].
  destruct (update_attack_frame random dt2 c2 (between g1))
    as (g2 & He2 & Hf2).
  exists g2. split; [exact He2 |]. rewrite Hkeep, Hlast in Hf2.
  destruct Hf2 as [(Hsame & _ & Ht) | (Hcool & _)]; [auto | lra].
Qed.

(** The zombie of X27's example attacks and leaves the player with 80. *)
Lemma sample_attack :
  exists g1,
    Zombie.exec
      (Zombie.update Sample.random (1 / 60) (Zombie.mkClock 5000 5000))
      (Sample.game Zombie.Attack (Vector3.mk 1 0 0) (Vector3.mk 0 0 0))
    = Some g1
    /\ option_map (fun pv => State.health (snd pv)) (Zombie.player g1)
       = Some (100 - 20).
Proof.
  assert (Hd : Vector3.distanceTo (Vector3.mk 1 0 0) (Vector3.mk 0 0 0) = 1).
  { rewrite distanceTo_length. apply length_of_sq; [lra |]. vec. lra. }
  assert (Htd : Player.takeDamage 5000 Zombie.damage
                  (State.with_playerPosition Sample.standingPlayer
                     (Vector3.mk 0 0 0))
                  (State.mkVitals 100 100 0)
                = (State.with_playerPosition Sample.standingPlayer
                     (Vector3.mk 0 0 0),
                   State.mkVitals (100 - 20) 100 5000, None)).
  { unfold Player.takeDamage, Player.invulnerabilityDuration, Zombie.damage.
    cbn [State.lastDamageTime State.health State.maxHealth].
    decide_tests. reflexivity. }
  unfold Sample.game, Sample.zombieAt, Sample.zombieBody.
  zunfold; zstep.
  cbn [Body.position State.position State.with_playerPosition
       Zombie.atAttack Zombie.atDamage].
  rewrite Hd. unfold Zombie.attackRange, Zombie.attackCooldown.
  repeat first [ rewrite Htd | progress decide_tests | progress zstep ].
  eexists. split; reflexivity.
Qed.

(** X28 at that zombie: an update 1 s after the attack does not hurt the
    player again. *)
Lemma zombie_attacks_spaced_witness :
  exists g1 g2,
    Zombie.exec
      (Zombie.update Sample.random (1 / 60) (Zombie.mkClock 5000 5000))
      (Sample.game Zombie.Attack (Vector3.mk 1 0 0) (Vector3.mk 0 0 0))
    = Some g1
    /\ Zombie.exec
         (Zombie.update Sample.random (1 / 60) (Zombie.mkClock 6000 6000)) g1
       = Some g2
    /\ Zombie.player g2 = Zombie.player g1.
Proof.
  destruct sample_attack as (g1 & He & Hp).
  destruct (zombie_attacks_spaced Sample.random (1 / 60) (1 / 60)
              (Zombie.mkClock 5000 5000) (Zombie.mkClock 6000 6000)
              (fun x => x) _ g1 He) as (g2 & He2 & Hp2 & _).
  - intros Heq. rewrite Heq in Hp. cbn in Hp. injection Hp as Hp. lra.
  - reflexivity.
  - unfold Zombie.attackCooldown. cbn. lra.
  - exists g1, g2. auto.
Defined.

(** X29.  The death of a zombie.  Damage that brings the health of a zombie
    that is still [isAlive] to 0 or less puts it in the state [death], and,
    if it was in another state, stops its body and restarts the time since
    the last change of state.  The state [death] is never left by [update]
    or [takeDamage], which still lowers the health until [isAlive] is
    cleared; after that [takeDamage] does nothing.  None of this touches the
    player. *)
Theorem zombie_death (random : nat -> R) (g : Zombie.Game) :
  let z := Zombie.zombie g in
  (forall amount,
      Zombie.isAlive z = true ->
      exists g',
        Zombie.exec (Zombie.takeDamage random amount) g = Some g'
        /\ Zombie.health (Zombie.zombie g') = Zombie.health z - amount
        /\ Zombie.player g' = Zombie.player g
        /\ (Zombie.health z - amount <= 0 \/ Zombie.state z = Zombie.Death ->
            Zombie.state (Zombie.zombie g') = Zombie.Death)
        /\ (Zombie.health z - amount <= 0 ->
            Zombie.state z <> Zombie.Death ->
            Body.velocity (Zombie.physicsBody (Zombie.zombie g'))
            = Vector3.mk 0 0 0
            /\ Zombie.timeSinceLastStateChange (Zombie.zombie g') = 0)
        /\ (0 < Zombie.health z - amount ->
            Zombie.state (Zombie.zombie g') = Zombie.state z))
  /\ (forall amount,
         Zombie.isAlive z = false ->
         Zombie.exec (Zombie.takeDamage random amount) g = Some g)
  /\ (forall deltaTime clock,
         Zombie.state z = Zombie.Death ->
         exists g',
           Zombie.exec (Zombie.update random deltaTime clock) g = Some g'
           /\ Zombie.state (Zombie.zombie g') = Zombie.Death
           /\ Zombie.health (Zombie.zombie g') = Zombie.health z
           /\ Zombie.physicsBody (Zombie.zombie g') = Zombie.physicsBody z
           /\ Zombie.player g' = Zombie.player g).
Proof.
  intros z. subst z.
  destruct g as [z pl dr tm].
  destruct z as [pos rot en st h la ts al bd obj mix anims cur].
  zstep. split; [| split].
  - intros amount Ha. subst al.
    destruct (h - amount <=? 0) eqn:Eh;
      [apply Rleb_true in Eh | apply Rleb_false in Eh];
      destruct st; zunfold; zstep;
      repeat (match goal with
              | |- context [if ?c then _ else _] =>
                  lazymatch c with
                  | context [if _ then _ else _] => fail
                  | _ => destruct c eqn:?
                  end
              end; zstep);
      try (eexists; split; [reflexivity |]; zstep;
           repeat split; try reflexivity;
           try (intros; reflexivity);
           try (intros [? | ?]; [lra | discriminate]);
           try (intros; exfalso; lra);
           try (intros ? Hne; exfalso; apply Hne; reflexivity);
           try (intros; congruence));
      try (exfalso;
           match goal with
           | H : (_ <=? _) = true |- _ => apply Rleb_true in H; lra
           | H : (_ <=? _) = false |- _ => apply Rleb_false in H; lra
           end).
  - intros amount Ha. subst al. zunfold; zstep. reflexivity.
  - intros deltaTime clock Hs. subst st.
    destruct obj as [m |];
      [| eexists; split; [reflexivity |]; zstep; auto].
    destruct en; [| eexists; split; [reflexivity |]; zstep; auto].
    zunfold; zstep.
    repeat (match goal with
            | |- context [if ?c then _ else _] =>
                lazymatch c with
                | context [if _ then _ else _] => fail
                | _ => destruct c eqn:?
                end
            end; zstep);
      first [ eexists; split; [reflexivity |]; zstep; auto
            | exfalso; rewrite ?andb_false_r in *; congruence ].
Qed.

(** X29 at a new zombie hit for 120: dead, and at rest. *)
Lemma zombie_death_witness :
  exists g',
    Zombie.exec (Zombie.takeDamage Sample.random 120)
      (Sample.game Zombie.Chase (Vector3.mk 10 0 0) (Vector3.mk 0 0 0))
    = Some g'
    /\ Zombie.state (Zombie.zombie g') = Zombie.Death
    /\ Body.velocity (Zombie.physicsBody (Zombie.zombie g'))
       = Vector3.mk 0 0 0.
Proof.
  destruct (zombie_death Sample.random
              (Sample.game Zombie.Chase (Vector3.mk 10 0 0)
                 (Vector3.mk 0 0 0))) as (Hdmg & _).
  destruct (Hdmg 120 eq_refl) as (g' & He & _ & _ & Hst & Hstop & _).
  exists g'. split; [exact He |]. split.
  - apply Hst. left. cbn. lra.
  - apply Hstop; [cbn; lra | discriminate].
Defined.

(** X30.  A dead zombie asks for its removal once.  In the state [death],
    an [update] of a zombie with a model adds [deltaTime] to the time since
    the change of state; when that time is above 2.0 and [isAlive] is still
    set, it clears [isAlive] and starts one timer of 3000 ms for the
    removal; with [isAlive] clear it starts none and [isAlive] stays
    clear. *)
Theorem zombie_removal_once (random : nat -> R) (deltaTime : R)
    (clock : Zombie.Clock) (g : Zombie.Game) (m : Zombie.Model) :
  Zombie.object (Zombie.zombie g) = Some m ->
  Zombie.enabled (Zombie.zombie g) = true ->
  Zombie.state (Zombie.zombie g) = Zombie.Death ->
  let z := Zombie.zombie g in
  let time := Zombie.timeSinceLastStateChange z + deltaTime in
  let due := (2.0 <? time) && Zombie.isAlive z in
  exists g',
    Zombie.exec (Zombie.update random deltaTime clock) g = Some g'
    /\ Zombie.timeSinceLastStateChange (Zombie.zombie g') = time
    /\ Zombie.isAlive (Zombie.zombie g') = Zombie.isAlive z && negb due
    /\ Zombie.timers g'
       = Zombie.timers g
         ++ (if due then [(Zombie.removeEntity, 3000)] else [])
    /\ (Zombie.isAlive z = false -> Zombie.timers g' = Zombie.timers g).
Proof.
  intros Ho He Hs z time due. subst z time due.
  destruct g as [z pl dr tm].
  destruct z as [pos rot en st h la ts al bd obj mix anims cur].
  cbn in Ho, He, Hs. subst obj en st. zunfold; zstep.
  destruct (2.0 <? ts + deltaTime); destruct al; zstep;
    repeat (match goal with
            | |- context [if ?c then _ else _] =>
                lazymatch c with
                | context [if _ then _ else _] => fail
                | _ => destruct c eqn:?
                end
            end; zstep);
    first [ eexists; split; [reflexivity |]; zstep;
            repeat split; try reflexivity;
            try (symmetry; apply app_nil_r);
            try (intros; reflexivity); try (intros; discriminate);
            try (intros; symmetry; apply app_nil_r)
          | exfalso; rewrite ?andb_false_r in *; congruence ].
Qed.

(** X30 at a zombie dead for 1.99 s: the next update asks for the removal,
    and the one after that does not ask again. *)
Lemma zombie_removal_once_witness :
  let dying :=
    Zombie.mkGame
      (Zombie.with_state
         (Sample.zombieAt Zombie.Death (Vector3.mk 10 0 0)) Zombie.Death 1.99)
      None 0 [] in
  exists g1 g2,
    Zombie.exec (Zombie.update Sample.random (1 / 60) (Zombie.mkClock 0 0))
      dying = Some g1
    /\ Zombie.timers g1 = [(Zombie.removeEntity, 3000)]
    /\ Zombie.exec (Zombie.update Sample.random (1 / 60) (Zombie.mkClock 0 0))
         g1 = Some g2
    /\ Zombie.timers g2 = [(Zombie.removeEntity, 3000)].
Proof.
  intros dying.
  destruct (zombie_removal_once Sample.random (1 / 60) (Zombie.mkClock 0 0)
              dying (Zombie.mkModel (Vector3.mk 10 0 0) 0)
              eq_refl eq_refl eq_refl)
    as (g1 & He1 & _ & Ha1 & Ht1 & _).
  cbn [dying Zombie.zombie Zombie.timers Zombie.timeSinceLastStateChange
       Zombie.with_state Zombie.isAlive Sample.zombieAt app] in Ha1, Ht1.
  replace (2.0 <? 1.99 + 1 / 60) with true in Ha1, Ht1
    by (symmetry; apply Rltb_true; lra).
  cbn in Ha1, Ht1.
  assert (Hg1 : Zombie.object (Zombie.zombie g1) <> None
                /\ Zombie.enabled (Zombie.zombie g1) = true
                /\ Zombie.state (Zombie.zombie g1) = Zombie.Death).
  { revert He1. unfold dying, Sample.zombieAt. zunfold; zstep.
    repeat first [ progress decide_tests | progress zstep ].
    intros H. injection H as <-. zstep.
    split; [discriminate | split; reflexivity]. }
  destruct Hg1 as (Ho & Hen & Hst).
  destruct (Zombie.object (Zombie.zombie g1)) as [m1 |] eqn:Eo;
    [| contradiction].
  destruct (zombie_removal_once Sample.random (1 / 60) (Zombie.mkClock 0 0)
              g1 m1 Eo Hen Hst) as (g2 & He2 & _ & _ & _ & Ht2).
  exists g1, g2.
  split; [exact He1 | split; [exact Ht1 | split; [exact He2 |]]].
  rewrite Ht2 by exact Ha1. exact Ht1.
Defined.
